(** * XMLHttpRequest emulation (src/ssr/functions/XMLHttpRequest.ts)

    A shallow embedding of the request object: its private variables and
    public fields form one record, every method is a state transformer that
    may throw, and everything the object does to the outside world
    (assignments to [readyState], [dispatchEvent], [console.warn], outgoing
    transport calls) is appended to an effect log, in program order.

    Conventions.
    - Strings are byte strings; [toLowerCase] lower-cases the letters A-Z
      only, which is what JavaScript does to an ASCII string ([isAscii]).
    - A JS object used as a dictionary is a [gmap] of its own properties;
      the properties it inherits from [Object.prototype] are not in it. The
      map agrees with the object for every name that is not inherited
      ([inherited], [plainName]); a statement whose truth depends on a name
      given from outside says so.
    - [http.request] is taken to accept the request it is given; the module
      [Checked] adds the case that it throws.
    - Event handlers and listeners are observers: [dispatchEvent] is recorded
      in the log, the handlers it calls do not touch the request.
    - What Node provides (URL parsing, base64, the file system, the worker
      process of synchronous mode) is a parameter, the record [Node]. *)

From Stdlib Require Import ZArith List Ascii String Bool Lia.
From stdpp Require Import gmap strings list fin_maps pretty.

Local Open Scope Z_scope.

(** ** JavaScript values *)

(** Errors thrown by the object itself, with the message of the source. *)
Inductive Exn :=
| SecurityError (msg : string)      (* "SecurityError: ..." *)
| InvalidStateError (msg : string)  (* "INVALID_STATE_ERR: ..." *)
| PlainError (msg : string)         (* any other [new Error(msg)] *)
| TypeError (msg : string).         (* raised by the runtime *)

(** An error value handed over by the transport or the file system. Only its
    [stack] property is read ([undefined] when the value has none). *)
Record NodeError := { errName : string; stack : option string }.

(** A request header value: [headers] is a
    [Record<string, string | number>]. *)
Inductive HVal := HStr (s : string) | HNum (n : Z).

(** A response header value as Node delivers it: a string, or an array of
    strings (set-cookie). *)
Inductive RVal := RStr (s : string) | RArr (l : list string).

(** [url.port || (ssl ? 443 : 80)]: a non-empty string or a number. *)
Inductive PortVal := PStr (s : string) | PNum (n : Z).

Definition truthy (s : string) : bool := negb (String.eqb s "").

Definition truthyH (v : HVal) : bool :=
  match v with HStr s => truthy s | HNum n => negb (n =? 0) end.

(** String conversion in [a + b] when one side is a string. *)
Definition strH (v : HVal) : string :=
  match v with HStr s => s | HNum n => pretty n end.

Definition strR (v : RVal) : string :=
  match v with RStr s => s | RArr l => String.concat "," l end.

(** [undefined + "x"] is ["undefinedx"], [null + "x"] is ["nullx"]. *)
Definition strUndef (o : option string) : string := default "undefined" o.
Definition strNull (o : option string) : string := default "null" o.

(** [toLowerCase] on the letters A-Z; other bytes stay. This is JavaScript's
    [toLowerCase] on ASCII strings. *)
Definition lower_ascii (c : ascii) : ascii :=
  let n := N_of_ascii c in
  if ((65 <=? n) && (n <=? 90))%N then ascii_of_N (n + 32) else c.

Fixpoint toLowerCase (s : string) : string :=
  match s with
  | EmptyString => EmptyString
  | String c r => String (lower_ascii c) (toLowerCase r)
  end.

Definition CRLF : string :=
  String (ascii_of_nat 13) (String (ascii_of_nat 10) EmptyString).

(** The one-character string holding a double quote. *)
Definition DQUOTE : string := String (ascii_of_nat 34) EmptyString.

(** ** Data model *)

Definition UNSENT : Z := 0.
Definition OPENED : Z := 1.
Definition HEADERS_RECEIVED : Z := 2.
Definition LOADING : Z := 3.
Definition DONE : Z := 4.

(** The parts of a WHATWG [URL] object the code reads. *)
Record URL := {
  protocol : string;
  hostname : string;
  port : string;
  pathname : string;
  search : string
}.

(** [settings]; it starts as [{}], every property [undefined]. [async] keeps
    the truth value only, [user] and [password] are [None] for [null]. *)
Record Settings := {
  method : option string;
  url : option string;
  async : bool;
  user : option string;
  password : option string
}.

Definition emptySettings : Settings :=
  {| method := None; url := None; async := false; user := None; password := None |}.

(** The argument of [http.request]: [options] of [send] sets [host] and
    [agent], [newOptions] of the redirect sets [hostname]. [o_headers] is the
    content of [headers] when the request is issued. *)
Record Options := {
  o_host : option string;
  o_hostname : option string;
  o_port : PortVal;
  o_path : string;
  o_method : option string;
  o_headers : gmap string HVal;
  o_agent : option bool;
  o_withCredentials : bool
}.

(** What the code reads of an [http.IncomingMessage], or of [resp.data] in
    synchronous mode; [rheaders] in the enumeration order of [for ... in]. *)
Record Response := {
  statusCode : Z;
  rheaders : list (string * RVal)
}.

Inductive Effect :=
| SetReadyState (st : Z)               (* self.readyState = st *)
| Dispatch (event : string)            (* self.dispatchEvent(event) *)
| Warn (msg : string)                  (* console.warn(msg) *)
| Request (ssl : bool) (o : Options) (body : option string)
                                       (* doRequest(o, ...), write(body), end() *)
| AbortRequest                         (* request.abort() *)
| ReadFile (path : string).            (* fs.readFile(path, "utf8", callback) *)

(** The request object. [headers] is a variable that refers either to the
    object created for it or, after [abort], to the object [defaultHeaders]:
    [headersAliased] says which, and writes through [headers] go there. *)
Record XHR := mkXHR {
  readyState : Z;
  status : option Z;
  statusText : option NodeError;
  responseText : option string;
  responseXML : string;
  withCredentials : bool;
  request : option Options;
  response : option Response;
  settings : Settings;
  disableHeaderCheck : bool;
  defaultHeaders : gmap string HVal;
  ownHeaders : gmap string HVal;
  headersAliased : bool;
  headersCase : gmap string string;
  sendFlag : bool;
  errorFlag : bool;
  log : list Effect
}.

Definition initialDefaults : gmap string HVal :=
  <["User-Agent" := HStr "node-XMLHttpRequest"]> (<["Accept" := HStr "*/*"]> ∅).

(** [new XMLHttpRequest()]. *)
Definition initial : XHR :=
  {| readyState := UNSENT; status := None; statusText := None;
     responseText := Some ""; responseXML := ""; withCredentials := false;
     request := None; response := None; settings := emptySettings;
     disableHeaderCheck := false; defaultHeaders := initialDefaults;
     ownHeaders := ∅; headersAliased := false; headersCase := ∅;
     sendFlag := false; errorFlag := false; log := [] |}.

Definition forbiddenRequestHeaders : list string :=
  [ "accept-charset"; "accept-encoding"; "access-control-request-headers";
    "access-control-request-method"; "connection"; "content-length";
    "content-transfer-encoding"; "cookie"; "cookie2"; "date"; "expect";
    "host"; "keep-alive"; "origin"; "referer"; "te"; "trailer";
    "transfer-encoding"; "upgrade"; "via" ].

Definition forbiddenRequestMethods : list string := [ "TRACE"; "TRACK"; "CONNECT" ].

(** ** Field updates *)

Definition set_readyState (v : Z) (s : XHR) : XHR :=
  mkXHR v (status s) (statusText s) (responseText s) (responseXML s)
    (withCredentials s) (request s) (response s) (settings s)
    (disableHeaderCheck s) (defaultHeaders s) (ownHeaders s) (headersAliased s)
    (headersCase s) (sendFlag s) (errorFlag s) (log s).

Definition set_status (v : option Z) (s : XHR) : XHR :=
  mkXHR (readyState s) v (statusText s) (responseText s) (responseXML s)
    (withCredentials s) (request s) (response s) (settings s)
    (disableHeaderCheck s) (defaultHeaders s) (ownHeaders s) (headersAliased s)
    (headersCase s) (sendFlag s) (errorFlag s) (log s).

Definition set_statusText (v : option NodeError) (s : XHR) : XHR :=
  mkXHR (readyState s) (status s) v (responseText s) (responseXML s)
    (withCredentials s) (request s) (response s) (settings s)
    (disableHeaderCheck s) (defaultHeaders s) (ownHeaders s) (headersAliased s)
    (headersCase s) (sendFlag s) (errorFlag s) (log s).

Definition set_responseText (v : option string) (s : XHR) : XHR :=
  mkXHR (readyState s) (status s) (statusText s) v (responseXML s)
    (withCredentials s) (request s) (response s) (settings s)
    (disableHeaderCheck s) (defaultHeaders s) (ownHeaders s) (headersAliased s)
    (headersCase s) (sendFlag s) (errorFlag s) (log s).

Definition set_responseXML (v : string) (s : XHR) : XHR :=
  mkXHR (readyState s) (status s) (statusText s) (responseText s) v
    (withCredentials s) (request s) (response s) (settings s)
    (disableHeaderCheck s) (defaultHeaders s) (ownHeaders s) (headersAliased s)
    (headersCase s) (sendFlag s) (errorFlag s) (log s).

Definition set_request (v : option Options) (s : XHR) : XHR :=
  mkXHR (readyState s) (status s) (statusText s) (responseText s) (responseXML s)
    (withCredentials s) v (response s) (settings s)
    (disableHeaderCheck s) (defaultHeaders s) (ownHeaders s) (headersAliased s)
    (headersCase s) (sendFlag s) (errorFlag s) (log s).

Definition set_response (v : option Response) (s : XHR) : XHR :=
  mkXHR (readyState s) (status s) (statusText s) (responseText s) (responseXML s)
    (withCredentials s) (request s) v (settings s)
    (disableHeaderCheck s) (defaultHeaders s) (ownHeaders s) (headersAliased s)
    (headersCase s) (sendFlag s) (errorFlag s) (log s).

Definition set_settings (v : Settings) (s : XHR) : XHR :=
  mkXHR (readyState s) (status s) (statusText s) (responseText s) (responseXML s)
    (withCredentials s) (request s) (response s) v
    (disableHeaderCheck s) (defaultHeaders s) (ownHeaders s) (headersAliased s)
    (headersCase s) (sendFlag s) (errorFlag s) (log s).

Definition set_disableHeaderCheck (v : bool) (s : XHR) : XHR :=
  mkXHR (readyState s) (status s) (statusText s) (responseText s) (responseXML s)
    (withCredentials s) (request s) (response s) (settings s)
    v (defaultHeaders s) (ownHeaders s) (headersAliased s)
    (headersCase s) (sendFlag s) (errorFlag s) (log s).

Definition set_defaultHeaders (v : gmap string HVal) (s : XHR) : XHR :=
  mkXHR (readyState s) (status s) (statusText s) (responseText s) (responseXML s)
    (withCredentials s) (request s) (response s) (settings s)
    (disableHeaderCheck s) v (ownHeaders s) (headersAliased s)
    (headersCase s) (sendFlag s) (errorFlag s) (log s).

Definition set_ownHeaders (v : gmap string HVal) (s : XHR) : XHR :=
  mkXHR (readyState s) (status s) (statusText s) (responseText s) (responseXML s)
    (withCredentials s) (request s) (response s) (settings s)
    (disableHeaderCheck s) (defaultHeaders s) v (headersAliased s)
    (headersCase s) (sendFlag s) (errorFlag s) (log s).

Definition set_headersAliased (v : bool) (s : XHR) : XHR :=
  mkXHR (readyState s) (status s) (statusText s) (responseText s) (responseXML s)
    (withCredentials s) (request s) (response s) (settings s)
    (disableHeaderCheck s) (defaultHeaders s) (ownHeaders s) v
    (headersCase s) (sendFlag s) (errorFlag s) (log s).

Definition set_headersCase (v : gmap string string) (s : XHR) : XHR :=
  mkXHR (readyState s) (status s) (statusText s) (responseText s) (responseXML s)
    (withCredentials s) (request s) (response s) (settings s)
    (disableHeaderCheck s) (defaultHeaders s) (ownHeaders s) (headersAliased s)
    v (sendFlag s) (errorFlag s) (log s).

Definition set_sendFlag (v : bool) (s : XHR) : XHR :=
  mkXHR (readyState s) (status s) (statusText s) (responseText s) (responseXML s)
    (withCredentials s) (request s) (response s) (settings s)
    (disableHeaderCheck s) (defaultHeaders s) (ownHeaders s) (headersAliased s)
    (headersCase s) v (errorFlag s) (log s).

Definition set_errorFlag (v : bool) (s : XHR) : XHR :=
  mkXHR (readyState s) (status s) (statusText s) (responseText s) (responseXML s)
    (withCredentials s) (request s) (response s) (settings s)
    (disableHeaderCheck s) (defaultHeaders s) (ownHeaders s) (headersAliased s)
    (headersCase s) (sendFlag s) v (log s).

Definition set_log (v : list Effect) (s : XHR) : XHR :=
  mkXHR (readyState s) (status s) (statusText s) (responseText s) (responseXML s)
    (withCredentials s) (request s) (response s) (settings s)
    (disableHeaderCheck s) (defaultHeaders s) (ownHeaders s) (headersAliased s)
    (headersCase s) (sendFlag s) (errorFlag s) v.

(** The object [headers] refers to, and an assignment [headers[k] = v]. *)
Definition headers (s : XHR) : gmap string HVal :=
  if headersAliased s then defaultHeaders s else ownHeaders s.

Definition write_header (k : string) (v : HVal) (s : XHR) : XHR :=
  if headersAliased s
  then set_defaultHeaders (<[k := v]> (defaultHeaders s)) s
  else set_ownHeaders (<[k := v]> (ownHeaders s)) s.

Definition emit (e : Effect) (s : XHR) : XHR := set_log (log s ++ [e]) s.

(** ** Methods as state transformers that may throw *)

Inductive Outcome (A : Type) :=
| Return (a : A)
| Throw (e : Exn).
Arguments Return {A} a.
Arguments Throw {A} e.

(** A throw keeps the assignments made before it. *)
Definition M (A : Type) : Type := XHR -> XHR * Outcome A.

Definition ret {A} (a : A) : M A := fun s => (s, Return a).
Definition throw {A} (e : Exn) : M A := fun s => (s, Throw e).
Definition bind {A B} (m : M A) (k : A -> M B) : M B :=
  fun s => match m s with
           | (s', Return a) => k a s'
           | (s', Throw e) => (s', Throw e)
           end.
Definition modify (f : XHR -> XHR) : M unit := fun s => (f s, Return tt).
Definition when (b : bool) (m : M unit) : M unit := if b then m else ret tt.

Definition get : M XHR := fun s => (s, Return s).

Notation "'let!' x ':=' m 'in' k" := (bind m (fun x => k))
  (at level 10, x name, m at level 100, k at level 200, only parsing).
Notation "m '>>;' k" := (bind m (fun _ => k))
  (at level 100, k at level 200, right associativity, only parsing).

(** [dispatchEvent(event)]: the [on<event>] handler, then the listeners. *)
Definition dispatchEvent (event : string) : M unit := modify (emit (Dispatch event)).

(** [setState(state)], lines 655-669. *)
Definition setState (state : Z) : M unit :=
  let! s := get in
  when ((state =? LOADING) || negb (readyState s =? state))
    (modify (set_readyState state) >>;
     modify (emit (SetReadyState state)) >>;
     (let! s := get in
      when (async (settings s) || (readyState s <? OPENED) || (readyState s =? DONE))
        (dispatchEvent "readystatechange")) >>;
     (let! s := get in
      when ((readyState s =? DONE) && negb (errorFlag s))
        (dispatchEvent "load" >>; dispatchEvent "loadend"))).

(** [isAllowedHttpHeader(header)], lines 129-133. *)
Definition isAllowedHttpHeader (s : XHR) (header : string) : bool :=
  disableHeaderCheck s
  || (truthy header && negb (bool_decide (toLowerCase header ∈ forbiddenRequestHeaders))).

(** [isAllowedHttpMethod(method)], lines 141-143; [indexOf] compares with
    [===], so the match is case-sensitive. *)
Definition isAllowedHttpMethod (m : string) : bool :=
  truthy m && negb (bool_decide (m ∈ forbiddenRequestMethods)).

(** [open(method, url, async, user, password)], lines 158-182. [async_] is
    [None] when the argument is not a boolean. *)
Definition open (method_ url_ : string) (async_ : option bool)
    (user_ password_ : option string) : M unit :=
  modify (set_errorFlag false) >>;
  (if negb (isAllowedHttpMethod method_)
   then throw (SecurityError "SecurityError: Request method not allowed")
   else ret tt) >>;
  modify (set_settings
            {| method := Some method_;
               url := Some url_;
               async := default true async_;
               user := match user_ with Some u => if truthy u then Some u else None | None => None end;
               password := match password_ with Some p => if truthy p then Some p else None | None => None end |}) >>;
  setState OPENED.

(** [setDisableHeaderCheck(state)], lines 190-192. *)
Definition setDisableHeaderCheck (state : bool) : M unit :=
  modify (set_disableHeaderCheck state).

(** The warning of line 205. *)
Definition refusedWarning (h : string) : Effect :=
  Warn ("Refused to set unsafe header " +:+ DQUOTE +:+ h +:+ DQUOTE).

(** [setRequestHeader(header, value)], lines 200-214, for a name whose
    lookups in lines 211-213 find own properties only ([plainName], defined
    with the vocabulary below). For other names the source finds what
    [Object.prototype] holds: it throws a TypeError in line 212
    ([constructor], [__proto__]) or appends to the text of an inherited
    function ([toString]). *)
Definition setRequestHeader (header value : string) : M unit :=
  fun s =>
    if negb (readyState s =? OPENED) then
      throw (InvalidStateError
               "INVALID_STATE_ERR: setRequestHeader can only be called when state is OPEN") s
    else if negb (isAllowedHttpHeader s header) then
      modify (emit (refusedWarning header)) s
    else if sendFlag s then
      throw (InvalidStateError "INVALID_STATE_ERR: send flag is true") s
    else
      let header' :=
        match headersCase s !! toLowerCase header with
        | Some k => if truthy k then k else header
        | None => header
        end in
      let s1 := set_headersCase (<[toLowerCase header' := header']> (headersCase s)) s in
      let v :=
        match headers s1 !! header' with
        | Some old => if truthyH old then HStr (strH old +:+ ", " +:+ value) else HStr value
        | None => HStr value
        end in
      (write_header header' v s1, Return tt).

Definition truthyR (v : RVal) : bool :=
  match v with RStr s => truthy s | RArr _ => true end.

(** [response.headers[name]], for a name that the object does not inherit
    from [Object.prototype]. *)
Definition rheader (name : string) (r : Response) : option RVal :=
  snd <$> find (fun kv => String.eqb (fst kv) name) (rheaders r).

(** [getResponseHeader(header)], lines 222-235; [None] is [null]. A header
    whose value is the empty string also yields [null]. *)
Definition getResponseHeader (header : string) (s : XHR) : option RVal :=
  if (OPENED <? readyState s) && negb (errorFlag s) then
    match response s with
    | Some r =>
        match rheader (toLowerCase header) r with
        | Some v => if truthyR v then Some v else None
        | None => None
        end
    | None => None
    end
  else None.

(** [i + ": " + response.headers[i]]. *)
Definition headerLine (kv : string * RVal) : string :=
  fst kv +:+ ": " +:+ strR (snd kv).

(** [getAllResponseHeaders()], lines 242-263. Both arms of the cookie test
    append the same line ([Array.isArray] of a key is false). Reading
    [response.headers] when [response] is [undefined] throws. *)
Definition getAllResponseHeaders (s : XHR) : Outcome string :=
  if (readyState s <? HEADERS_RECEIVED) || errorFlag s then Return ""
  else
    match response s with
    | None => Throw (TypeError "Cannot read properties of undefined (reading 'headers')")
    | Some r =>
        let result :=
          fold_left (fun acc kv => acc +:+ headerLine kv +:+ CRLF) (rheaders r) "" in
        Return (String.substring 0 (String.length result - 2) result)
    end.

(** [getRequestHeader(name)], lines 271-277; [None] is [undefined]. As for
    [setRequestHeader], the lookups are those of the source for names that
    are not inherited. *)
Definition getRequestHeader (name : string) (s : XHR) : option HVal :=
  match headersCase s !! toLowerCase name with
  | Some k => if truthy k then headers s !! k else Some (HStr "")
  | None => Some (HStr "")
  end.

(** [handleError(error)], lines 572-579. *)
Definition handleError (error : NodeError) : M unit :=
  modify (set_status (Some 0)) >>;
  modify (set_statusText (Some error)) >>;
  modify (set_responseText (stack error)) >>;
  modify (set_errorFlag true) >>;
  setState DONE >>;
  dispatchEvent "error".

(** [abort()], lines 584-607. *)
Definition abort : M unit :=
  (let! s := get in
   when (match request s with Some _ => true | None => false end)
     (modify (emit AbortRequest) >>; modify (set_request None))) >>;
  modify (set_headersAliased true) >>;
  modify (set_status (Some 0)) >>;
  modify (set_responseText (Some "")) >>;
  modify (set_responseXML "") >>;
  modify (set_errorFlag true) >>;
  (let! s := get in
   when (negb (readyState s =? UNSENT)
         && (negb (readyState s =? OPENED) || sendFlag s)
         && negb (readyState s =? DONE))
     (modify (set_sendFlag false) >>; setState DONE)) >>;
  modify (set_readyState UNSENT) >>;
  modify (emit (SetReadyState UNSENT)) >>;
  dispatchEvent "abort".

(** ** The host environment *)

(** What the worker process of synchronous mode hands back: [{err}] or
    [{err: null, data: {statusCode, headers, text}}]. *)
Inductive WorkerResult :=
| WErr (e : NodeError)
| WData (r : Response) (text : string).

Record Node := {
  parseURL : string -> option URL;        (* new Url.URL(s); [None]: it throws *)
  base64 : string -> string;              (* Buffer.from(s).toString("base64") *)
  readFileSync : string -> NodeError + string;
  runWorker : bool -> Options -> option string -> WorkerResult
                                          (* the spawned process, once the
                                             sync file is gone *)
}.

Definition newURL (node : Node) (u : option string) : M URL :=
  match u ≫= parseURL node with
  | Some x => ret x
  | None => throw (TypeError "Invalid URL")
  end.

Definition truthyO (o : option string) : bool :=
  match o with Some x => truthy x | None => false end.

Definition isMethod (m : option string) (name : string) : bool :=
  match m with Some x => String.eqb x name | None => false end.

(** [port === n]. *)
Definition portIs (p : PortVal) (n : Z) : bool :=
  match p with PNum k => k =? n | PStr _ => false end.

(** ** send *)

(** Lines 323-349: a [file:] URL. *)
Definition sendLocal (node : Node) (u : URL) : M unit :=
  let! s := get in
  (if negb (isMethod (method (settings s)) "GET")
   then throw (PlainError "XMLHttpRequest: Only GET method is supported")
   else ret tt) >>;
  if async (settings s) then modify (emit (ReadFile (pathname u)))
  else
    match readFileSync node (pathname u) with
    | inr data =>
        modify (set_responseText (Some data)) >>;
        modify (set_status (Some 200)) >>;
        setState DONE
    | inl e => handleError e
    end.

(** Lines 358-362: [for (const name in defaultHeaders)]. *)
Definition applyDefaults (s : XHR) : XHR :=
  map_fold (fun name v acc =>
              if truthyO (headersCase s !! toLowerCase name) then acc
              else write_header name v acc)
           s (defaultHeaders s).

(** Lines 379-392: the content length; the result is [data] afterwards. *)
Definition contentLength (data : option string) : M (option string) :=
  let! s := get in
  if isMethod (method (settings s)) "GET" || isMethod (method (settings s)) "HEAD" then
    ret None
  else if truthyO data then
    modify (write_header "Content-Length"
              (HNum (Z.of_nat (String.length (default "" data))))) >>;
    (let! s := get in
     when (negb (match headers s !! "Content-Type" with
                 | Some v => truthyH v
                 | None => false
                 end))
       (modify (write_header "Content-Type" (HStr "text/plain;charset=UTF-8")))) >>;
    ret data
  else if isMethod (method (settings s)) "POST" then
    modify (write_header "Content-Length" (HNum 0)) >>; ret data
  else ret data.

(** Line 353: [url.port || (ssl ? 443 : 80)]. *)
Definition portOf (u : URL) (ssl : bool) : PortVal :=
  if truthy (port u) then PStr (port u) else PNum (if ssl then 443 else 80).

(** Lines 357-392: what [send] puts into [headers] for an [http:], [https:]
    or scheme-less URL; [ssl] and [host] are the variables the [switch] has
    set. [headers.Host += ":" + url.port] reads the value just assigned,
    [host]. [open] stores [null] for a missing password, never [undefined],
    so the password is concatenated as it is. The result is [data]
    afterwards. *)
Definition prepareHeaders (node : Node) (u : URL) (ssl : bool) (host : string)
    (data : option string) : M (option string) :=
  modify applyDefaults >>;
  modify (write_header "Host" (HStr host)) >>;
  when (negb ((ssl && portIs (portOf u ssl) 443) || portIs (portOf u ssl) 80))
    (modify (write_header "Host" (HStr (host +:+ ":" +:+ port u)))) >>;
  (let! s := get in
   when (truthyO (user (settings s)))
     (modify (write_header "Authorization"
                (HStr ("Basic " +:+
                       base64 node (default "" (user (settings s)) +:+ ":" +:+
                                    strNull (password (settings s)))))))) >>;
  contentLength data.

(** Lines 351-566: [send] for an [http:], [https:] or scheme-less URL. In
    synchronous mode the hand-over through the two files is [runWorker].
    The call of [doRequest] in line 488 is taken to accept the request;
    [Checked.sendNetwork] below has the case that it throws. *)
Definition sendNetwork (node : Node) (u : URL) (ssl : bool) (host : string)
    (data : option string) : M unit :=
  let uri := pathname u +:+ (if truthy (search u) then search u else "") in
  let! data := prepareHeaders node u ssl host data in
  let body := if truthyO data then data else None in
  let! s := get in
  let options :=
    {| o_host := Some host; o_hostname := None; o_port := portOf u ssl; o_path := uri;
       o_method := method (settings s); o_headers := headers s;
       o_agent := Some false; o_withCredentials := withCredentials s |} in
  modify (set_errorFlag false) >>;
  if async (settings s) then
    modify (set_sendFlag true) >>;
    dispatchEvent "readystatechange" >>;
    modify (emit (Request ssl options body)) >>;
    modify (set_request (Some options)) >>;
    dispatchEvent "loadstart"
  else
    match runWorker node ssl options body with
    | WErr e => handleError e
    | WData r text =>
        modify (set_response (Some r)) >>;
        modify (set_status (Some (statusCode r))) >>;
        modify (set_responseText (Some text)) >>;
        setState DONE
    end.

(** [send(data)], lines 284-567. *)
Definition send (node : Node) (data : option string) : M unit :=
  let! s := get in
  (if negb (readyState s =? OPENED)
   then throw (InvalidStateError
                 "INVALID_STATE_ERR: connection must be opened before send() is called")
   else ret tt) >>;
  (if sendFlag s
   then throw (InvalidStateError "INVALID_STATE_ERR: send has already been called")
   else ret tt) >>;
  let! u := newURL node (url (settings s)) in
  if String.eqb (protocol u) "https:" then sendNetwork node u true "" data
  else if String.eqb (protocol u) "http:" then sendNetwork node u false (hostname u) data
  else if String.eqb (protocol u) "file:" then sendLocal node u
  else if String.eqb (protocol u) "" then sendNetwork node u false "localhost" data
  else throw (PlainError "Protocol not supported.").

(** ** Transport callbacks of asynchronous mode *)

Definition isRedirect (code : Z) : bool :=
  (code =? 301) || (code =? 302) || (code =? 303) || (code =? 307).

Definition set_url (v : option string) (st : Settings) : Settings :=
  {| method := method st; url := v; async := async st;
     user := user st; password := password st |}.

(** [responseHandler(resp)], lines 419-480. [ssl] is the variable of the
    [send] call that created the handler ([doRequest] is chosen from it). *)
Definition responseHandler (node : Node) (ssl : bool) (resp : Response) : M unit :=
  modify (set_response (Some resp)) >>;
  if isRedirect (statusCode resp) then
    let location := strR <$> rheader "location" resp in
    modify (fun s => set_settings (set_url location (settings s)) s) >>;
    let! u := newURL node location in
    let! s := get in
    let newOptions :=
      {| o_host := None; o_hostname := Some (hostname u); o_port := PStr (port u);
         o_path := pathname u;
         o_method := if statusCode resp =? 303 then Some "GET" else method (settings s);
         o_headers := headers s; o_agent := None;
         o_withCredentials := withCredentials s |} in
    modify (emit (Request ssl newOptions None)) >>;
    modify (set_request (Some newOptions))
  else
    setState HEADERS_RECEIVED >>;
    modify (set_status (Some (statusCode resp))).

Inductive Callback :=
| OnResponse (ssl : bool) (resp : Response)  (* responseHandler *)
| OnData (chunk : string)                    (* response.on("data") *)
| OnEnd                                      (* response.on("end") *)
| OnError (e : NodeError)                    (* errorHandler, response.on("error") *)
| OnFileRead (r : NodeError + string).       (* the callback of fs.readFile *)

Definition callback (node : Node) (cb : Callback) : M unit :=
  match cb with
  | OnResponse ssl resp => responseHandler node ssl resp
  | OnData chunk =>
      when (truthy chunk)
        (modify (fun s => set_responseText (Some (strUndef (responseText s) +:+ chunk)) s)) >>;
      let! s := get in
      when (sendFlag s) (setState LOADING)
  | OnEnd =>
      let! s := get in
      when (sendFlag s) (setState DONE >>; modify (set_sendFlag false))
  | OnError e => handleError e
  | OnFileRead (inl e) => handleError e
  | OnFileRead (inr data) =>
      modify (set_status (Some 200)) >>;
      modify (set_responseText (Some data)) >>;
      setState DONE
  end.

(** The callbacks the event loop delivers, in order. An exception thrown in
    a callback does not undo what the callback did before. *)
Definition deliver (node : Node) (cbs : list Callback) (s : XHR) : XHR :=
  fold_left (fun s cb => fst (callback node cb s)) cbs s.

(** How often [event] was dispatched so far. *)
Definition isDispatch (event : string) (e : Effect) : bool :=
  match e with Dispatch ev => String.eqb ev event | _ => false end.

Definition fired (event : string) (s : XHR) : nat :=
  length (List.filter (isDispatch event) (log s)).

(** ** Examples of the host environment

    The URL objects Node builds for a few inputs (a default port is
    reported as the empty string, a relative reference is not a URL), a file
    system holding one file, and a worker whose request is answered with
    201 and the body [{}]. No example sets credentials, so [base64] is not
    exercised. *)
Definition exampleURLs : list (string * URL) :=
  [ ("http://example.com/",
     {| protocol := "http:"; hostname := "example.com"; port := "";
        pathname := "/"; search := "" |});
    ("http://example.com:8080/a?b=1",
     {| protocol := "http:"; hostname := "example.com"; port := "8080";
        pathname := "/a"; search := "?b=1" |});
    ("https://example.com/",
     {| protocol := "https:"; hostname := "example.com"; port := "";
        pathname := "/"; search := "" |});
    ("https://example.com:8443/",
     {| protocol := "https:"; hostname := "example.com"; port := "8443";
        pathname := "/"; search := "" |});
    ("http://example.com/other?page=2",
     {| protocol := "http:"; hostname := "example.com"; port := "";
        pathname := "/other"; search := "?page=2" |});
    ("file:///etc/hosts",
     {| protocol := "file:"; hostname := ""; port := "";
        pathname := "/etc/hosts"; search := "" |}) ].

Definition exampleNode : Node :=
  {| parseURL := fun s => snd <$> find (fun kv => String.eqb (fst kv) s) exampleURLs;
     base64 := fun s => s;
     readFileSync := fun _ => inr "127.0.0.1 localhost";
     runWorker := fun _ _ _ =>
       WData {| statusCode := 201;
                rheaders := [("content-type", RStr "application/json")] |} "{}" |}.

(** [s] after the calls [m1; m2; ...], whatever they return. *)
Definition after (m : M unit) (s : XHR) : XHR := fst (m s).

(** * Vocabulary of the statements, and example requests *)

(** The request after [open("GET", "http://example.com/")]. *)
Definition opened : XHR :=
  after (open "GET" "http://example.com/" None None None) initial.

(** The request after [open("GET", "http://example.com/")] and [send()]:
    asynchronous, in flight, no callback delivered yet. *)
Definition sent : XHR := after (send exampleNode None) opened.

(** A sequence of [setRequestHeader] calls. *)
Fixpoint setRequestHeaders (calls : list (string * string)) : M unit :=
  match calls with
  | [] => ret tt
  | (h, v) :: rest => setRequestHeader h v >>; setRequestHeaders rest
  end.

(** The two header mappings are co-indexed. *)
Definition coindexed (s : XHR) : Prop :=
  (∀ k, is_Some (headers s !! k) → headersCase s !! toLowerCase k = Some k) ∧
  (∀ l k, headersCase s !! l = Some k → toLowerCase k = l ∧ is_Some (headers s !! k)).

(** The form under which the name [l] (lower case) was first set by one of
    the calls that the header check let through. *)
Definition firstForm (s : XHR) (l : string) (calls : list (string * string)) : option string :=
  find (fun h => String.eqb (toLowerCase h) l)
       (List.filter (isAllowedHttpHeader s) (map fst calls)).

(** The members of [Object.prototype]. An object literal inherits them, so
    [o[name]] and [name in o] find them when [o] has no property of that
    name itself. *)
Definition objectPrototype : list string :=
  [ "constructor"; "__defineGetter__"; "__defineSetter__"; "hasOwnProperty";
    "__lookupGetter__"; "__lookupSetter__"; "isPrototypeOf";
    "propertyIsEnumerable"; "toString"; "valueOf"; "__proto__";
    "toLocaleString" ].

Definition inherited (name : string) : bool :=
  bool_decide (name ∈ objectPrototype).

Definition isAscii (s : string) : bool :=
  forallb (fun c => Nat.ltb (nat_of_ascii c) 128) (list_ascii_of_string s).

(** A name for which the maps above are the objects of the source: it is
    ASCII, so that [toLowerCase] is the one of JavaScript, and neither the
    name nor its lower-case form is inherited from [Object.prototype]. *)
Definition plainName (name : string) : bool :=
  isAscii name && negb (inherited name) && negb (inherited (toLowerCase name)).

(** Line 213: the value stored when [value] is set and [old] is there. *)
Definition nextValue (old : option HVal) (value : string) : HVal :=
  match old with
  | Some o => if truthyH o then HStr (strH o +:+ ", " +:+ value) else HStr value
  | None => HStr value
  end.

(** The value after a sequence of values was set. *)
Definition appended (old : option HVal) (values : list string) : option HVal :=
  fold_left (fun acc value => Some (nextValue acc value)) values old.

(** The values of the calls for the name [l] (lower case) that the header
    check let through. *)
Definition valuesFor (s : XHR) (l : string) (calls : list (string * string))
    : list string :=
  map snd (List.filter (fun hv => isAllowedHttpHeader s (fst hv)
                                  && String.eqb (toLowerCase (fst hv)) l) calls).

(** From [s] to [s'] the error flag ends up set and neither [load] nor
    [loadend] was dispatched. *)
Definition quiet (s s' : XHR) : Prop :=
  errorFlag s' = true ∧
  fired "load" s' = fired "load" s ∧
  fired "loadend" s' = fired "loadend" s.

(** The request after [open("GET", "file:///etc/hosts")] and [send()]:
    asynchronous, the file read is pending. *)
Definition openedFile : XHR :=
  after (open "GET" "file:///etc/hosts" None None None) initial.

Definition sentFile : XHR := after (send exampleNode None) openedFile.

(** The requests issued so far: protocol function ([true] for
    [https.request]), [host], [hostname], [port], [path], [method]. *)
Definition requestLine (e : Effect)
    : option (bool * option string * option string * PortVal * string * option string) :=
  match e with
  | Request ssl o _ => Some (ssl, o_host o, o_hostname o, o_port o, o_path o, o_method o)
  | _ => None
  end.

Definition issued (s : XHR) := omap requestLine (log s).

(** A 302 or 303 answer with the given [Location]. *)
Definition moved (code : Z) (loc : string) : Response :=
  {| statusCode := code; rheaders := [("location", RStr loc)] |}.

(** The request after [open("GET", url)]. *)
Definition openedTo (url_ : string) : XHR :=
  after (open "GET" url_ None None None) initial.

(** The request after [open("GET", "http://example.com/", false)]. *)
Definition openedSync : XHR :=
  after (open "GET" "http://example.com/" (Some false) None None) initial.

(** A host whose worker is answered with 302 and a [Location]. *)
Definition redirectingNode : Node :=
  {| parseURL := parseURL exampleNode;
     base64 := base64 exampleNode;
     readFileSync := readFileSync exampleNode;
     runWorker := fun _ _ _ =>
       WData (moved 302 "http://example.com/other?page=2") "" |}.

(** The answer of the example worker, and a request that has already
    completed one asynchronous exchange with the body [first]. *)
Definition answer201 : Response :=
  {| statusCode := 201; rheaders := [("content-type", RStr "application/json")] |}.

Definition answered : XHR :=
  deliver exampleNode [OnResponse false answer201; OnData "first"; OnEnd] sent.

(** The request after [open("GET", "file:///etc/hosts", false)] and
    [send()]: the file has been read. *)
Definition loadedFile : XHR :=
  after (send exampleNode None)
    (after (open "GET" "file:///etc/hosts" (Some false) None None) initial).

(** [s] with the content of the object [headers] refers to replaced. *)
Definition withHeaders (m : gmap string HVal) (s : XHR) : XHR :=
  if headersAliased s then set_defaultHeaders m s else set_ownHeaders m s.

(** The value [send] leaves under [Host]. *)
Definition hostHeader (u : URL) (ssl : bool) (host : string) : string :=
  if (ssl && portIs (portOf u ssl) 443) || portIs (portOf u ssl) 80
  then host else host +:+ ":" +:+ port u.

(** The lines, each with its line end, as the loop accumulates them. *)
Fixpoint linesOf (l : list (string * RVal)) : string :=
  match l with
  | [] => ""
  | kv :: rest => (headerLine kv +:+ CRLF) +:+ linesOf rest
  end.

(** An answer with a cookie header, and the request once its headers have
    arrived. *)
Definition answerWithCookies : Response :=
  {| statusCode := 200;
     rheaders := [ ("content-type", RStr "text/html");
                   ("set-cookie", RArr ["a=1"; "b=2"]) ] |}.

Definition headersReceived : XHR :=
  deliver exampleNode [OnResponse false answerWithCookies] sent.

(** One complete answer of the transport: the headers, the body in chunks,
    the end. *)
Definition exchange (ssl : bool) (r : Response) (chunks : list string) : list Callback :=
  OnResponse ssl r :: map OnData chunks ++ [OnEnd].

(** The chunks of a body, put together. *)
Definition joined (chunks : list string) : string :=
  fold_right String.append "" chunks.

(** [s] opened in the other mode. *)
Definition withAsync (b : bool) (s : XHR) : XHR :=
  set_settings {| method := method (settings s); url := url (settings s);
                  async := b; user := user (settings s);
                  password := password (settings s) |} s.

(** * The rest of the interface *)

(** ** Event listeners, lines 613-648

    [listeners] is written by [addEventListener] and [removeEventListener]
    and read by [dispatchEvent] only, so it is kept apart from the other
    variables. A callback is a function value; [!==] compares references,
    here identifiers, which are numbers. [onHandlers] holds, per event, the
    property [on<event>] of the object when that is a function. *)
Record Registry := {
  onHandlers : gmap string nat;
  listeners : gmap string (list nat)
}.

Definition noListeners : Registry := {| onHandlers := ∅; listeners := ∅ |}.

(** [addEventListener(event, callback)], lines 613-619, for an event name
    that is not inherited from [Object.prototype]; for an inherited one
    [event in listeners] holds from the start and [push] on the inherited
    value throws. *)
Definition addEventListener (event : string) (callback : nat) (r : Registry) : Registry :=
  {| onHandlers := onHandlers r;
     listeners := <[event := default [] (listeners r !! event) ++ [callback]]> (listeners r) |}.

(** [removeEventListener(event, callback)], lines 626-634, for an event
    name that is not inherited. *)
Definition removeEventListener (event : string) (callback : nat) (r : Registry) : Registry :=
  match listeners r !! event with
  | Some l =>
      {| onHandlers := onHandlers r;
         listeners := <[event := List.filter (fun ev => negb (Nat.eqb ev callback)) l]>
                        (listeners r) |}
  | None => r
  end.

(** What one [dispatchEvent(event)] calls, lines 639-648: the [on<event>]
    handler without argument, then each listener with the object. *)
Inductive Invocation :=
| CallOn (h : nat)
| CallListener (h : nat).

Definition listenersOf (event : string) (r : Registry) : list nat :=
  default [] (listeners r !! event).

Definition invocations (event : string) (r : Registry) : list Invocation :=
  match onHandlers r !! event with Some h => [CallOn h] | None => [] end
  ++ map CallListener (listenersOf event r).

(** The calls made over a run, for a registry that stays as it is. *)
Definition handlerCalls (r : Registry) (l : list Effect) : list Invocation :=
  flat_map (fun e => match e with Dispatch ev => invocations ev r | _ => [] end) l.

(** A sequence of [addEventListener] calls. *)
Definition addAll (regs : list (string * nat)) (r : Registry) : Registry :=
  fold_left (fun r eh => addEventListener (fst eh) (snd eh) r) regs r.

(** ** Calls from outside

    What a user of the object and the event loop can do to it, apart from
    reading. *)
Inductive Call :=
| DoOpen (method_ url_ : string) (async_ : option bool) (user_ password_ : option string)
| DoSetRequestHeader (header value : string)
| DoSetDisableHeaderCheck (state : bool)
| DoSend (data : option string)
| DoAbort
| DoCallback (cb : Callback).

Definition perform (node : Node) (c : Call) : M unit :=
  match c with
  | DoOpen m u a usr pw => open m u a usr pw
  | DoSetRequestHeader h v => setRequestHeader h v
  | DoSetDisableHeaderCheck b => setDisableHeaderCheck b
  | DoSend data => send node data
  | DoAbort => abort
  | DoCallback cb => callback node cb
  end.

(** The state after a sequence of calls; a call that throws keeps what it
    has assigned and the next call goes on from there. *)
Definition run (node : Node) (cs : list Call) (s : XHR) : XHR :=
  fold_left (fun s c => fst (perform node c s)) cs s.

(** In a log, every [load] is followed at once by [loadend], and there is
    no other [loadend]. *)
Fixpoint loadPaired (l : list Effect) : bool :=
  match l with
  | [] => true
  | e :: rest =>
      if isDispatch "load" e then
        match rest with
        | e' :: rest' => isDispatch "loadend" e' && loadPaired rest'
        | [] => false
        end
      else negb (isDispatch "loadend" e) && loadPaired rest
  end.

(** Whatever the state before, [m] leaves a state related to it by [R]. *)
Definition later (R : XHR -> XHR -> Prop) {A : Type} (m : M A) : Prop :=
  forall s, R s (fst (m s)).

(** Every entry of [headersCase] is filed under the lower-case form of the
    name it holds. *)
Definition wellCased (s : XHR) : Prop :=
  forall l k, headersCase s !! l = Some k -> toLowerCase k = l.

(** Every registered name is a plain one. *)
Definition plainlyCased (s : XHR) : Prop :=
  forall l k, headersCase s !! l = Some k -> plainName k = true.


(** [m] returns normally from every state. *)
Definition returns {A : Type} (m : M A) : Prop := forall s, exists a, snd (m s) = Return a.

(** ** What [send] writes into [headers]

    The writes of lines 371-377 and 380-392, as functions of the content of
    the object [headers] refers to. *)
Definition authHeaders (node : Node) (st : Settings) (m : gmap string HVal)
    : gmap string HVal :=
  if truthyO (user st)
  then <["Authorization" :=
           HStr ("Basic " +:+ base64 node (default "" (user st) +:+ ":" +:+
                                           strNull (password st)))]> m
  else m.

Definition contentHeaders (meth : option string) (data : option string)
    (m : gmap string HVal) : gmap string HVal :=
  if isMethod meth "GET" || isMethod meth "HEAD" then m
  else if truthyO data then
    let m1 := <["Content-Length" := HNum (Z.of_nat (String.length (default "" data)))]> m in
    if match m1 !! "Content-Type" with Some v => truthyH v | None => false end
    then m1
    else <["Content-Type" := HStr "text/plain;charset=UTF-8"]> m1
  else if isMethod meth "POST" then <["Content-Length" := HNum 0]> m
  else m.

(** The body [send] hands to the transport: [data] is dropped for GET and
    HEAD, and written only when it is truthy. *)
Definition bodySent (meth : option string) (data : option string) : option string :=
  if isMethod meth "GET" || isMethod meth "HEAD" then None
  else if truthyO data then data else None.

(** A header after the loop over the defaults (lines 358-362). *)
Definition afterDefaults (s : XHR) (k : string) : option HVal :=
  match defaultHeaders s !! k with
  | Some v => if truthyO (headersCase s !! toLowerCase k) then headers s !! k else Some v
  | None => headers s !! k
  end.

(** The options of the request [send] issues in asynchronous mode. *)
Definition optionsOf (u : URL) (ssl : bool) (host : string) (s s' : XHR) : Options :=
  {| o_host := Some host; o_hostname := None; o_port := portOf u ssl;
     o_path := pathname u +:+ (if truthy (search u) then search u else "");
     o_method := method (settings s); o_headers := headers s';
     o_agent := Some false; o_withCredentials := withCredentials s |}.

(** ** A transport that refuses the request

    [http.request] and [https.request] check the method and the headers of
    a request when they are called and throw when they do not accept them,
    for instance a header name with a space in it. [sendNetwork] is lines
    351-566 for a request that is accepted. Here the other case is added:
    [refuse] tells for which requests the call of line 488 throws, and
    what. *)
Module Checked.
Section Transport.
Variable refuse : bool -> Options -> option Exn.

(** Lines 488-495: [doRequest(options, responseHandler)], the body, [end]. *)
Definition doRequest (ssl : bool) (options : Options) (body : option string) : M unit :=
  match refuse ssl options with
  | Some e => throw e
  | None =>
      modify (emit (Request ssl options body)) >>;
      modify (set_request (Some options))
  end.

(** Lines 351-566. *)
Definition sendNetwork (node : Node) (u : URL) (ssl : bool) (host : string)
    (data : option string) : M unit :=
  let uri := pathname u +:+ (if truthy (search u) then search u else "") in
  let! data := prepareHeaders node u ssl host data in
  let body := if truthyO data then data else None in
  let! s := get in
  let options :=
    {| o_host := Some host; o_hostname := None; o_port := portOf u ssl; o_path := uri;
       o_method := method (settings s); o_headers := headers s;
       o_agent := Some false; o_withCredentials := withCredentials s |} in
  modify (set_errorFlag false) >>;
  if async (settings s) then
    modify (set_sendFlag true) >>;
    dispatchEvent "readystatechange" >>;
    doRequest ssl options body >>;
    dispatchEvent "loadstart"
  else
    match runWorker node ssl options body with
    | WErr e => handleError e
    | WData r text =>
        modify (set_response (Some r)) >>;
        modify (set_status (Some (statusCode r))) >>;
        modify (set_responseText (Some text)) >>;
        setState DONE
    end.

(** [send(data)], lines 284-567. *)
Definition send (node : Node) (data : option string) : M unit :=
  let! s := get in
  (if negb (readyState s =? OPENED)
   then throw (InvalidStateError
                 "INVALID_STATE_ERR: connection must be opened before send() is called")
   else ret tt) >>;
  (if sendFlag s
   then throw (InvalidStateError "INVALID_STATE_ERR: send has already been called")
   else ret tt) >>;
  let! u := newURL node (url (settings s)) in
  if String.eqb (protocol u) "https:" then sendNetwork node u true "" data
  else if String.eqb (protocol u) "http:" then sendNetwork node u false (hostname u) data
  else if String.eqb (protocol u) "file:" then sendLocal node u
  else if String.eqb (protocol u) "" then sendNetwork node u false "localhost" data
  else throw (PlainError "Protocol not supported.").

End Transport.
End Checked.

(** A transport that refuses a request with a header of the given name. *)
Definition refuseHeader (name : string) (ssl : bool) (o : Options) : option Exn :=
  match o_headers o !! name with
  | Some _ =>
      Some (TypeError ("Header name must be a valid HTTP token [" +:+ DQUOTE +:+ name
                       +:+ DQUOTE +:+ "]"))
  | None => None
  end.

(** The [switch] of lines 299-320: the protocol function ([true] for
    [https]) and the value of [host] for the schemes that go to the
    network. *)
Definition serverOf (u : URL) : option (bool * string) :=
  if String.eqb (protocol u) "https:" then Some (true, "")
  else if String.eqb (protocol u) "http:" then Some (false, hostname u)
  else if String.eqb (protocol u) "file:" then None
  else if String.eqb (protocol u) "" then Some (false, "localhost")
  else None.

(** A host like [exampleNode] whose [base64] marks what it encodes. *)
Definition markingNode : Node :=
  {| parseURL := parseURL exampleNode;
     base64 := fun s => "base64(" +:+ s +:+ ")";
     readFileSync := readFileSync exampleNode;
     runWorker := runWorker exampleNode |}.

(** * Merging configurations (src/unnamed/part_000)

    [mergeConfig] and its local function [merge], lines 5-36. The values
    are JavaScript values as [typeof], truthiness and [Array.isArray] see
    them. A plain object is the list of its own enumerable properties, in
    the order of [Object.keys], each key once; inherited properties are not
    modelled. [merge] changes [obj1] in place; here it returns the new value
    of [obj1], and nothing when it throws. *)
Module Config.
Section Values.

(** Numbers, and what makes one truthy (it is neither 0 nor NaN). *)
Variable Num : Type.
Variable numTruthy : Num -> bool.

#[warnings="-register-all"] Inductive JVal :=
| JUndefined
| JNull
| JBool (b : bool)
| JNum (n : Num)
| JStr (s : string)
| JFun (id : nat)
| JArr (l : list JVal)
| JObj (fields : list (string * JVal)).

(** What reading a property yields on a value that is neither nullish nor a
    plain object: an array, a string, a number, a boolean, a function. *)
Variable getOther : JVal -> string -> JVal.

Definition typeOf (v : JVal) : string :=
  match v with
  | JUndefined => "undefined"
  | JNull | JArr _ | JObj _ => "object"
  | JBool _ => "boolean"
  | JNum _ => "number"
  | JStr _ => "string"
  | JFun _ => "function"
  end.

Definition truthyJ (v : JVal) : bool :=
  match v with
  | JUndefined | JNull => false
  | JBool b => b
  | JNum n => numTruthy n
  | JStr s => truthy s
  | JFun _ | JArr _ | JObj _ => true
  end.

Definition isArray (v : JVal) : bool :=
  match v with JArr _ => true | _ => false end.

Definition elements (v : JVal) : list JVal :=
  match v with JArr l => l | _ => [] end.

(** [l.indexOf(x)]. *)
Fixpoint indexOf (l : list string) (x : string) : Z :=
  match l with
  | [] => -1
  | y :: rest =>
      if String.eqb y x then 0
      else let i := indexOf rest x in if i =? -1 then -1 else i + 1
  end.

Definition primitiveTypes : list string := ["string"; "number"; "boolean"].

(** [obj[key]] on a plain object, for a key that is not inherited from
    [Object.prototype]. *)
Definition getField (key : string) (fields : list (string * JVal)) : JVal :=
  default JUndefined (snd <$> find (fun kv => String.eqb (fst kv) key) fields).

(** [obj[key]]; reading a property of [undefined] or [null] throws. *)
Definition getP (obj : JVal) (key : string) : Outcome JVal :=
  match obj with
  | JUndefined =>
      Throw (TypeError ("Cannot read properties of undefined (reading '" +:+ key +:+ "')"))
  | JNull =>
      Throw (TypeError ("Cannot read properties of null (reading '" +:+ key +:+ "')"))
  | JObj fields => Return (getField key fields)
  | _ => Return (getOther obj key)
  end.

(** Lines 20-30, for one key: the new value of [obj1[key]], given
    [v1 = obj1[key]] and [v2 = obj2[key]]; [rec] is [merge(obj1[key], _)]. *)
Definition mergeValue (rec : JVal -> Outcome JVal) (v1 v2 : JVal) : Outcome JVal :=
  if String.eqb (typeOf v2) (typeOf v1) && truthyJ v2 then
    if isArray v1 && isArray v2 then Return (JArr (elements v1 ++ elements v2))
    else if negb (indexOf primitiveTypes (typeOf v1) =? 0)
            && String.eqb (typeOf v1) (typeOf v2)
    then Return v2
    else if String.eqb (typeOf v1) "object" then rec v2
    else Return v1
  else Return v1.

(** [merge(obj1, obj2)], lines 16-33. [Object.keys] throws on [undefined]
    and [null], yields the indices for an array and for a string, and
    nothing for a number, a boolean and a function without properties of
    its own. The characters of a string are strings, which no branch
    assigns. *)
Fixpoint merge (obj1 obj2 : JVal) {struct obj1} : Outcome JVal :=
  match obj1 with
  | JUndefined | JNull => Throw (TypeError "Cannot convert undefined or null to object")
  | JObj fields =>
      match
        (fix each (fs : list (string * JVal)) : Outcome (list (string * JVal)) :=
           match fs with
           | [] => Return []
           | (key, v1) :: rest =>
               match getP obj2 key with
               | Throw e => Throw e
               | Return v2 =>
                   match mergeValue (merge v1) v1 v2 with
                   | Throw e => Throw e
                   | Return v1' =>
                       match each rest with
                       | Throw e => Throw e
                       | Return rest' => Return ((key, v1') :: rest')
                       end
                   end
               end
           end) fields
      with
      | Throw e => Throw e
      | Return fields' => Return (JObj fields')
      end
  | JArr l =>
      match
        (fix each (i : nat) (vs : list JVal) : Outcome (list JVal) :=
           match vs with
           | [] => Return []
           | v1 :: rest =>
               match getP obj2 (pretty i) with
               | Throw e => Throw e
               | Return v2 =>
                   match mergeValue (merge v1) v1 v2 with
                   | Throw e => Throw e
                   | Return v1' =>
                       match each (S i) rest with
                       | Throw e => Throw e
                       | Return rest' => Return (v1' :: rest')
                       end
                   end
               end
           end) 0%nat l
      with
      | Throw e => Throw e
      | Return l' => Return (JArr l')
      end
  | JStr s =>
      if truthy s
      then match getP obj2 "0" with Throw e => Throw e | Return _ => Return obj1 end
      else Return obj1
  | JBool _ | JNum _ | JFun _ => Return obj1
  end.

(** The variable of line 5, which nothing assigns. *)
Definition dbConfig : JVal := JUndefined.

(** [mergeConfig(configDb, localConfig)], lines 7-36: the new value of
    [localConfig]. *)
Definition mergeConfig (configDb localConfig : JVal) : Outcome JVal :=
  merge localConfig dbConfig.

(** What [merge] leaves under a key of [obj1], given the values of both
    objects under it. *)
Definition merged (v1 v2 : JVal) : JVal :=
  if String.eqb (typeOf v2) (typeOf v1) && truthyJ v2 then
    match v1, v2 with
    | JArr l1, JArr l2 => JArr (l1 ++ l2)
    | JStr _, _ => v1
    | _, _ => v2
    end
  else v1.

(** Whether [Object.keys] of an object or array is non-empty. *)
Definition hasKeys (v : JVal) : bool :=
  match v with
  | JObj (_ :: _) | JArr (_ :: _) => true
  | _ => false
  end.

End Values.

Arguments JUndefined {Num}.
Arguments JNull {Num}.
Arguments JBool {Num} b.
Arguments JNum {Num} n.
Arguments JStr {Num} s.
Arguments JFun {Num} id.
Arguments JArr {Num} l.
Arguments JObj {Num} fields.
Arguments typeOf {Num} v.
Arguments truthyJ {Num} numTruthy v.
Arguments isArray {Num} v.
Arguments elements {Num} v.
Arguments getField {Num} key fields.
Arguments getP {Num} getOther obj key.
Arguments mergeValue {Num} numTruthy rec v1 v2.
Arguments merge {Num} numTruthy getOther obj1 obj2.
Arguments dbConfig {Num}.
Arguments mergeConfig {Num} numTruthy getOther configDb localConfig.
Arguments merged {Num} numTruthy v1 v2.
Arguments hasKeys {Num} v.

End Config.

(** Whether an effect is a request handed to the transport. *)
Definition isRequest (e : Effect) : bool :=
  match e with Request _ _ _ => true | _ => false end.

(** * Properties *)

Ltac unfold_m :=
  unfold handleError in *;
  unfold setState, dispatchEvent, bind, get, modify, when, ret, throw in *.

Ltac unfold_st :=
  unfold emit, set_readyState, set_status, set_statusText, set_responseText,
    set_responseXML, set_request, set_response, set_settings,
    set_disableHeaderCheck, set_headersAliased, set_headersCase, set_sendFlag,
    set_errorFlag, set_log in *;
  cbn in *.

(** ** setState *)

(** C1. [setState(n)] changes nothing unless [n] is LOADING or differs from
    the current state. When it is accepted it assigns [readyState], then
    dispatches [readystatechange] exactly if the request is asynchronous or
    [n < OPENED] or [n = DONE], then, if [n = DONE] and the error flag is
    false, dispatches [load] and after it [loadend]. *)
Theorem setState_spec (n : Z) (s : XHR) :
  (n ≠ LOADING ∧ n = readyState s → setState n s = (s, Return tt)) ∧
  (n = LOADING ∨ n ≠ readyState s →
   ∃ s', setState n s = (s', Return tt) ∧
     readyState s' = n ∧
     log s' = log s ++ SetReadyState n
                :: (if async (settings s) || (n <? OPENED) || (n =? DONE)
                    then [Dispatch "readystatechange"] else [])
                ++ (if (n =? DONE) && negb (errorFlag s)
                    then [Dispatch "load"; Dispatch "loadend"] else []) ∧
     (n = DONE → errorFlag s = false →
      log s' = log s ++ [SetReadyState DONE; Dispatch "readystatechange";
                         Dispatch "load"; Dispatch "loadend"])).
Proof.
  split.
  - intros [Hl ->]. unfold_m.
    destruct (Z.eqb_spec (readyState s) LOADING) as [E | _]; [congruence |].
    by rewrite Z.eqb_refl.
  - intros Hacc.
    assert ((n =? LOADING) || negb (readyState s =? n) = true) as Hb.
    { destruct Hacc as [-> | Hne]; [done |].
      apply orb_true_iff. right.
      destruct (Z.eqb_spec (readyState s) n); [congruence | done]. }
    unfold_m. rewrite Hb. unfold_st.
    unfold UNSENT, OPENED, LOADING, DONE in *.
    destruct (async (settings s)) eqn:Ea, (n <? 1) eqn:Eo,
      (n =? 4) eqn:Ed, (errorFlag s) eqn:Ee;
      repeat (cbn; rewrite ?Ea, ?Eo, ?Ed, ?Ee);
      eexists; (split; [reflexivity |]); cbn;
      rewrite <- ?app_assoc; cbn; repeat split; try done; intros;
      rewrite ?Z.eqb_eq, ?Z.eqb_neq, ?Z.ltb_lt in *; try lia; congruence.
Qed.

Lemma setState_spec_witness :
  (DONE = LOADING ∨ DONE ≠ readyState initial) ∧
  ∃ s', setState DONE initial = (s', Return tt) ∧ readyState s' = DONE ∧
    log s' = [SetReadyState DONE; Dispatch "readystatechange";
              Dispatch "load"; Dispatch "loadend"].
Proof.
  assert (DONE = LOADING ∨ DONE ≠ readyState initial) as H by (right; discriminate).
  split; [exact H |].
  destruct (proj2 (setState_spec DONE initial) H) as (s' & E & R & _ & L).
  exists s'. split; [exact E |]. split; [exact R |]. exact (L eq_refl eq_refl).
Defined.

(** ** open *)

Lemma elem_of_bool_decide_true (x : string) (l : list string) :
  x ∈ l → bool_decide (x ∈ l) = true.
Proof. intros H. by apply bool_decide_eq_true. Qed.

(** C10. [open] with TRACE, TRACK or CONNECT throws the security error; the
    error flag has been reset by then and stays false, while [readyState],
    [settings] and the effect log are as before the call. *)
Theorem open_forbidden_method (m u : string) (a : option bool)
    (usr pw : option string) (s : XHR) :
  m ∈ forbiddenRequestMethods →
  ∃ s', open m u a usr pw s
        = (s', Throw (SecurityError "SecurityError: Request method not allowed")) ∧
    errorFlag s' = false ∧
    readyState s' = readyState s ∧
    settings s' = settings s ∧
    log s' = log s.
Proof.
  intros Hm. exists (set_errorFlag false s).
  unfold open, isAllowedHttpMethod. unfold_m.
  rewrite (elem_of_bool_decide_true _ _ Hm), andb_false_r. by cbn.
Qed.

Lemma open_forbidden_method_witness :
  "TRACE" ∈ forbiddenRequestMethods ∧
  errorFlag (after abort initial) = true ∧
  ∃ s', open "TRACE" "http://example.com/" None None None (after abort initial)
        = (s', Throw (SecurityError "SecurityError: Request method not allowed")) ∧
    errorFlag s' = false ∧
    readyState s' = readyState (after abort initial) ∧
    settings s' = settings (after abort initial) ∧
    log s' = log (after abort initial).
Proof.
  assert ("TRACE" ∈ forbiddenRequestMethods) as H by apply list_elem_of_here.
  split; [exact H |]. split; [reflexivity |].
  exact (open_forbidden_method "TRACE" "http://example.com/" None None None
           (after abort initial) H).
Defined.

(** ** setRequestHeader *)

(** C6. In state OPENED, with the send flag false and header checking on, a
    header whose lower-cased name is forbidden is refused: the call returns
    normally, logs the warning and leaves every variable of the request,
    both header mappings included, as it was. *)
Theorem setRequestHeader_forbidden (h v : string) (s : XHR) :
  toLowerCase h ∈ forbiddenRequestHeaders →
  readyState s = OPENED →
  sendFlag s = false →
  disableHeaderCheck s = false →
  setRequestHeader h v s = (emit (refusedWarning h) s, Return tt) ∧
  headers (emit (refusedWarning h) s) = headers s ∧
  headersCase (emit (refusedWarning h) s) = headersCase s ∧
  defaultHeaders (emit (refusedWarning h) s) = defaultHeaders s.
Proof.
  intros Hf Hr _ Hd. split; [| done].
  unfold setRequestHeader, isAllowedHttpHeader.
  rewrite Hr, Hd, (elem_of_bool_decide_true _ _ Hf), andb_false_r. by cbn.
Qed.

Lemma setRequestHeader_forbidden_witness :
  toLowerCase "Content-Length" ∈ forbiddenRequestHeaders ∧
  setRequestHeader "Content-Length" "42" opened
    = (emit (refusedWarning "Content-Length") opened, Return tt) ∧
  headers (emit (refusedWarning "Content-Length") opened) = headers opened ∧
  headersCase (emit (refusedWarning "Content-Length") opened) = headersCase opened ∧
  defaultHeaders (emit (refusedWarning "Content-Length") opened) = defaultHeaders opened.
Proof.
  assert (toLowerCase "Content-Length" ∈ forbiddenRequestHeaders) as H.
  { apply (bool_decide_unpack _). vm_compute. exact I. }
  split; [exact H |].
  apply (setRequestHeader_forbidden "Content-Length" "42" opened H);
    reflexivity.
Defined.

(** C2, as stated, fails: the send flag is true, yet the forbidden name
    [Host] is only refused with a warning and the call returns normally. *)
Lemma setRequestHeader_after_send_forbidden_returns :
  sendFlag sent = true ∧
  readyState sent = OPENED ∧
  setRequestHeader "Host" "example.org" sent
    = (emit (refusedWarning "Host") sent, Return tt).
Proof. by vm_compute. Qed.

(** C2, amended. With the send flag true, [setRequestHeader] throws the
    invalid-state error and changes nothing, for every header name and value,
    except when [readyState] is OPENED and the name is refused by the
    header check: then the call only logs the warning and returns. *)
Theorem setRequestHeader_after_send (h v : string) (s : XHR) :
  sendFlag s = true →
  if (readyState s =? OPENED) && negb (isAllowedHttpHeader s h)
  then setRequestHeader h v s = (emit (refusedWarning h) s, Return tt)
  else ∃ msg, setRequestHeader h v s = (s, Throw (InvalidStateError msg)).
Proof.
  intros Hs. unfold setRequestHeader. unfold_m.
  destruct (readyState s =? OPENED); cbn; [| by eexists].
  destruct (isAllowedHttpHeader s h); cbn; [| done].
  rewrite Hs. by eexists.
Qed.

Lemma setRequestHeader_after_send_witness :
  sendFlag sent = true ∧
  ∃ msg, setRequestHeader "X-Trace" "1" sent = (sent, Throw (InvalidStateError msg)).
Proof.
  assert (sendFlag sent = true) as H by reflexivity.
  split; [exact H |].
  exact (setRequestHeader_after_send "X-Trace" "1" sent H).
Defined.

Lemma toLowerCase_empty (h : string) : toLowerCase h = "" → h = "".
Proof. by destruct h. Qed.

Lemma truthy_false (k : string) : truthy k = false → k = "".
Proof.
  unfold truthy. intros H. apply negb_false_iff in H. by apply String.eqb_eq.
Qed.

Lemma headers_write_header (k : string) (v : HVal) (s : XHR) :
  headers (write_header k v s) = <[k := v]> (headers s).
Proof.
  unfold headers, write_header.
  by destruct (headersAliased s) eqn:E; cbn; rewrite E.
Qed.

Lemma headersCase_write_header (k : string) (v : HVal) (s : XHR) :
  headersCase (write_header k v s) = headersCase s.
Proof. unfold write_header. by destruct (headersAliased s). Qed.

Lemma write_header_frame (k : string) (v : HVal) (s : XHR) :
  readyState (write_header k v s) = readyState s ∧
  sendFlag (write_header k v s) = sendFlag s ∧
  disableHeaderCheck (write_header k v s) = disableHeaderCheck s.
Proof. unfold write_header. by destruct (headersAliased s). Qed.

(** One accepted call: the casing already registered for the name is kept,
    a new name is registered as written. *)
Lemma setRequestHeader_accepted (h v : string) (s : XHR) :
  readyState s = OPENED → sendFlag s = false →
  isAllowedHttpHeader s h = true → coindexed s →
  ∃ s' v',
    setRequestHeader h v s = (s', Return tt) ∧
    readyState s' = OPENED ∧ sendFlag s' = false ∧
    disableHeaderCheck s' = disableHeaderCheck s ∧
    headersCase s' = match headersCase s !! toLowerCase h with
                     | Some _ => headersCase s
                     | None => <[toLowerCase h := h]> (headersCase s)
                     end ∧
    headers s' = <[default h (headersCase s !! toLowerCase h) := v']> (headers s).
Proof.
  intros Hr Hs Ha [Hc1 Hc2]. unfold setRequestHeader.
  rewrite Hr, Ha, Hs. cbn [Z.eqb OPENED negb Pos.eqb].
  assert ((match headersCase s !! toLowerCase h with
           | Some k => if truthy k then k else h
           | None => h
           end) = default h (headersCase s !! toLowerCase h)) as ->.
  { destruct (headersCase s !! toLowerCase h) as [k |] eqn:Ek; [| done].
    destruct (Hc2 _ _ Ek) as [Hk _]. cbn.
    destruct (truthy k) eqn:Et; [done |].
    apply truthy_false in Et. subst k. cbn in Hk.
    apply toLowerCase_empty. by rewrite <- Hk. }
  eexists _, _. split; [reflexivity |].
  rewrite headers_write_header, headersCase_write_header.
  match goal with
  | |- context [write_header ?k ?w ?s1] =>
      destruct (write_header_frame k w s1) as (-> & -> & ->)
  end.
  cbn [readyState sendFlag disableHeaderCheck headersCase set_headersCase].
  repeat split; try done.
  destruct (headersCase s !! toLowerCase h) as [k |] eqn:Ek; cbn; [| done].
  destruct (Hc2 _ _ Ek) as [Hk _]. by rewrite Hk, insert_id.
Qed.

Lemma isAllowedHttpHeader_ext (s s' : XHR) (h : string) :
  disableHeaderCheck s' = disableHeaderCheck s →
  isAllowedHttpHeader s' h = isAllowedHttpHeader s h.
Proof. unfold isAllowedHttpHeader. by intros ->. Qed.

Lemma firstForm_ext (s s' : XHR) (l : string) (calls : list (string * string)) :
  disableHeaderCheck s' = disableHeaderCheck s →
  firstForm s' l calls = firstForm s l calls.
Proof.
  intros H. unfold firstForm. f_equal. apply filter_ext. intros h.
  by apply isAllowedHttpHeader_ext.
Qed.

Lemma setRequestHeaders_invariant (calls : list (string * string)) :
  ∀ s, readyState s = OPENED → sendFlag s = false → coindexed s →
  ∃ s', setRequestHeaders calls s = (s', Return tt) ∧
    coindexed s' ∧
    ∀ l, headersCase s' !! l = match headersCase s !! l with
                               | Some k => Some k
                               | None => firstForm s l calls
                               end.
Proof.
  induction calls as [| [h v] rest IH]; intros s Hr Hs Hc.
  - exists s. split; [done |]. split; [done |].
    intros l. by destruct (headersCase s !! l).
  - cbn [setRequestHeaders]. unfold bind.
    destruct (isAllowedHttpHeader s h) eqn:Ha.
    + destruct (setRequestHeader_accepted h v s Hr Hs Ha Hc)
        as (s1 & v' & E & Hr1 & Hs1 & Hd1 & Hcase & Hhdr).
      rewrite E.
      assert (coindexed s1) as Hc1.
      { destruct Hc as [Hc1 Hc2]. split.
        - intros k. rewrite Hhdr, Hcase.
          destruct (headersCase s !! toLowerCase h) as [k0 |] eqn:Ek; cbn.
          + destruct (decide (k0 = k)) as [<- | Hne].
            * intros _. destruct (Hc2 _ _ Ek) as [Hk _]. by rewrite Hk.
            * rewrite lookup_insert_ne by done. apply Hc1.
          + destruct (decide (h = k)) as [<- | Hne].
            * intros _. by rewrite lookup_insert_eq.
            * rewrite lookup_insert_ne by done. intros Hk.
              specialize (Hc1 _ Hk).
              rewrite lookup_insert_ne; [done |]. intros Heq. congruence.
        - intros l k. rewrite Hhdr, Hcase.
          destruct (headersCase s !! toLowerCase h) as [k0 |] eqn:Ek; cbn.
          + intros Hl. destruct (Hc2 _ _ Hl) as [Hlow Hin]. split; [done |].
            destruct (decide (k0 = k)) as [-> | Hne];
              [by rewrite lookup_insert_eq | by rewrite lookup_insert_ne].
          + destruct (decide (toLowerCase h = l)) as [<- | Hne].
            * rewrite lookup_insert_eq. intros [= <-]. split; [done |].
              by rewrite lookup_insert_eq.
            * rewrite lookup_insert_ne by done. intros Hl.
              destruct (Hc2 _ _ Hl) as [Hlow Hin]. split; [done |].
              destruct (decide (h = k)) as [-> | Hne'];
                [by rewrite lookup_insert_eq | by rewrite lookup_insert_ne]. }
      destruct (IH s1 Hr1 Hs1 Hc1) as (s' & E' & Hc' & Hform).
      exists s'. split; [exact E' |]. split; [exact Hc' |].
      intros l. rewrite Hform, Hcase, (firstForm_ext s s1 l rest Hd1).
      unfold firstForm at 2. cbn [map fst List.filter]. rewrite Ha. cbn [find].
      destruct (headersCase s !! toLowerCase h) as [k0 |] eqn:Ek.
      * destruct (headersCase s !! l) eqn:El; [done |].
        destruct (String.eqb_spec (toLowerCase h) l) as [Heq | Hne]; [congruence | done].
      * destruct (String.eqb_spec (toLowerCase h) l) as [<- | Hne].
        -- by rewrite lookup_insert_eq, Ek.
        -- by rewrite lookup_insert_ne.
    + unfold setRequestHeader at 1. rewrite Hr, Ha. cbn.
      set (s1 := emit _ s).
      destruct (IH s1) as (s' & E' & Hc' & Hform); try done.
      exists s'. split; [exact E' |]. split; [exact Hc' |].
      intros l. rewrite Hform. cbn [s1 emit set_log headersCase].
      destruct (headersCase s !! l); [done |].
      rewrite (firstForm_ext s s1 l rest) by done.
      unfold firstForm. cbn [map fst List.filter]. by rewrite Ha.
Qed.

(** The value one accepted call stores. *)
Lemma setRequestHeader_accepted_value (h v : string) (s : XHR) :
  readyState s = OPENED → sendFlag s = false →
  isAllowedHttpHeader s h = true → coindexed s →
  headers (fst (setRequestHeader h v s))
  = <[default h (headersCase s !! toLowerCase h)
      := nextValue (headers s !! default h (headersCase s !! toLowerCase h)) v]>
      (headers s).
Proof.
  intros Hr Hs Ha [Hc1 Hc2]. unfold setRequestHeader.
  rewrite Hr, Ha, Hs. cbn [Z.eqb OPENED negb Pos.eqb fst].
  assert ((match headersCase s !! toLowerCase h with
           | Some k => if truthy k then k else h
           | None => h
           end) = default h (headersCase s !! toLowerCase h)) as ->.
  { destruct (headersCase s !! toLowerCase h) as [k |] eqn:Ek; [| done].
    destruct (Hc2 _ _ Ek) as [Hk _]. cbn.
    destruct (truthy k) eqn:Et; [done |].
    apply truthy_false in Et. subst k. cbn in Hk.
    apply toLowerCase_empty. by rewrite <- Hk. }
  by rewrite headers_write_header.
Qed.

Lemma valuesFor_ext (s s' : XHR) (l : string) (calls : list (string * string)) :
  disableHeaderCheck s' = disableHeaderCheck s →
  valuesFor s' l calls = valuesFor s l calls.
Proof.
  intros H. unfold valuesFor. f_equal. apply List.filter_ext. intros hv.
  by rewrite (isAllowedHttpHeader_ext s s' _ H).
Qed.

(** The values of the calls for one name pile up under its first form. *)
Lemma setRequestHeaders_values (calls : list (string * string)) :
  ∀ s, readyState s = OPENED → sendFlag s = false → coindexed s →
  ∀ l k, headersCase (fst (setRequestHeaders calls s)) !! l = Some k →
         headers (fst (setRequestHeaders calls s)) !! k
         = appended (headers s !! k) (valuesFor s l calls).
Proof.
  induction calls as [| [h v] rest IH]; intros s Hr Hs Hc l k; [done |].
  cbn [setRequestHeaders]. unfold bind.
  destruct (isAllowedHttpHeader s h) eqn:Ha.
  - destruct (setRequestHeader_accepted h v s Hr Hs Ha Hc)
      as (s1 & v' & E & Hr1 & Hs1 & Hd1 & Hcase & _).
    pose proof (setRequestHeader_accepted_value h v s Hr Hs Ha Hc) as Hval.
    destruct (setRequestHeaders_invariant [(h, v)] s Hr Hs Hc) as (s1' & E1 & Hc1 & _).
    cbn [setRequestHeaders] in E1. unfold bind, ret in E1. rewrite E in E1.
    injection E1 as <-. rewrite E in Hval |- *. cbn [fst] in Hval.
    destruct (setRequestHeaders_invariant rest s1 Hr1 Hs1 Hc1) as (s' & E' & Hc' & Hform).
    intros Hl. rewrite (IH s1 Hr1 Hs1 Hc1 l k Hl).
    rewrite E' in Hl. cbn [fst] in Hl.
    rewrite (valuesFor_ext s s1 l rest Hd1).
    unfold valuesFor at 2. cbn [List.filter fst snd]. rewrite Ha. cbn [andb].
    set (k0 := default h (headersCase s !! toLowerCase h)) in *.
    assert (headersCase s1 !! toLowerCase h = Some k0) as Hk0.
    { rewrite Hcase. unfold k0.
      destruct (headersCase s !! toLowerCase h) as [k1 |] eqn:Ek; [done |].
      by rewrite lookup_insert_eq. }
    destruct (String.eqb_spec (toLowerCase h) l) as [<- | Hne].
    + assert (k = k0) as ->.
      { rewrite Hform, Hk0 in Hl. by injection Hl. }
      cbn [map snd]. unfold appended at 2. cbn [fold_left].
      by rewrite Hval, lookup_insert_eq.
    + assert (k0 ≠ k) as Hkk.
      { intros ->. destruct Hc' as [_ Hc2']. destruct Hc1 as [_ Hc2].
        destruct (Hc2' _ _ Hl) as [H1 _]. destruct (Hc2 _ _ Hk0) as [H2 _].
        congruence. }
      by rewrite Hval, lookup_insert_ne.
  - assert (setRequestHeader h v s = (emit (refusedWarning h) s, Return tt)) as ->.
    { unfold setRequestHeader. by rewrite Hr, Ha. }
    set (s1 := emit _ s). intros Hl.
    rewrite (IH s1 Hr Hs Hc l k Hl).
    rewrite (valuesFor_ext s s1 l rest) by done.
    unfold valuesFor at 2. cbn [List.filter fst]. by rewrite Ha.
Qed.

(** C5, as stated, fails in three ways. After [X-Token] and then [x-token]
    were set, the lower-case key resolves to [X-Token], the form registered
    first, not to the one registered most recently. On a request object
    that is used again, [send] has left [Host] (and the defaults) in
    [headers] without registering them, so after a further successful call
    [headers] has a name that [headersCase] does not know. And after
    [abort], [headers] is the defaults object, so a name registered before
    is known to [headersCase] and missing in [headers]. *)
Lemma headersCase_resolves_to_first_form :
  (setRequestHeaders [("X-Token", "a"); ("x-token", "b")] opened
     = (after (setRequestHeaders [("X-Token", "a"); ("x-token", "b")]) opened, Return tt) ∧
   headersCase (after (setRequestHeaders [("X-Token", "a"); ("x-token", "b")]) opened)
     !! "x-token" = Some "X-Token" ∧
   headers (after (setRequestHeaders [("X-Token", "a"); ("x-token", "b")]) opened)
     !! "X-Token" = Some (HStr "a, b") ∧
   headers (after (setRequestHeaders [("X-Token", "a"); ("x-token", "b")]) opened)
     !! "x-token" = None) ∧
  (setRequestHeader "X-Token" "a"
     (after (open "GET" "http://example.com/" None None None) answered)
     = (after (setRequestHeader "X-Token" "a")
          (after (open "GET" "http://example.com/" None None None) answered),
        Return tt) ∧
   headers (after (setRequestHeader "X-Token" "a")
              (after (open "GET" "http://example.com/" None None None) answered))
     !! "Host" = Some (HStr "example.com") ∧
   headersCase (after (setRequestHeader "X-Token" "a")
                  (after (open "GET" "http://example.com/" None None None) answered))
     !! "host" = None) ∧
  (setRequestHeader "Accept-Language" "de"
     (after (open "GET" "http://example.com/" None None None)
        (after abort (after (setRequestHeader "X-Token" "a") opened)))
     = (after (setRequestHeader "Accept-Language" "de")
          (after (open "GET" "http://example.com/" None None None)
             (after abort (after (setRequestHeader "X-Token" "a") opened))),
        Return tt) ∧
   headersCase (after (setRequestHeader "Accept-Language" "de")
                  (after (open "GET" "http://example.com/" None None None)
                     (after abort (after (setRequestHeader "X-Token" "a") opened))))
     !! "x-token" = Some "X-Token" ∧
   headers (after (setRequestHeader "Accept-Language" "de")
              (after (open "GET" "http://example.com/" None None None)
                 (after abort (after (setRequestHeader "X-Token" "a") opened))))
     !! "X-Token" = None).
Proof. by vm_compute. Qed.

(** C5, amended. On a request in state OPENED with nothing sent whose
    header mappings are co-indexed, as they are until [send] or [abort] is
    called, any sequence of [setRequestHeader] calls with plain names
    returns normally and leaves the mappings co-indexed: a name is a key of
    [headers] exactly if its lower-case form resolves to it in
    [headersCase]. Each lower-case key resolves to the form under which the
    name was registered first, before the calls or by them; and under that
    form [headers] holds what was there with the values of the accepted
    calls for the name appended in order, each after a comma and a space,
    an empty value being replaced. *)
Theorem setRequestHeaders_coindexed (calls : list (string * string)) (s : XHR) :
  readyState s = OPENED → sendFlag s = false →
  coindexed s →
  forallb plainName (map fst calls) = true →
  ∃ s', setRequestHeaders calls s = (s', Return tt) ∧
    (∀ k, is_Some (headers s' !! k) → headersCase s' !! toLowerCase k = Some k) ∧
    (∀ l k, headersCase s' !! l = Some k → toLowerCase k = l ∧ is_Some (headers s' !! k)) ∧
    (∀ l, headersCase s' !! l = match headersCase s !! l with
                                | Some k => Some k
                                | None => firstForm s l calls
                                end) ∧
    (∀ l k, headersCase s' !! l = Some k →
            headers s' !! k = appended (headers s !! k) (valuesFor s l calls)).
Proof.
  intros Hr Hs Hc _.
  destruct (setRequestHeaders_invariant calls s Hr Hs Hc) as (s' & E & [C1 C2] & F).
  exists s'. split; [exact E |]. split; [exact C1 |]. split; [exact C2 |].
  split; [exact F |].
  intros l k Hl. pose proof (setRequestHeaders_values calls s Hr Hs Hc l k) as Hv.
  rewrite E in Hv. by apply Hv.
Qed.

Lemma setRequestHeaders_coindexed_witness :
  readyState opened = OPENED ∧ sendFlag opened = false ∧
  coindexed opened ∧
  forallb plainName (map fst [("X-Token", "a"); ("Host", "h"); ("x-token", "b")]) = true ∧
  ∃ s', setRequestHeaders [("X-Token", "a"); ("Host", "h"); ("x-token", "b")] opened
        = (s', Return tt) ∧
    headersCase s' !! "x-token" = Some "X-Token" ∧
    headers s' !! "X-Token" = Some (HStr "a, b") ∧
    headersCase s' !! "host" = None.
Proof.
  assert (coindexed opened) as Hc.
  { split.
    - intros k [x Hx]. change (headers opened) with (∅ : gmap string HVal) in Hx.
      by rewrite lookup_empty in Hx.
    - intros l k Hl. change (headersCase opened) with (∅ : gmap string string) in Hl.
      by rewrite lookup_empty in Hl. }
  split; [reflexivity |]. split; [reflexivity |]. split; [exact Hc |].
  split; [reflexivity |].
  destruct (setRequestHeaders_coindexed
              [("X-Token", "a"); ("Host", "h"); ("x-token", "b")] opened
              eq_refl eq_refl Hc eq_refl) as (s' & E & _ & _ & F & V).
  exists s'. split; [exact E |].
  assert (headersCase s' !! "x-token" = Some "X-Token") as H1 by (by rewrite F).
  split; [exact H1 |]. split; [| by rewrite F].
  by rewrite (V _ _ H1).
Defined.

(** ** abort *)

Lemma fired_emit (ev : string) (e : Effect) (s : XHR) :
  fired ev (emit e s) = (fired ev s + (if isDispatch ev e then 1 else 0))%nat.
Proof.
  unfold fired, emit. cbn. rewrite List.filter_app, length_app. cbn.
  by destruct (isDispatch ev e).
Qed.

(** While the error flag is set, a state change dispatches neither [load]
    nor [loadend], and leaves both flags alone. *)
Lemma setState_errorFlag (n : Z) (s : XHR) :
  errorFlag s = true →
  ∃ s', setState n s = (s', Return tt) ∧
    errorFlag s' = true ∧ sendFlag s' = sendFlag s ∧
    fired "load" s' = fired "load" s ∧
    fired "loadend" s' = fired "loadend" s.
Proof.
  intros He. unfold_m.
  destruct ((n =? LOADING) || negb (readyState s =? n)); [| by exists s].
  unfold emit, set_readyState, set_log, fired. cbn. rewrite He.
  destruct (async (settings s) || (n <? OPENED) || (n =? DONE)); cbn;
    rewrite andb_false_r; cbn; eexists; (split; [reflexivity |]); cbn;
    rewrite !List.filter_app; cbn; rewrite ?app_nil_r; done.
Qed.

Lemma handleError_quiet (e : NodeError) (s : XHR) :
  quiet s (fst (handleError e s)).
Proof.
  unfold handleError, bind at 1 2 3 4, modify at 1 2 3 4. cbn.
  set (s0 := set_errorFlag true _).
  destruct (setState_errorFlag DONE s0 eq_refl) as (s1 & E & He & _ & Hl & Hle).
  unfold bind. rewrite E. unfold dispatchEvent, modify. cbn.
  unfold quiet. rewrite !fired_emit, Hl, Hle. cbn.
  split; [exact He |]. split; unfold fired; cbn; lia.
Qed.

(** A callback delivered while the error flag is set keeps it set and
    dispatches neither [load] nor [loadend]. *)
Lemma callback_quiet (node : Node) (cb : Callback) (s : XHR) :
  errorFlag s = true → quiet s (fst (callback node cb s)).
Proof.
  intros He. destruct cb as [ssl resp | chunk | | e | [e | data]]; cbn [callback].
  - unfold responseHandler, bind at 1, modify at 1.
    destruct (isRedirect (statusCode resp)).
    + unfold bind at 1, modify at 1, newURL.
      destruct (_ ≫= parseURL node); unfold_m; unfold quiet, fired; unfold_st;
        rewrite ?List.filter_app; cbn; rewrite ?app_nil_r; done.
    + set (s0 := set_response _ s).
      destruct (setState_errorFlag HEADERS_RECEIVED s0 He) as (s1 & E & He1 & _ & Hl & Hle).
      unfold bind. rewrite E. unfold modify. by cbn.
  - assert (∀ s0, quiet s s0 →
              quiet s (fst ((let! s1 := get in when (sendFlag s1) (setState LOADING)) s0)))
      as Htail.
    { intros s0 (He0 & Hl0 & Hle0). unfold bind, get, when.
      destruct (sendFlag s0); [| done].
      destruct (setState_errorFlag LOADING s0 He0) as (s1 & E & He1 & _ & Hl & Hle).
      rewrite E. unfold quiet. cbn. by rewrite Hl, Hle. }
    unfold bind at 1, when at 1.
    destruct (truthy chunk); unfold modify, ret; by apply Htail.
  - unfold bind at 1, get, when. destruct (sendFlag s); [| done].
    destruct (setState_errorFlag DONE s He) as (s1 & E & He1 & _ & Hl & Hle).
    unfold bind. rewrite E. unfold modify. by cbn.
  - apply handleError_quiet.
  - apply handleError_quiet.
  - unfold bind, modify. cbn beta iota.
    set (s0 := set_responseText _ _).
    destruct (setState_errorFlag DONE s0 He) as (s1 & E & He1 & _ & Hl & Hle).
    by rewrite E.
Qed.

Lemma deliver_quiet (node : Node) (cbs : list Callback) :
  ∀ s, errorFlag s = true → quiet s (deliver node cbs s).
Proof.
  induction cbs as [| cb cbs IH]; intros s He; [done |].
  cbn [deliver fold_left].
  destruct (callback_quiet node cb s He) as (He1 & Hl1 & Hle1).
  destruct (IH _ He1) as (He2 & Hl2 & Hle2).
  unfold quiet, deliver in *. by rewrite Hl2, Hle2.
Qed.

(** X1. [abort] on a request that is in flight (state OPENED, send flag raised,
    no callback delivered yet) returns normally. It sets the error flag,
    makes [headers] the defaults object, sets status 0, passes through DONE
    with one [readystatechange], ends in UNSENT and dispatches [abort];
    neither then nor through any later callback is [load] or [loadend]
    dispatched. *)
Theorem abort_in_flight (node : Node) (s : XHR) :
  readyState s = OPENED → sendFlag s = true →
  ∃ s', abort s = (s', Return tt) ∧
    errorFlag s' = true ∧ sendFlag s' = false ∧
    headers s' = defaultHeaders s ∧
    readyState s' = UNSENT ∧ status s' = Some 0 ∧ responseText s' = Some "" ∧
    log s' = log s
             ++ match request s with Some _ => [AbortRequest] | None => [] end
             ++ [SetReadyState DONE; Dispatch "readystatechange";
                 SetReadyState UNSENT; Dispatch "abort"] ∧
    ∀ cbs, fired "load" (deliver node cbs s') = fired "load" s ∧
           fired "loadend" (deliver node cbs s') = fired "loadend" s.
Proof.
  intros Hr Hs. unfold abort. unfold_m.
  assert (∀ s1, errorFlag s1 = true →
            fired "load" s1 = fired "load" s →
            fired "loadend" s1 = fired "loadend" s → ∀ cbs,
            fired "load" (deliver node cbs s1) = fired "load" s ∧
            fired "loadend" (deliver node cbs s1) = fired "loadend" s) as Hq.
  { intros s1 He Hl Hle cbs.
    destruct (deliver_quiet node cbs s1 He) as (_ & -> & ->). done. }
  destruct (request s) eqn:Erq; repeat (cbn; rewrite ?Hr, ?Hs, ?orb_true_r);
    (eexists; split; [reflexivity |]); cbn;
    repeat (split; [done || by rewrite <- !app_assoc |]);
    apply Hq; try done;
    unfold fired; cbn; rewrite !List.filter_app; cbn; by rewrite ?app_nil_r.
Qed.

Lemma abort_in_flight_witness :
  readyState sent = OPENED ∧ sendFlag sent = true ∧
  ∃ s', abort sent = (s', Return tt) ∧
    errorFlag s' = true ∧ sendFlag s' = false ∧
    headers s' = defaultHeaders sent ∧
    readyState s' = UNSENT ∧ status s' = Some 0 ∧ responseText s' = Some "" ∧
    log s' = log sent
             ++ match request sent with Some _ => [AbortRequest] | None => [] end
             ++ [SetReadyState DONE; Dispatch "readystatechange";
                 SetReadyState UNSENT; Dispatch "abort"] ∧
    ∀ cbs, fired "load" (deliver exampleNode cbs s') = fired "load" sent ∧
           fired "loadend" (deliver exampleNode cbs s') = fired "loadend" sent.
Proof.
  split; [reflexivity |]. split; [reflexivity |].
  apply (abort_in_flight exampleNode sent); reflexivity.
Defined.

(** C3. After an asynchronous [send] to a [file:] URL the send flag is still
    false, so [abort], called before the read has called back, goes from
    OPENED to UNSENT without the transition to DONE and without a
    [readystatechange]; and the read, when it calls back afterwards, is not
    discarded: it completes the aborted request with status 200. *)
Theorem abort_after_file_send_skips_DONE :
  send exampleNode None openedFile = (sentFile, Return tt) ∧
  readyState sentFile = OPENED ∧ sendFlag sentFile = false ∧
  log sentFile = log openedFile ++ [ReadFile "/etc/hosts"] ∧
  abort sentFile = (after abort sentFile, Return tt) ∧
  log (after abort sentFile)
    = log sentFile ++ [SetReadyState UNSENT; Dispatch "abort"] ∧
  readyState (after abort sentFile) = UNSENT ∧
  readyState (deliver exampleNode [OnFileRead (inr "127.0.0.1 localhost")]
                (after abort sentFile)) = DONE ∧
  status (deliver exampleNode [OnFileRead (inr "127.0.0.1 localhost")]
            (after abort sentFile)) = Some 200.
Proof. by vm_compute. Qed.

(** ** Redirects *)

(** X2. A response with a redirect status and a parsable [Location] makes the
    handler issue one new request, to the host name, port and path name of
    the [Location] URL, with method GET for 303 and the method of the
    request otherwise; [readyState] and [status] stay as they are, and
    [settings.url] becomes the [Location] value. *)
Theorem redirect_reissues (node : Node) (ssl : bool) (resp : Response)
    (loc : string) (u : URL) (s : XHR) :
  statusCode resp ∈ [301; 302; 303; 307] →
  rheader "location" resp = Some (RStr loc) →
  parseURL node loc = Some u →
  ∃ s', responseHandler node ssl resp s = (s', Return tt) ∧
    log s' = log s ++
      [Request ssl
         {| o_host := None; o_hostname := Some (hostname u);
            o_port := PStr (port u); o_path := pathname u;
            o_method := if statusCode resp =? 303 then Some "GET"
                        else method (settings s);
            o_headers := headers s; o_agent := None;
            o_withCredentials := withCredentials s |} None] ∧
    url (settings s') = Some loc ∧
    method (settings s') = method (settings s) ∧
    readyState s' = readyState s ∧
    status s' = status s.
Proof.
  intros Hst Hloc Hu.
  assert (isRedirect (statusCode resp) = true) as Hred.
  { apply list_elem_of_In in Hst. cbn in Hst. unfold isRedirect.
    destruct Hst as [H | [H | [H | [H | []]]]]; by rewrite <- H. }
  unfold responseHandler. unfold_m. rewrite Hred, Hloc. cbn.
  unfold newURL. cbn. rewrite Hu. cbn.
  eexists. split; [reflexivity |]. by cbn.
Qed.

Lemma redirect_reissues_witness :
  statusCode (moved 303 "http://example.com:8080/a?b=1") ∈ [301; 302; 303; 307] ∧
  ∃ s', responseHandler exampleNode false (moved 303 "http://example.com:8080/a?b=1")
          (after (send exampleNode (Some "x=1"))
             (after (open "POST" "http://example.com/" None None None) initial))
        = (s', Return tt) ∧
    issued s' = [ (false, Some "example.com", None, PNum 80, "/", Some "POST");
                  (false, None, Some "example.com", PStr "8080", "/a", Some "GET") ].
Proof.
  assert (statusCode (moved 303 "http://example.com:8080/a?b=1") ∈ [301; 302; 303; 307])
    as H by (apply (bool_decide_unpack _); vm_compute; exact I).
  split; [exact H |].
  destruct (redirect_reissues exampleNode false
              (moved 303 "http://example.com:8080/a?b=1")
              "http://example.com:8080/a?b=1"
              {| protocol := "http:"; hostname := "example.com"; port := "8080";
                 pathname := "/a"; search := "?b=1" |}
              (after (send exampleNode (Some "x=1"))
                 (after (open "POST" "http://example.com/" None None None) initial))
              H eq_refl eq_refl) as (s' & E & L & _).
  exists s'. split; [exact E |].
  unfold issued. rewrite L. by vm_compute.
Defined.

(** C4. The follow-up request does not go to the URL of the [Location]
    header. Its path is [url.pathname] alone, so the query string of
    [http://example.com/other?page=2] is lost, whereas [send] asks for
    [pathname + search] when the same URL is opened directly; it is issued
    with the protocol function of the first request, so a redirect from
    [http:] to [https://example.com/] goes out through [http.request]; and
    for the relative [Location: /other] the handler throws before it issues
    anything, having overwritten [settings.url]. The method is chosen as
    the claim says. *)
Theorem redirect_target_differs_from_Location :
  issued (after (responseHandler exampleNode false
                   (moved 302 "http://example.com/other?page=2")) sent)
    = [ (false, Some "example.com", None, PNum 80, "/", Some "GET");
        (false, None, Some "example.com", PStr "", "/other", Some "GET") ] ∧
  issued (after (send exampleNode None)
            (after (open "GET" "http://example.com/other?page=2" None None None) initial))
    = [ (false, Some "example.com", None, PNum 80, "/other?page=2", Some "GET") ] ∧
  issued (after (responseHandler exampleNode false
                   (moved 302 "https://example.com/")) sent)
    = [ (false, Some "example.com", None, PNum 80, "/", Some "GET");
        (false, None, Some "example.com", PStr "", "/", Some "GET") ] ∧
  snd (responseHandler exampleNode false (moved 302 "/other") sent)
    = Throw (TypeError "Invalid URL") ∧
  issued (after (responseHandler exampleNode false (moved 302 "/other")) sent)
    = issued sent ∧
  url (settings (after (responseHandler exampleNode false (moved 302 "/other")) sent))
    = Some "/other".
Proof. by vm_compute. Qed.

(** ** The Host header *)

(** C7. For an [https:] URL the [switch] leaves [host] empty: the request
    goes out with an empty [host] option and with the [Host] header empty,
    or holding only the port when the URL names one. For [http:] URLs the
    header is the host name, with the port when the URL names one. *)
Theorem send_https_Host_is_empty :
  headers (after (send exampleNode None) (openedTo "https://example.com/")) !! "Host"
    = Some (HStr "") ∧
  issued (after (send exampleNode None) (openedTo "https://example.com/"))
    = [ (true, Some "", None, PNum 443, "/", Some "GET") ] ∧
  headers (after (send exampleNode None) (openedTo "https://example.com:8443/")) !! "Host"
    = Some (HStr ":8443") ∧
  headers (after (send exampleNode None) (openedTo "http://example.com/")) !! "Host"
    = Some (HStr "example.com") ∧
  headers (after (send exampleNode None) (openedTo "http://example.com:8080/a?b=1")) !! "Host"
    = Some (HStr "example.com:8080").
Proof. by vm_compute. Qed.

(** ** Synchronous mode *)

(** C8. For a target that answers 302 the two modes differ. The worker of
    synchronous mode does not follow the redirect: [send] returns in state
    DONE with status 302 and has dispatched [load]. In asynchronous mode
    the same answer is not shown to the caller: the handler issues the
    follow-up request, [readyState] stays OPENED and [status] stays [null].
    Also, on a request object that is used a second time, the asynchronous
    path appends the body to the [responseText] of the first exchange, the
    synchronous one replaces it. *)
Theorem sync_send_does_not_follow_redirect :
  send redirectingNode None openedSync
    = (after (send redirectingNode None) openedSync, Return tt) ∧
  readyState (after (send redirectingNode None) openedSync) = DONE ∧
  status (after (send redirectingNode None) openedSync) = Some 302 ∧
  fired "load" (after (send redirectingNode None) openedSync) = 1%nat ∧
  issued (after (send redirectingNode None) openedSync) = [] ∧
  readyState (deliver exampleNode
                [OnResponse false (moved 302 "http://example.com/other?page=2")] sent)
    = OPENED ∧
  status (deliver exampleNode
            [OnResponse false (moved 302 "http://example.com/other?page=2")] sent)
    = None ∧
  issued (deliver exampleNode
            [OnResponse false (moved 302 "http://example.com/other?page=2")] sent)
    = [ (false, Some "example.com", None, PNum 80, "/", Some "GET");
        (false, None, Some "example.com", PStr "", "/other", Some "GET") ] ∧
  responseText (deliver exampleNode [OnResponse false answer201; OnData "{}"; OnEnd]
                  (after (send exampleNode None)
                     (after (open "GET" "http://example.com/" None None None) answered)))
    = Some "first{}" ∧
  responseText (after (send exampleNode None)
                  (after (open "GET" "http://example.com/" (Some false) None None) answered))
    = Some "{}".
Proof. by vm_compute. Qed.

(** ** Response headers *)

(** C9. A request for a [file:] URL reaches DONE with the error flag false
    and without any response object, and there [getAllResponseHeaders]
    throws instead of returning the (empty) header text;
    [getResponseHeader], which tests [response] first, returns [null]. The
    same holds once the read of an asynchronous request has called back. *)
Theorem getAllResponseHeaders_throws_without_response :
  readyState loadedFile = DONE ∧
  errorFlag loadedFile = false ∧
  status loadedFile = Some 200 ∧
  response loadedFile = None ∧
  getAllResponseHeaders loadedFile
    = Throw (TypeError "Cannot read properties of undefined (reading 'headers')") ∧
  getResponseHeader "Content-Type" loadedFile = None ∧
  getAllResponseHeaders
    (deliver exampleNode [OnFileRead (inr "127.0.0.1 localhost")] sentFile)
    = Throw (TypeError "Cannot read properties of undefined (reading 'headers')").
Proof. by vm_compute. Qed.

(** ** send, in general *)

Lemma withHeaders_id (s : XHR) : withHeaders (headers s) s = s.
Proof. unfold withHeaders, headers. by destruct s as [? ? ? ? ? ? ? ? ? ? ? ? [] ? ? ? ?]. Qed.

Lemma write_header_withHeaders (k : string) (v : HVal) (m : gmap string HVal) (s : XHR) :
  write_header k v (withHeaders m s) = withHeaders (<[k := v]> m) s.
Proof.
  unfold write_header, withHeaders.
  by destruct (headersAliased s) eqn:E; cbn; rewrite E.
Qed.

Lemma headers_withHeaders (m : gmap string HVal) (s : XHR) :
  headers (withHeaders m s) = m.
Proof.
  unfold headers, withHeaders.
  by destruct (headersAliased s) eqn:E; cbn; rewrite E.
Qed.

(** Everything but the header objects is untouched. *)
Lemma withHeaders_frame (m : gmap string HVal) (s : XHR) :
  readyState (withHeaders m s) = readyState s ∧
  status (withHeaders m s) = status s ∧
  responseText (withHeaders m s) = responseText s ∧
  withCredentials (withHeaders m s) = withCredentials s ∧
  settings (withHeaders m s) = settings s ∧
  sendFlag (withHeaders m s) = sendFlag s ∧
  errorFlag (withHeaders m s) = errorFlag s ∧
  log (withHeaders m s) = log s.
Proof. unfold withHeaders. by destruct (headersAliased s). Qed.

(** The loop over the defaults only rewrites the object [headers] refers
    to. *)
Lemma applyDefaults_shape (s : XHR) : ∃ m, applyDefaults s = withHeaders m s.
Proof.
  unfold applyDefaults.
  apply (map_fold_weak_ind (fun r _ => ∃ m, r = withHeaders m s)).
  - exists (headers s). by rewrite withHeaders_id.
  - intros name v _ r _ [m ->].
    destruct (truthyO (headersCase s !! toLowerCase name)); [by exists m |].
    rewrite write_header_withHeaders. by eexists.
Qed.

Arguments withHeaders : simpl never.

Lemma settings_withHeaders (m : gmap string HVal) (s : XHR) :
  settings (withHeaders m s) = settings s.
Proof. apply withHeaders_frame. Qed.

(** Preparing the headers never throws, touches nothing but the object
    [headers] refers to, and leaves [hostHeader] under [Host]. *)
Lemma prepareHeaders_spec (node : Node) (u : URL) (ssl : bool) (host : string)
    (data : option string) (s : XHR) :
  ∃ m d, prepareHeaders node u ssl host data s = (withHeaders m s, Return d) ∧
    m !! "Host" = Some (HStr (hostHeader u ssl host)).
Proof.
  unfold prepareHeaders, contentLength, hostHeader, bind, modify, when, get, ret.
  destruct (applyDefaults_shape s) as [m0 ->].
  rewrite !write_header_withHeaders.
  destruct ((ssl && portIs (portOf u ssl) 443) || portIs (portOf u ssl) 80); cbn [negb];
    rewrite ?write_header_withHeaders, !settings_withHeaders;
    destruct (truthyO (user (settings s)));
    rewrite ?write_header_withHeaders, ?settings_withHeaders;
    destruct (isMethod (method (settings s)) "GET" || isMethod (method (settings s)) "HEAD");
    try (eexists _, _; split; [reflexivity |]; by simplify_map_eq);
    destruct (truthyO data);
    rewrite ?write_header_withHeaders, ?headers_withHeaders;
    try (eexists _, _; split; [reflexivity |]; by simplify_map_eq).
  all: match goal with |- context [if ?b then _ else _] => destruct b end;
    rewrite ?write_header_withHeaders;
    eexists _, _; (split; [reflexivity |]); by simplify_map_eq.
Qed.

Ltac split_monadic_ifs :=
  repeat (cbn;
          match goal with
          | |- context [(if ?b then _ else _) _] => destruct b
          | |- context [match runWorker ?n ?a ?b ?c with _ => _ end] =>
              destruct (runWorker n a b c)
          end).

(** Whatever the mode and the outcome, [send] to a network URL leaves
    [hostHeader] under [Host]. *)
Lemma sendNetwork_Host (node : Node) (u : URL) (ssl : bool) (host : string)
    (data : option string) (s : XHR) :
  headers (fst (sendNetwork node u ssl host data s)) !! "Host"
  = Some (HStr (hostHeader u ssl host)).
Proof.
  unfold sendNetwork. unfold bind at 1.
  destruct (prepareHeaders_spec node u ssl host data s) as (m & d & -> & Hm).
  unfold_m. split_monadic_ifs.
  all: unfold headers; cbn;
    change (if headersAliased (withHeaders m s)
            then defaultHeaders (withHeaders m s)
            else ownHeaders (withHeaders m s))
      with (headers (withHeaders m s));
    by rewrite headers_withHeaders.
Qed.

(** X3. For an [http:] URL, [send] leaves under [Host] the host name of the
    URL, followed by a colon and the port exactly if the URL object has a
    port (a WHATWG URL object has none when the port is the default of its
    scheme); this holds in both modes and whatever the transport answers. *)
Theorem send_http_Host (node : Node) (data : option string) (s : XHR) (u : URL) :
  readyState s = OPENED → sendFlag s = false →
  url (settings s) ≫= parseURL node = Some u →
  protocol u = "http:" →
  headers (after (send node data) s) !! "Host"
  = Some (HStr (if truthy (port u) then hostname u +:+ ":" +:+ port u
                else hostname u)).
Proof.
  intros Hr Hs Hu Hp. unfold after, send, newURL.
  unfold bind at 1 2 3 4, get at 1, throw, ret.
  rewrite Hr, Hs, Hu, Hp. cbn.
  rewrite sendNetwork_Host. unfold hostHeader, portOf.
  by destruct (truthy (port u)).
Qed.

Lemma send_http_Host_witness :
  readyState (openedTo "http://example.com:8080/a?b=1") = OPENED ∧
  headers (after (send exampleNode None) (openedTo "http://example.com:8080/a?b=1"))
    !! "Host" = Some (HStr "example.com:8080").
Proof.
  split; [reflexivity |].
  exact (send_http_Host exampleNode None (openedTo "http://example.com:8080/a?b=1")
           {| protocol := "http:"; hostname := "example.com"; port := "8080";
              pathname := "/a"; search := "?b=1" |}
           eq_refl eq_refl eq_refl eq_refl).
Defined.





(** ** The text of getAllResponseHeaders *)

Lemma str_app_cons (c : ascii) (a b : string) :
  String c a +:+ b = String c (a +:+ b).
Proof. reflexivity. Qed.

Lemma str_app_assoc (a b c : string) : (a +:+ b) +:+ c = a +:+ b +:+ c.
Proof.
  induction a as [| x a IH]; [reflexivity |].
  by rewrite !str_app_cons, IH.
Qed.

Lemma str_length_app (a b : string) :
  String.length (a +:+ b) = (String.length a + String.length b)%nat.
Proof.
  induction a as [| x a IH]; [reflexivity |].
  rewrite str_app_cons. cbn. by rewrite IH.
Qed.

Lemma substring_app_prefix (a b : string) :
  String.substring 0 (String.length a) (a +:+ b) = a.
Proof.
  induction a as [| x a IH].
  - by destruct b.
  - rewrite str_app_cons. cbn. by rewrite IH.
Qed.

Lemma fold_left_lines (l : list (string * RVal)) :
  ∀ acc, fold_left (fun acc kv => acc +:+ headerLine kv +:+ CRLF) l acc
         = acc +:+ linesOf l.
Proof.
  induction l as [| kv l IH]; intros acc; cbn [fold_left linesOf].
  - induction acc as [| x acc IHa]; [reflexivity |].
    by rewrite str_app_cons, <- IHa.
  - by rewrite IH, str_app_assoc.
Qed.

Lemma linesOf_concat (kv : string * RVal) (l : list (string * RVal)) :
  linesOf (kv :: l) = String.concat CRLF (map headerLine (kv :: l)) +:+ CRLF.
Proof.
  revert kv. induction l as [| kv' l IH]; intros kv.
  - cbn [linesOf map String.concat]. by rewrite str_app_assoc.
  - change (linesOf (kv :: kv' :: l))
      with ((headerLine kv +:+ CRLF) +:+ linesOf (kv' :: l)).
    rewrite (IH kv'). cbn [map String.concat].
    by rewrite !str_app_assoc.
Qed.

(** X5. Once a response object is there, in state HEADERS_RECEIVED or later and
    with the error flag false, [getAllResponseHeaders] returns the lines
    [name: value] of all response headers, cookie headers included, in
    enumeration order and separated by CR LF, with no CR LF at the end. *)
Theorem getAllResponseHeaders_format (s : XHR) (r : Response) :
  HEADERS_RECEIVED ≤ readyState s →
  errorFlag s = false →
  response s = Some r →
  getAllResponseHeaders s
  = Return (String.concat CRLF (map headerLine (rheaders r))).
Proof.
  intros Hr He Hresp. unfold getAllResponseHeaders.
  destruct (Z.ltb_spec (readyState s) HEADERS_RECEIVED) as [Hlt | _]; [lia |].
  rewrite He, Hresp. cbn [orb]. f_equal.
  rewrite fold_left_lines.
  destruct (rheaders r) as [| kv l]; [reflexivity |].
  rewrite linesOf_concat.
  change ("" +:+ ?x) with x.
  rewrite str_length_app.
  replace (String.length _ + String.length CRLF - 2)%nat
    with (String.length (String.concat CRLF (map headerLine (kv :: l))))
    by (cbn; lia).
  apply substring_app_prefix.
Qed.

Lemma getAllResponseHeaders_format_witness :
  HEADERS_RECEIVED ≤ readyState headersReceived ∧
  getAllResponseHeaders headersReceived
  = Return (String.concat CRLF ["content-type: text/html"; "set-cookie: a=1,b=2"]).
Proof.
  assert (HEADERS_RECEIVED ≤ readyState headersReceived) as H by (vm_compute; discriminate).
  split; [exact H |].
  exact (getAllResponseHeaders_format headersReceived answerWithCookies
           H eq_refl eq_refl).
Defined.

(** ** Asynchronous mode, and the two modes compared *)

Lemma str_app_nil_r (a : string) : a +:+ "" = a.
Proof.
  induction a as [| x a IH]; [reflexivity |]. by rewrite str_app_cons, IH.
Qed.


(** The body chunks of an answer in progress. *)
Lemma deliver_data (node : Node) (chunks : list string) :
  ∀ s t, sendFlag s = true → errorFlag s = false →
    async (settings s) = true → responseText s = Some t →
    let s' := deliver node (map OnData chunks) s in
    sendFlag s' = true ∧ errorFlag s' = false ∧
    async (settings s') = true ∧ status s' = status s ∧
    responseText s' = Some (t +:+ joined chunks) ∧
    (chunks ≠ [] → readyState s' = LOADING) ∧
    (chunks = [] → readyState s' = readyState s) ∧
    fired "load" s' = fired "load" s.
Proof.
  induction chunks as [| c chunks IH]; intros s t Hs He Ha Ht.
  - cbn. rewrite str_app_nil_r. by repeat split.
  - cbn [map deliver fold_left].
    set (s1 := fst (callback node (OnData c) s)).
    assert (sendFlag s1 = true ∧ errorFlag s1 = false ∧ async (settings s1) = true ∧
            status s1 = status s ∧ responseText s1 = Some (t +:+ c) ∧
            readyState s1 = LOADING ∧ fired "load" s1 = fired "load" s)
      as (Hs1 & He1 & Ha1 & Hst1 & Ht1 & Hr1 & Hf1).
    { unfold s1. cbn [callback]. unfold_m. unfold fired.
      destruct (truthy c) eqn:Ec; repeat (cbn; rewrite ?Hs, ?Ha, ?Ht, ?He).
      - rewrite !List.filter_app. cbn. by rewrite !app_nil_r.
      - apply truthy_false in Ec. subst c. rewrite str_app_nil_r.
        rewrite !List.filter_app. cbn. by rewrite !app_nil_r. }
    destruct (IH s1 (t +:+ c) Hs1 He1 Ha1 Ht1)
      as (Hs2 & He2 & Ha2 & Hst2 & Ht2 & Hr2 & Hr2' & Hf2).
    fold (deliver node (map OnData chunks) s1).
    repeat split; try done; try congruence.
    + rewrite Ht2. cbn [joined fold_right]. by rewrite str_app_assoc.
    + intros _. destruct chunks; [by rewrite Hr2' | by apply Hr2].
Qed.

Lemma deliver_app (node : Node) (a b : list Callback) (s : XHR) :
  deliver node (a ++ b) s = deliver node b (deliver node a s).
Proof. unfold deliver. apply fold_left_app. Qed.

(** A complete answer that is not a redirect takes a request in flight to
    DONE, with the status of the answer and the chunks appended to the
    response text, and dispatches [load] once. *)
Lemma deliver_exchange (node : Node) (ssl : bool) (r : Response)
    (chunks : list string) (s : XHR) (t : string) :
  isRedirect (statusCode r) = false →
  readyState s = OPENED → sendFlag s = true → errorFlag s = false →
  async (settings s) = true → responseText s = Some t →
  readyState (deliver node (exchange ssl r chunks) s) = DONE ∧
  status (deliver node (exchange ssl r chunks) s) = Some (statusCode r) ∧
  responseText (deliver node (exchange ssl r chunks) s) = Some (t +:+ joined chunks) ∧
  sendFlag (deliver node (exchange ssl r chunks) s) = false ∧
  fired "load" (deliver node (exchange ssl r chunks) s) = S (fired "load" s).
Proof.
  intros Hred Hr Hs He Ha Ht. unfold exchange.
  change (OnResponse ssl r :: map OnData chunks ++ [OnEnd])
    with ([OnResponse ssl r] ++ map OnData chunks ++ [OnEnd]).
  rewrite !deliver_app.
  set (s1 := deliver node [OnResponse ssl r] s).
  assert (sendFlag s1 = true ∧ errorFlag s1 = false ∧ async (settings s1) = true ∧
          status s1 = Some (statusCode r) ∧ responseText s1 = Some t ∧
          readyState s1 = HEADERS_RECEIVED ∧ fired "load" s1 = fired "load" s)
    as (Hs1 & He1 & Ha1 & Hst1 & Ht1 & Hr1 & Hf1).
  { unfold s1. cbn [deliver fold_left callback]. unfold responseHandler.
    rewrite Hred. unfold_m. unfold fired.
    repeat (cbn; rewrite ?Hr, ?Hs, ?Ha, ?Ht, ?He).
    rewrite !List.filter_app. cbn. by rewrite !app_nil_r. }
  destruct (deliver_data node chunks s1 t Hs1 He1 Ha1 Ht1)
    as (Hs2 & He2 & Ha2 & Hst2 & Ht2 & Hr2 & Hr2' & Hf2).
  set (s2 := deliver node (map OnData chunks) s1) in *.
  assert (readyState s2 ≠ DONE) as Hnd.
  { destruct chunks; [rewrite Hr2', Hr1 by done | rewrite Hr2 by done]; discriminate. }
  cbn [deliver fold_left callback]. unfold_m. unfold fired.
  apply Z.eqb_neq in Hnd.
  repeat (cbn; rewrite ?Hs2, ?He2, ?Ha2, ?Hnd, ?orb_true_r).
  rewrite Hst2, Hst1, Ht2. repeat (split; [done |]).
  rewrite !List.filter_app. cbn. rewrite !length_app. cbn.
  unfold fired in Hf2, Hf1. rewrite Hf2, Hf1. lia.
Qed.



(** * Properties of the whole interface *)

(** ** What every call preserves

    A relation between an earlier and a later state that is reflexive and
    transitive and that holds across each elementary assignment of the
    source holds across every call but [setDisableHeaderCheck], hence across
    any sequence of them. State changes come as the pair the source makes of
    them (the assignment to [readyState] with its value 0 to 4), [load] and
    [loadend] as the pair [setState] dispatches in state DONE with the error
    flag false. *)
Section Later.
Variable R : XHR -> XHR -> Prop.
Hypothesis R_refl : forall s, R s s.
Hypothesis R_trans : forall s1 s2 s3, R s1 s2 -> R s2 s3 -> R s1 s3.
Hypothesis R_status : forall v s, R s (set_status v s).
Hypothesis R_statusText : forall v s, R s (set_statusText v s).
Hypothesis R_responseText : forall v s, R s (set_responseText v s).
Hypothesis R_responseXML : forall v s, R s (set_responseXML v s).
Hypothesis R_request : forall v s, R s (set_request v s).
Hypothesis R_response : forall v s, R s (set_response v s).
Hypothesis R_settings : forall v s, R s (set_settings v s).
Hypothesis R_sendFlag : forall v s, R s (set_sendFlag v s).
Hypothesis R_errorFlag : forall v s, R s (set_errorFlag v s).
Hypothesis R_aliased : forall s, R s (set_headersAliased true s).
Hypothesis R_write : forall k v s, R s (write_header k v s).
Hypothesis R_defaults : forall s, R s (applyDefaults s).
Hypothesis R_setRequestHeader : forall h v s, R s (fst (setRequestHeader h v s)).
Hypothesis R_state :
  forall n s, 0 <= n <= 4 -> R s (emit (SetReadyState n) (set_readyState n s)).
Hypothesis R_emit :
  forall e s, isDispatch "load" e = false -> isDispatch "loadend" e = false ->
              (forall n, e <> SetReadyState n) -> R s (emit e s).
Hypothesis R_load :
  forall s, readyState s = DONE -> errorFlag s = false ->
            R s (emit (Dispatch "loadend") (emit (Dispatch "load") s)).

Lemma later_ret {A} (a : A) : later R (ret a).
Proof. intros s. apply R_refl. Qed.

Lemma later_throw {A} (e : Exn) : later R (@throw A e).
Proof. intros s. apply R_refl. Qed.

Lemma later_get : later R get.
Proof. intros s. apply R_refl. Qed.

Lemma later_bind {A B} (m : M A) (k : A -> M B) :
  later R m -> (forall a, later R (k a)) -> later R (bind m k).
Proof.
  intros Hm Hk s. unfold bind. specialize (Hm s).
  destruct (m s) as [s1 [a | e]]; [| exact Hm].
  eapply R_trans; [exact Hm | apply Hk].
Qed.

Lemma later_modify (f : XHR -> XHR) : (forall s, R s (f s)) -> later R (modify f).
Proof. intros H s. apply H. Qed.

Lemma later_when (b : bool) (m : M unit) : later R m -> later R (when b m).
Proof. intros H. destruct b; [exact H | apply later_ret]. Qed.

Lemma later_dispatchEvent (ev : string) :
  String.eqb ev "load" = false -> String.eqb ev "loadend" = false ->
  later R (dispatchEvent ev).
Proof. intros H1 H2 s. apply R_emit; cbn; try done. Qed.

Lemma later_setState (n : Z) : 0 <= n <= 4 -> later R (setState n).
Proof.
  intros Hn s. unfold setState, bind at 1, get at 1. cbn [fst snd].
  destruct ((n =? LOADING) || negb (readyState s =? n)); [| apply R_refl].
  cbn [when]. unfold bind at 1 2, modify at 1 2. cbn beta iota.
  eapply R_trans; [apply (R_state n s Hn) |].
  set (s1 := emit _ _).
  unfold bind at 1 2, get at 1. cbn beta iota.
  assert (R s1 (fst (when (async (settings s1) || (readyState s1 <? OPENED)
                           || (readyState s1 =? DONE))
                       (dispatchEvent "readystatechange") s1))) as H1.
  { apply later_when. by apply later_dispatchEvent. }
  destruct (when _ (dispatchEvent "readystatechange") s1) as [s2 [[] | e]] eqn:E2;
    cbn [fst] in H1; [| exact H1].
  eapply R_trans; [exact H1 |].
  unfold bind at 1, get. cbn beta iota.
  destruct ((readyState s2 =? DONE) && negb (errorFlag s2)) eqn:Ec;
    cbn [when]; [| apply R_refl].
  apply andb_true_iff in Ec as [Hd He].
  apply Z.eqb_eq in Hd. apply negb_true_iff in He.
  unfold bind, dispatchEvent, modify. cbn beta iota. by apply R_load.
Qed.

(** The assignment to [readyState] as [abort] writes it. *)
Lemma later_assign (n : Z) (k : M unit) :
  0 <= n <= 4 -> later R k ->
  later R (modify (set_readyState n) >>; modify (emit (SetReadyState n)) >>; k).
Proof.
  intros Hn Hk s. unfold bind at 1 2, modify at 1 2. cbn beta iota.
  eapply R_trans; [apply (R_state n s Hn) | apply Hk].
Qed.

Ltac later_prim :=
  first [ apply R_status | apply R_statusText | apply R_responseText
        | apply R_responseXML | apply R_request | apply R_response
        | apply R_settings | apply R_sendFlag | apply R_errorFlag
        | apply R_aliased | apply R_write | apply R_defaults
        | apply R_emit; [reflexivity | reflexivity | discriminate] ].

Ltac later_walk :=
  repeat first
    [ apply later_ret | apply later_throw | apply later_get
    | apply later_setState;
      unfold UNSENT, OPENED, HEADERS_RECEIVED, LOADING, DONE; lia
    | apply later_dispatchEvent; reflexivity
    | apply later_when
    | apply later_assign;
      [unfold UNSENT, OPENED, HEADERS_RECEIVED, LOADING, DONE; lia |]
    | apply later_modify; intros ?; cbn beta; later_prim
    | apply later_bind; [| intros ?]
    | progress lazy zeta
    | match goal with
      | |- later _ (if ?b then _ else _) => destruct b
      | |- later _ (match ?x with _ => _ end) => destruct x
      end ].

Lemma later_handleError (e : NodeError) : later R (handleError e).
Proof. unfold handleError. later_walk. Qed.

Lemma later_open (m u : string) (a : option bool) (usr pw : option string) :
  later R (open m u a usr pw).
Proof. unfold open. later_walk. Qed.

Lemma later_abort : later R abort.
Proof. unfold abort. later_walk. Qed.

Lemma later_newURL (node : Node) (u : option string) : later R (newURL node u).
Proof. unfold newURL. later_walk. Qed.

Lemma later_sendLocal (node : Node) (u : URL) : later R (sendLocal node u).
Proof. unfold sendLocal. later_walk; apply later_handleError. Qed.

Lemma later_prepareHeaders (node : Node) (u : URL) (ssl : bool) (host : string)
    (data : option string) :
  later R (prepareHeaders node u ssl host data).
Proof. unfold prepareHeaders, contentLength. later_walk. Qed.

Lemma later_sendNetwork (node : Node) (u : URL) (ssl : bool) (host : string)
    (data : option string) :
  later R (sendNetwork node u ssl host data).
Proof.
  unfold sendNetwork. lazy zeta.
  apply later_bind; [apply later_prepareHeaders | intros d].
  later_walk; apply later_handleError.
Qed.

Lemma later_send (node : Node) (data : option string) : later R (send node data).
Proof.
  unfold send.
  apply later_bind; [apply later_get | intros s].
  apply later_bind; [later_walk | intros _].
  apply later_bind; [later_walk | intros _].
  apply later_bind; [apply later_newURL | intros u].
  repeat match goal with
         | |- later _ (if ?b then _ else _) => destruct b
         end;
    first [apply later_sendNetwork | apply later_sendLocal | apply later_throw].
Qed.

Lemma later_responseHandler (node : Node) (ssl : bool) (resp : Response) :
  later R (responseHandler node ssl resp).
Proof.
  unfold responseHandler.
  apply later_bind; [later_walk | intros _].
  destruct (isRedirect (statusCode resp)); [| later_walk].
  lazy zeta.
  apply later_bind; [later_walk | intros _].
  apply later_bind; [apply later_newURL | intros u].
  later_walk.
Qed.

Lemma later_callback (node : Node) (cb : Callback) : later R (callback node cb).
Proof.
  destruct cb as [ssl resp | chunk | | e | [e | data]]; cbn [callback].
  - apply later_responseHandler.
  - later_walk.
  - later_walk.
  - apply later_handleError.
  - apply later_handleError.
  - later_walk.
Qed.

(** Every call but [setDisableHeaderCheck]. *)
Lemma later_perform (node : Node) (c : Call) :
  (forall b, c <> DoSetDisableHeaderCheck b) -> later R (perform node c).
Proof.
  intros Hc. destruct c; cbn [perform].
  - apply later_open.
  - intros s. apply R_setRequestHeader.
  - by destruct (Hc state).
  - apply later_send.
  - apply later_abort.
  - apply later_callback.
Qed.

Lemma later_run (node : Node) (cs : list Call) :
  Forall (fun c => later R (perform node c)) cs ->
  forall s, R s (run node cs s).
Proof.
  induction 1 as [| c cs Hc _ IH]; intros s; [apply R_refl |].
  cbn [run fold_left]. eapply R_trans; [apply Hc | apply IH].
Qed.

Lemma later_run_all (node : Node) (cs : list Call) :
  (forall b s, R s (set_disableHeaderCheck b s)) ->
  forall s, R s (run node cs s).
Proof.
  intros Hd. apply later_run. apply Forall_forall. intros c _.
  destruct c; try (apply later_perform; discriminate).
  intros s. apply Hd.
Qed.
End Later.

(** ** Invariants of any sequence of calls *)

Lemma log_write_header (k : string) (v : HVal) (s : XHR) :
  log (write_header k v s) = log s.
Proof. unfold write_header. by destruct (headersAliased s). Qed.

Lemma headersAliased_write_header (k : string) (v : HVal) (s : XHR) :
  headersAliased (write_header k v s) = headersAliased s.
Proof. unfold write_header. by destruct (headersAliased s) eqn:E; cbn. Qed.

(** [setRequestHeader] writes nothing but the two header mappings and the
    log. *)
Lemma setRequestHeader_frame (h v : string) (s : XHR) :
  readyState (fst (setRequestHeader h v s)) = readyState s ∧
  sendFlag (fst (setRequestHeader h v s)) = sendFlag s ∧
  disableHeaderCheck (fst (setRequestHeader h v s)) = disableHeaderCheck s ∧
  headersAliased (fst (setRequestHeader h v s)) = headersAliased s.
Proof.
  unfold setRequestHeader, throw, modify.
  destruct (negb (readyState s =? OPENED)); [done |].
  destruct (negb (isAllowedHttpHeader s h)); [done |].
  destruct (sendFlag s) eqn:Es; [done |].
  cbn [fst].
  match goal with
  | |- context [write_header ?k ?w ?s1] =>
      destruct (write_header_frame k w s1) as (-> & -> & ->);
      rewrite (headersAliased_write_header k w s1)
  end.
  by cbn.
Qed.

(** X7. In any sequence of calls and transport callbacks, in any order and
    whatever they throw, [readyState] stays one of the five states 0 to 4. *)
Theorem run_readyState_range (node : Node) (cs : list Call) (s : XHR) :
  0 <= readyState s <= 4 → 0 <= readyState (run node cs s) <= 4.
Proof.
  apply (later_run_all (fun s s' => 0 <= readyState s <= 4 → 0 <= readyState s' <= 4));
    try (intros; cbn; tauto).
  - intros k v s0. by destruct (write_header_frame k v s0) as (-> & _).
  - intros s0. destruct (applyDefaults_shape s0) as [m ->].
    by destruct (withHeaders_frame m s0) as (-> & _).
  - intros h v s0. by destruct (setRequestHeader_frame h v s0) as (-> & _).
Qed.

Lemma run_readyState_range_witness :
  0 <= readyState initial <= 4 ∧
  0 <= readyState (run exampleNode
                     [DoOpen "GET" "http://example.com/" None None None;
                      DoCallback OnEnd; DoSend None; DoAbort;
                      DoCallback (OnData "late")] initial) <= 4.
Proof.
  assert (0 <= readyState initial <= 4) as H by (vm_compute; split; discriminate).
  split; [exact H |].
  exact (run_readyState_range exampleNode _ initial H).
Defined.

Lemma loadPaired_app_bounded (n : nat) (b : list Effect) :
  ∀ a, (length a <= n)%nat → loadPaired a = true →
       loadPaired (a ++ b) = loadPaired b.
Proof.
  induction n as [| n IH]; intros a Hlen Ha.
  - destruct a; [done | cbn in Hlen; lia].
  - destruct a as [| e a]; [done |].
    cbn [loadPaired app] in *.
    destruct (isDispatch "load" e).
    + destruct a as [| e' a]; [done |].
      cbn [app]. apply andb_true_iff in Ha as [He' Ha]. rewrite He'. cbn [andb].
      apply IH; [cbn in Hlen; lia | done].
    + apply andb_true_iff in Ha as [He Ha]. rewrite He. cbn [andb].
      apply IH; [cbn in Hlen; lia | done].
Qed.

Lemma loadPaired_app (a b : list Effect) :
  loadPaired a = true → loadPaired b = true → loadPaired (a ++ b) = true.
Proof.
  intros Ha Hb. by rewrite (loadPaired_app_bounded (length a) b a).
Qed.

Lemma loadPaired_count_bounded (n : nat) :
  ∀ a, (length a <= n)%nat → loadPaired a = true →
       length (List.filter (isDispatch "load") a)
       = length (List.filter (isDispatch "loadend") a).
Proof.
  induction n as [| n IH]; intros a Hlen Ha.
  - destruct a; [done | cbn in Hlen; lia].
  - destruct a as [| e a]; [done |].
    cbn [loadPaired] in Ha. cbn [List.filter].
    destruct (isDispatch "load" e) eqn:El.
    + destruct a as [| e' a]; [done |].
      apply andb_true_iff in Ha as [He' Ha].
      assert (isDispatch "loadend" e = false) as ->.
      { destruct e; try done. cbn in *. apply String.eqb_eq in El. by subst. }
      assert (isDispatch "load" e' = false) as He'l.
      { destruct e'; try done. cbn in *. apply String.eqb_eq in He'. by subst. }
      cbn [List.filter]. rewrite He', He'l. cbn [length]. f_equal.
      apply IH; [cbn in Hlen; lia | done].
    + apply andb_true_iff in Ha as [He Ha]. apply negb_true_iff in He.
      rewrite He. apply IH; [cbn in Hlen; lia | done].
Qed.

Lemma log_setRequestHeader (h v : string) (s : XHR) :
  ∃ b, log (fst (setRequestHeader h v s)) = log s ++ b ∧ loadPaired b = true.
Proof.
  unfold setRequestHeader, throw, modify.
  destruct (negb (readyState s =? OPENED)); [exists []; by rewrite app_nil_r |].
  destruct (negb (isAllowedHttpHeader s h)); [by eexists [_] |].
  destruct (sendFlag s) eqn:Es; [exists []; by rewrite app_nil_r |].
  cbn [fst]. rewrite log_write_header. exists []. by rewrite app_nil_r.
Qed.

(** X8. Over any sequence of calls and transport callbacks the effect log
    only grows, and in what is added every [load] is followed at once by
    [loadend] and there is no other [loadend]: the two events are
    dispatched equally often. *)
Theorem run_load_paired (node : Node) (cs : list Call) (s : XHR) :
  ∃ b, log (run node cs s) = log s ++ b ∧
       loadPaired b = true ∧
       length (List.filter (isDispatch "load") b)
       = length (List.filter (isDispatch "loadend") b).
Proof.
  assert (∃ b, log (run node cs s) = log s ++ b ∧ loadPaired b = true)
    as (b & E & Hb).
  { apply (later_run_all
             (fun s s' => ∃ b, log s' = log s ++ b ∧ loadPaired b = true));
      try (intros; exists []; by rewrite app_nil_r).
    - intros s1 s2 s3 (b1 & E1 & H1) (b2 & E2 & H2).
      exists (b1 ++ b2). rewrite E2, E1, app_assoc. split; [done |].
      by apply loadPaired_app.
    - intros k v s0. exists []. by rewrite log_write_header, app_nil_r.
    - intros s0. destruct (applyDefaults_shape s0) as [m ->].
      exists []. rewrite app_nil_r. split; [apply withHeaders_frame | done].
    - apply log_setRequestHeader.
    - intros n s0 _. by exists [SetReadyState n].
    - intros e s0 H1 H2 _. exists [e]. split; [done |].
      cbn. by rewrite H1, H2.
    - intros s0 _ _. exists [Dispatch "load"; Dispatch "loadend"].
      split; [| done]. cbn. by rewrite <- app_assoc. }
  exists b. split; [exact E |]. split; [exact Hb |].
  by apply (loadPaired_count_bounded (length b)).
Qed.

Lemma headersCase_withHeaders (m : gmap string HVal) (s : XHR) :
  headersCase (withHeaders m s) = headersCase s.
Proof. unfold withHeaders. by destruct (headersAliased s). Qed.

(** A call of [setRequestHeader] keeps every casing that is registered. *)
Lemma setRequestHeader_keeps_casing (h v : string) (s : XHR) :
  wellCased s →
  wellCased (fst (setRequestHeader h v s)) ∧
  ∀ l k, headersCase s !! l = Some k →
         headersCase (fst (setRequestHeader h v s)) !! l = Some k.
Proof.
  intros Hw. unfold setRequestHeader, throw, modify.
  destruct (negb (readyState s =? OPENED)); [done |].
  destruct (negb (isAllowedHttpHeader s h)); [done |].
  destruct (sendFlag s) eqn:Es; [done |].
  cbn [fst]. unfold wellCased. rewrite !headersCase_write_header.
  cbn [headersCase set_headersCase].
  destruct (headersCase s !! toLowerCase h) as [k0 |] eqn:Ek.
  - assert ((if truthy k0 then k0 else h) = k0) as ->.
    { destruct (truthy k0) eqn:Et; [done |].
      apply truthy_false in Et. subst k0.
      apply toLowerCase_empty. by rewrite <- (Hw _ _ Ek). }
    rewrite (Hw _ _ Ek), !insert_id by done. done.
  - split.
    + intros l k. destruct (decide (toLowerCase h = l)) as [<- | Hne].
      * rewrite lookup_insert_eq. by intros [= <-].
      * rewrite lookup_insert_ne by done. apply Hw.
    + intros l k Hl. rewrite lookup_insert_ne; [done |]. congruence.
Qed.

Lemma run_keeps_casing (node : Node) (cs : list Call) (s : XHR) :
  wellCased s →
  wellCased (run node cs s) ∧
  ∀ l k, headersCase s !! l = Some k → headersCase (run node cs s) !! l = Some k.
Proof.
  apply (later_run_all
           (fun s s' => wellCased s →
                        wellCased s' ∧
                        ∀ l k, headersCase s !! l = Some k →
                               headersCase s' !! l = Some k));
    try (intros; cbn; tauto).
  - intros s1 s2 s3 H12 H23 H1. destruct (H12 H1) as [H2 K12].
    destruct (H23 H2) as [H3 K23]. split; [done |]. intros l k Hl. auto.
  - intros k v s0 H. unfold wellCased. by rewrite headersCase_write_header.
  - intros s0 H. destruct (applyDefaults_shape s0) as [m ->].
    unfold wellCased. by rewrite headersCase_withHeaders.
  - intros h v s0. apply setRequestHeader_keeps_casing.
Qed.

Lemma run_app (node : Node) (cs1 cs2 : list Call) (s : XHR) :
  run node (cs1 ++ cs2) s = run node cs2 (run node cs1 s).
Proof. unfold run. apply fold_left_app. Qed.

(** X9. On an object used from its construction, the casing under which a
    header name has been registered is filed under the lower-case name and
    is never changed or removed afterwards, whatever calls follow, [abort]
    and [open] included. *)
Theorem headersCase_persistent (node : Node) (cs1 cs2 : list Call) (l k : string) :
  headersCase (run node cs1 initial) !! l = Some k →
  toLowerCase k = l ∧
  headersCase (run node (cs1 ++ cs2) initial) !! l = Some k.
Proof.
  intros Hl.
  destruct (run_keeps_casing node cs1 initial) as [Hw _]; [intros ? ?; done |].
  split; [by apply Hw |].
  rewrite run_app. by apply (run_keeps_casing node cs2 _ Hw).
Qed.

Lemma headersCase_persistent_witness :
  headersCase (run exampleNode
                 [DoOpen "GET" "http://example.com/" None None None;
                  DoSetRequestHeader "X-Token" "a"] initial) !! "x-token"
    = Some "X-Token" ∧
  toLowerCase "X-Token" = "x-token" ∧
  headersCase (run exampleNode
                 ([DoOpen "GET" "http://example.com/" None None None;
                   DoSetRequestHeader "X-Token" "a"]
                  ++ [DoSend None; DoAbort;
                      DoOpen "GET" "http://example.com/" None None None;
                      DoSetRequestHeader "x-token" "b"]) initial) !! "x-token"
    = Some "X-Token".
Proof.
  assert (headersCase (run exampleNode
                 [DoOpen "GET" "http://example.com/" None None None;
                  DoSetRequestHeader "X-Token" "a"] initial) !! "x-token"
          = Some "X-Token") as H by reflexivity.
  split; [exact H |].
  exact (headersCase_persistent exampleNode _ _ "x-token" "X-Token" H).
Defined.

(** Once [headers] is the defaults object, it stays so and loses no key. *)
Lemma run_aliased (node : Node) (cs : list Call) (s : XHR) :
  headersAliased s = true →
  headersAliased (run node cs s) = true ∧
  ∀ k, is_Some (defaultHeaders s !! k) → is_Some (defaultHeaders (run node cs s) !! k).
Proof.
  assert (∀ k v s0, headersAliased s0 = true →
            headersAliased (write_header k v s0) = true ∧
            ∀ k', is_Some (defaultHeaders s0 !! k') →
                  is_Some (defaultHeaders (write_header k v s0) !! k')) as Hwrite.
  { intros k v s0 Ha. rewrite headersAliased_write_header. split; [done |].
    unfold write_header. rewrite Ha. cbn. intros k' Hk'.
    destruct (decide (k = k')) as [-> | Hne];
      [by rewrite lookup_insert_eq | by rewrite lookup_insert_ne]. }
  apply (later_run_all
           (fun s s' => headersAliased s = true →
                        headersAliased s' = true ∧
                        ∀ k, is_Some (defaultHeaders s !! k) →
                             is_Some (defaultHeaders s' !! k)));
    try (intros; cbn; tauto).
  - intros s1 s2 s3 H12 H23 H1. destruct (H12 H1) as [H2 K12].
    destruct (H23 H2) as [H3 K23]. split; [done |]. auto.
  - exact Hwrite.
  - intros s0 Ha. unfold applyDefaults.
    apply (map_fold_weak_ind
             (fun r _ => headersAliased r = true ∧
                         ∀ k, is_Some (defaultHeaders s0 !! k) →
                              is_Some (defaultHeaders r !! k))); [done |].
    intros name v _ r _ [Hr Hk].
    destruct (truthyO (headersCase s0 !! toLowerCase name)); [done |].
    destruct (Hwrite name v r Hr) as [H1 H2]. split; [done |]. auto.
  - intros h v s0 Ha. unfold setRequestHeader, throw, modify.
    destruct (negb (readyState s0 =? OPENED)); [done |].
    destruct (negb (isAllowedHttpHeader s0 h)); [done |].
    destruct (sendFlag s0) eqn:Es; [done |].
    cbn [fst].
    match goal with
    | |- context [write_header ?k ?w ?s1] =>
        destruct (Hwrite k w s1) as [H1 H2]; [done |]
    end.
    split; [done |]. intros k Hk. by apply H2.
Qed.

(** X10. Once [abort] has made [headers] the defaults object, every later
    write goes into that object and no call resets it: a header that is
    present stays present whatever calls follow, a further [abort]
    included. *)
Theorem headers_never_cleared_again (node : Node) (cs : list Call) (s : XHR) (k : string) :
  headersAliased s = true →
  is_Some (headers s !! k) →
  is_Some (headers (run node cs s) !! k) ∧
  headers (run node cs s) = defaultHeaders (run node cs s).
Proof.
  intros Ha Hk. destruct (run_aliased node cs s Ha) as [Ha' Hkeep].
  unfold headers in *. rewrite Ha in Hk. rewrite Ha'. split; [by apply Hkeep | done].
Qed.

Lemma headers_never_cleared_again_witness :
  headersAliased (run exampleNode
                    [DoAbort; DoOpen "GET" "http://example.com/" None None None;
                     DoSetRequestHeader "X-Token" "a"] initial) = true ∧
  is_Some (headers (run exampleNode
                      [DoAbort; DoOpen "GET" "http://example.com/" None None None;
                       DoSetRequestHeader "X-Token" "a"] initial) !! "X-Token") ∧
  is_Some (headers (run exampleNode [DoSend None; DoAbort]
                      (run exampleNode
                         [DoAbort; DoOpen "GET" "http://example.com/" None None None;
                          DoSetRequestHeader "X-Token" "a"] initial)) !! "X-Token") ∧
  headers (run exampleNode [DoSend None; DoAbort]
             (run exampleNode
                [DoAbort; DoOpen "GET" "http://example.com/" None None None;
                 DoSetRequestHeader "X-Token" "a"] initial))
  = defaultHeaders (run exampleNode [DoSend None; DoAbort]
                      (run exampleNode
                         [DoAbort; DoOpen "GET" "http://example.com/" None None None;
                          DoSetRequestHeader "X-Token" "a"] initial)).
Proof.
  assert (headersAliased (run exampleNode
                    [DoAbort; DoOpen "GET" "http://example.com/" None None None;
                     DoSetRequestHeader "X-Token" "a"] initial) = true) as H1
    by reflexivity.
  assert (is_Some (headers (run exampleNode
                      [DoAbort; DoOpen "GET" "http://example.com/" None None None;
                       DoSetRequestHeader "X-Token" "a"] initial) !! "X-Token")) as H2
    by (vm_compute; eauto).
  split; [exact H1 |]. split; [exact H2 |].
  exact (headers_never_cleared_again exampleNode [DoSend None; DoAbort] _ "X-Token" H1 H2).
Defined.

Lemma ownHeaders_write_header (k : string) (v : HVal) (s : XHR) :
  headersAliased s = false → ownHeaders (write_header k v s) = <[k := v]> (ownHeaders s).
Proof. intros Ha. unfold write_header. by rewrite Ha. Qed.

(** While [headers] is the object created with the request, it loses no
    key. *)
Lemma run_own_headers (node : Node) (cs : list Call) (s : XHR) :
  headersAliased (run node cs s) = false →
  headersAliased s = false ∧
  ∀ k, is_Some (ownHeaders s !! k) → is_Some (ownHeaders (run node cs s) !! k).
Proof.
  assert (∀ k v s0, headersAliased (write_header k v s0) = false →
            headersAliased s0 = false ∧
            ∀ k', is_Some (ownHeaders s0 !! k') →
                  is_Some (ownHeaders (write_header k v s0) !! k')) as Hwrite.
  { intros k v s0. rewrite headersAliased_write_header. intros Ha. split; [done |].
    rewrite ownHeaders_write_header by done. intros k' Hk'.
    destruct (decide (k = k')) as [-> | Hne];
      [by rewrite lookup_insert_eq | by rewrite lookup_insert_ne]. }
  apply (later_run_all
           (fun s s' => headersAliased s' = false →
                        headersAliased s = false ∧
                        ∀ k, is_Some (ownHeaders s !! k) →
                             is_Some (ownHeaders s' !! k)));
    try (intros; cbn; tauto).
  - intros s1 s2 s3 H12 H23 H3. destruct (H23 H3) as [H2 K23].
    destruct (H12 H2) as [H1 K12]. split; [done |]. auto.
  - intros s0. cbn. discriminate.
  - exact Hwrite.
  - intros s0. unfold applyDefaults.
    apply (map_fold_weak_ind
             (fun r _ => headersAliased r = false →
                         headersAliased s0 = false ∧
                         ∀ k, is_Some (ownHeaders s0 !! k) →
                              is_Some (ownHeaders r !! k))); [done |].
    intros name v _ r _ IH.
    destruct (truthyO (headersCase s0 !! toLowerCase name)); [done |].
    intros Ha. destruct (Hwrite name v r Ha) as [H1 H2].
    destruct (IH H1) as [H3 H4]. split; [done |]. auto.
  - intros h v s0. unfold setRequestHeader, throw, modify.
    destruct (negb (readyState s0 =? OPENED)); [done |].
    destruct (negb (isAllowedHttpHeader s0 h)); [cbn; tauto |].
    destruct (sendFlag s0) eqn:Es; [done |].
    cbn [fst]. intros Ha.
    match type of Ha with
    | context [write_header ?k ?w ?s1] =>
        destruct (Hwrite k w s1 Ha) as [H1 H2]
    end.
    split; [done |]. intros k Hk. by apply H2.
Qed.

(** X11. No call resets the request headers: as long as [headers] is still
    the object created with the request (which only [abort] changes), a
    header that is present stays present whatever calls follow, [open] for
    a new request included. *)
Theorem headers_persist_until_abort (node : Node) (cs : list Call) (s : XHR) (k : string) :
  headersAliased (run node cs s) = false →
  is_Some (headers s !! k) →
  headersAliased s = false ∧ is_Some (headers (run node cs s) !! k).
Proof.
  intros Ha Hk. destruct (run_own_headers node cs s Ha) as [Ha' Hkeep].
  split; [done |]. unfold headers in *. rewrite Ha' in Hk. rewrite Ha. by apply Hkeep.
Qed.

Lemma headers_persist_until_abort_witness :
  headersAliased
    (run exampleNode
       [DoCallback (OnResponse false answer201); DoCallback OnEnd;
        DoOpen "GET" "http://example.com/other?page=2" None None None]
       (run exampleNode
          [DoOpen "POST" "http://example.com/" None None None;
           DoSetRequestHeader "X-Token" "a"; DoSend (Some "body")] initial)) = false ∧
  is_Some (headers
             (run exampleNode
                [DoOpen "POST" "http://example.com/" None None None;
                 DoSetRequestHeader "X-Token" "a"; DoSend (Some "body")] initial)
           !! "Content-Length") ∧
  is_Some (headers
             (run exampleNode
                [DoCallback (OnResponse false answer201); DoCallback OnEnd;
                 DoOpen "GET" "http://example.com/other?page=2" None None None]
                (run exampleNode
                   [DoOpen "POST" "http://example.com/" None None None;
                    DoSetRequestHeader "X-Token" "a"; DoSend (Some "body")] initial))
           !! "Content-Length").
Proof.
  assert (headersAliased
    (run exampleNode
       [DoCallback (OnResponse false answer201); DoCallback OnEnd;
        DoOpen "GET" "http://example.com/other?page=2" None None None]
       (run exampleNode
          [DoOpen "POST" "http://example.com/" None None None;
           DoSetRequestHeader "X-Token" "a"; DoSend (Some "body")] initial)) = false) as H1
    by reflexivity.
  assert (is_Some (headers
             (run exampleNode
                [DoOpen "POST" "http://example.com/" None None None;
                 DoSetRequestHeader "X-Token" "a"; DoSend (Some "body")] initial)
           !! "Content-Length")) as H2 by (vm_compute; eauto).
  split; [exact H1 |]. split; [exact H2 |].
  exact (proj2 (headers_persist_until_abort exampleNode _ _ "Content-Length" H1 H2)).
Defined.

(** ** Where the methods throw *)

Lemma returns_ret {A} (a : A) : returns (ret a).
Proof. intros s. by exists a. Qed.

Lemma returns_modify (f : XHR → XHR) : returns (modify f).
Proof. intros s. by exists tt. Qed.

Lemma returns_bind {A B} (m : M A) (k : A → M B) :
  returns m → (∀ a, returns (k a)) → returns (bind m k).
Proof.
  intros Hm Hk s. unfold bind. destruct (Hm s) as [a Ha].
  destruct (m s) as [s1 [a' | e]]; cbn in Ha; [| done].
  apply Hk.
Qed.

Lemma returns_get : returns get.
Proof. intros s. by exists s. Qed.

Lemma returns_when (b : bool) (m : M unit) : returns m → returns (when b m).
Proof. destruct b; [done | intros _; apply returns_ret]. Qed.

Lemma returns_dispatchEvent (event : string) : returns (dispatchEvent event).
Proof. apply returns_modify. Qed.

Local Ltac returns_walk :=
  repeat first
    [ apply returns_ret | apply returns_modify | apply returns_get
    | apply returns_dispatchEvent
    | apply returns_when
    | apply returns_bind; [| intros ?] ].

Lemma returns_setState (n : Z) : returns (setState n).
Proof. unfold setState. returns_walk. Qed.


Lemma returns_abort : returns abort.
Proof. unfold abort. returns_walk; apply returns_setState. Qed.


Lemma returns_unit (m : M unit) (s : XHR) : returns m → snd (m s) = Return tt.
Proof. intros H. destruct (H s) as [[] ->]. done. Qed.


Lemma send_prelude (node : Node) (data : option string) (s : XHR) :
  send node data s
  = if negb (readyState s =? OPENED) then
      (s, Throw (InvalidStateError
                   "INVALID_STATE_ERR: connection must be opened before send() is called"))
    else if sendFlag s then
      (s, Throw (InvalidStateError "INVALID_STATE_ERR: send has already been called"))
    else
      match url (settings s) ≫= parseURL node with
      | None => (s, Throw (TypeError "Invalid URL"))
      | Some u =>
          if String.eqb (protocol u) "https:" then sendNetwork node u true "" data s
          else if String.eqb (protocol u) "http:"
               then sendNetwork node u false (hostname u) data s
          else if String.eqb (protocol u) "file:" then sendLocal node u s
          else if String.eqb (protocol u) ""
               then sendNetwork node u false "localhost" data s
          else (s, Throw (PlainError "Protocol not supported."))
      end.
Proof.
  unfold send, newURL. unfold bind at 1 2 3 4, get at 1, throw, ret.
  destruct (negb (readyState s =? OPENED)); [done |].
  destruct (sendFlag s); [done |].
  destruct (url (settings s) ≫= parseURL node) as [u |]; [| done].
  cbn beta iota.
  by repeat match goal with |- context [if ?b then _ else _] => destruct b end.
Qed.

(** ** Errors of the transport *)

Lemma handleError_spec (e : NodeError) (s : XHR) :
  ∃ s', handleError e s = (s', Return tt) ∧
    status s' = Some 0 ∧ statusText s' = Some e ∧ responseText s' = stack e ∧
    errorFlag s' = true ∧ readyState s' = DONE ∧
    sendFlag s' = sendFlag s ∧ settings s' = settings s ∧
    log s' = log s
             ++ (if readyState s =? DONE then []
                 else [SetReadyState DONE; Dispatch "readystatechange"])
             ++ [Dispatch "error"].
Proof.
  unfold_m. destruct (readyState s =? DONE) eqn:Hr.
  - repeat (cbn; rewrite ?Hr). eexists. split; [reflexivity |]. cbn.
    apply Z.eqb_eq in Hr. by repeat split.
  - repeat (cbn; rewrite ?Hr, ?orb_true_r). eexists. split; [reflexivity |]. cbn.
    rewrite <- !app_assoc. by repeat split.
Qed.

Lemma open_spec (method_ url_ : string) (async_ : option bool)
    (user_ password_ : option string) (s : XHR) :
  isAllowedHttpMethod method_ = true →
  ∃ s', open method_ url_ async_ user_ password_ s = (s', Return tt) ∧
    readyState s' = OPENED ∧ errorFlag s' = false ∧
    sendFlag s' = sendFlag s ∧
    method (settings s') = Some method_ ∧ url (settings s') = Some url_ ∧
    async (settings s') = default true async_ ∧
    status s' = status s ∧ responseText s' = responseText s ∧
    response s' = response s ∧ headers s' = headers s ∧
    headersCase s' = headersCase s ∧
    log s' = log s
             ++ (if readyState s =? OPENED then []
                 else SetReadyState OPENED
                      :: (if default true async_ then [Dispatch "readystatechange"]
                          else [])).
Proof.
  intros Hm. unfold open. unfold_m. rewrite Hm.
  destruct (readyState s =? OPENED) eqn:Hr.
  - repeat (cbn; rewrite ?Hr). eexists. split; [reflexivity |]. cbn.
    apply Z.eqb_eq in Hr. rewrite app_nil_r. by repeat split.
  - destruct (default true async_) eqn:Ha;
      repeat (cbn; rewrite ?Hr, ?Ha); (eexists; split; [reflexivity |]); cbn;
      rewrite <- ?app_assoc; by repeat split.
Qed.

Lemma abort_flags (s : XHR) :
  readyState (after abort s) = UNSENT ∧
  sendFlag (after abort s)
  = (if negb (readyState s =? UNSENT)
        && (negb (readyState s =? OPENED) || sendFlag s)
        && negb (readyState s =? DONE)
     then false else sendFlag s).
Proof.
  unfold after, abort. unfold_m.
  destruct (request s); cbn;
    destruct (negb (readyState s =? UNSENT)
              && (negb (readyState s =? OPENED) || sendFlag s)
              && negb (readyState s =? DONE)) eqn:Hc; cbn; try done;
    apply andb_prop in Hc as [_ Hd];
    repeat (cbn; rewrite ?Hd, ?orb_true_r); done.
Qed.

(** X13. A transport error on a request in flight ends it with status 0,
    in state DONE, with the error flag set and without [load], but leaves
    the send flag set. The object then refuses further requests: [send]
    after [open] throws, and so it does when [abort] is called first,
    because [abort] does not clear the send flag in state DONE. Only
    [abort] on the re-opened request clears it. *)
Theorem transport_error_blocks_reuse (node : Node) (e : NodeError) (s : XHR)
    (method_ url_ : string) (async_ : option bool) (user_ password_ : option string)
    (data : option string) :
  sendFlag s = true →
  isAllowedHttpMethod method_ = true →
  let failed := after (callback node (OnError e)) s in
  let reopen := after (open method_ url_ async_ user_ password_) in
  (status failed = Some 0 ∧ readyState failed = DONE ∧ errorFlag failed = true ∧
   fired "load" failed = fired "load" s) ∧
  send node data (reopen failed)
  = (reopen failed,
     Throw (InvalidStateError "INVALID_STATE_ERR: send has already been called")) ∧
  send node data (reopen (after abort failed))
  = (reopen (after abort failed),
     Throw (InvalidStateError "INVALID_STATE_ERR: send has already been called")) ∧
  sendFlag (reopen (after abort (reopen failed))) = false.
Proof.
  intros Hs Hm failed reopen.
  destruct (handleError_spec e s) as (s1 & E1 & Hst & _ & _ & He & Hr & Hsf & _ & Hl).
  assert (failed = s1) as Hf by (unfold failed, after; cbn [callback]; by rewrite E1).
  assert (∀ t, sendFlag t = true →
            send node data (reopen t)
            = (reopen t,
               Throw (InvalidStateError
                        "INVALID_STATE_ERR: send has already been called"))) as Hthrow.
  { intros t Ht. unfold reopen, after.
    destruct (open_spec method_ url_ async_ user_ password_ t Hm)
      as (t' & -> & Hr' & _ & Hs' & _).
    cbn [fst]. rewrite send_prelude, Hr', Hs', Ht. reflexivity. }
  rewrite Hf. split; [| split; [| split]].
  - repeat split; try done.
    unfold fired. rewrite Hl, !List.filter_app.
    destruct (readyState s =? DONE); cbn; by rewrite !app_nil_r.
  - apply Hthrow. congruence.
  - apply Hthrow. destruct (abort_flags s1) as [_ ->].
    rewrite Hr. cbn. congruence.
  - unfold reopen at 1. unfold after at 1.
    destruct (open_spec method_ url_ async_ user_ password_
                (after abort (reopen s1)) Hm) as (t' & -> & _ & _ & Hs'' & _).
    cbn [fst]. rewrite Hs''.
    destruct (abort_flags (reopen s1)) as [_ ->].
    unfold reopen, after.
    destruct (open_spec method_ url_ async_ user_ password_ s1 Hm)
      as (t & -> & Hr' & _ & Hs' & _).
    cbn [fst]. rewrite Hr', Hs', Hsf, Hs. reflexivity.
Qed.

Lemma transport_error_blocks_reuse_witness :
  sendFlag sent = true ∧
  send exampleNode None
    (after (open "GET" "http://example.com/" None None None)
       (after abort
          (after (callback exampleNode
                    (OnError {| errName := "ECONNREFUSED"; stack := None |})) sent)))
  = (after (open "GET" "http://example.com/" None None None)
       (after abort
          (after (callback exampleNode
                    (OnError {| errName := "ECONNREFUSED"; stack := None |})) sent)),
     Throw (InvalidStateError "INVALID_STATE_ERR: send has already been called")).
Proof.
  split; [reflexivity |].
  exact (proj1 (proj2 (proj2
           (transport_error_blocks_reuse exampleNode
              {| errName := "ECONNREFUSED"; stack := None |} sent
              "GET" "http://example.com/" None None None None
              eq_refl eq_refl)))).
Defined.

(** ** The request that send issues *)

Lemma contentLength_withHeaders (data : option string) (m : gmap string HVal) (s : XHR) :
  contentLength data (withHeaders m s)
  = (withHeaders (contentHeaders (method (settings s)) data m) s,
     Return (if isMethod (method (settings s)) "GET"
                || isMethod (method (settings s)) "HEAD"
             then None else data)).
Proof.
  unfold contentLength, contentHeaders, bind, modify, when, get, ret.
  rewrite settings_withHeaders.
  destruct (isMethod (method (settings s)) "GET" || isMethod (method (settings s)) "HEAD");
    [reflexivity |].
  destruct (truthyO data).
  - rewrite write_header_withHeaders, headers_withHeaders. cbn zeta.
    match goal with |- context [negb ?x] => destruct x end; cbn [negb];
      by rewrite ?write_header_withHeaders.
  - destruct (isMethod (method (settings s)) "POST");
      by rewrite ?write_header_withHeaders.
Qed.

Lemma prepareHeaders_exact (node : Node) (u : URL) (ssl : bool) (host : string)
    (data : option string) (s : XHR) :
  prepareHeaders node u ssl host data s
  = (withHeaders
       (contentHeaders (method (settings s)) data
          (authHeaders node (settings s)
             (<["Host" := HStr (hostHeader u ssl host)]> (headers (applyDefaults s)))))
       s,
     Return (if isMethod (method (settings s)) "GET"
                || isMethod (method (settings s)) "HEAD"
             then None else data)).
Proof.
  unfold prepareHeaders, authHeaders, hostHeader, bind, modify, when, get, ret.
  destruct (applyDefaults_shape s) as [m0 ->].
  rewrite headers_withHeaders, !write_header_withHeaders.
  destruct ((ssl && portIs (portOf u ssl) 443) || portIs (portOf u ssl) 80); cbn [negb];
    rewrite ?write_header_withHeaders, ?insert_insert_eq, !settings_withHeaders;
    destruct (truthyO (user (settings s)));
    by rewrite ?write_header_withHeaders, contentLength_withHeaders.
Qed.

Lemma applyDefaults_lookup (s : XHR) (k : string) :
  headers (applyDefaults s) !! k = afterDefaults s k.
Proof.
  unfold applyDefaults, afterDefaults.
  apply (map_fold_weak_ind
           (fun r m => headers r !! k
                       = match m !! k with
                         | Some v => if truthyO (headersCase s !! toLowerCase k)
                                     then headers s !! k else Some v
                         | None => headers s !! k
                         end)); [done |].
  intros name v m r Hnone IH.
  destruct (decide (name = k)) as [-> | Hne].
  - rewrite lookup_insert_eq. rewrite Hnone in IH.
    destruct (truthyO (headersCase s !! toLowerCase k)); [done |].
    by rewrite headers_write_header, lookup_insert_eq.
  - rewrite lookup_insert_ne by done.
    destruct (truthyO (headersCase s !! toLowerCase name)); [done |].
    by rewrite headers_write_header, lookup_insert_ne.
Qed.

Lemma sendNetwork_headers (node : Node) (u : URL) (ssl : bool) (host : string)
    (data : option string) (s : XHR) :
  headers (fst (sendNetwork node u ssl host data s))
  = contentHeaders (method (settings s)) data
      (authHeaders node (settings s)
         (<["Host" := HStr (hostHeader u ssl host)]> (headers (applyDefaults s)))).
Proof.
  unfold sendNetwork. unfold bind at 1. rewrite prepareHeaders_exact.
  set (m := contentHeaders _ _ _).
  unfold_m. split_monadic_ifs.
  all: unfold headers; cbn;
    change (if headersAliased (withHeaders m s)
            then defaultHeaders (withHeaders m s)
            else ownHeaders (withHeaders m s))
      with (headers (withHeaders m s));
    by rewrite headers_withHeaders.
Qed.

Lemma send_network (node : Node) (data : option string) (s : XHR) (u : URL)
    (ssl : bool) (host : string) :
  readyState s = OPENED → sendFlag s = false →
  url (settings s) ≫= parseURL node = Some u →
  serverOf u = Some (ssl, host) →
  send node data s = sendNetwork node u ssl host data s.
Proof.
  intros Hr Hs Hu Hv. rewrite send_prelude, Hr, Hs, Hu. cbn [negb Z.eqb OPENED].
  unfold serverOf in Hv. change (negb (1 =? 1)) with false. cbn iota.
  destruct (String.eqb (protocol u) "https:"); [by injection Hv as <- <- |].
  destruct (String.eqb (protocol u) "http:"); [by injection Hv as <- <- |].
  destruct (String.eqb (protocol u) "file:"); [done |].
  destruct (String.eqb (protocol u) ""); [by injection Hv as <- <- | done].
Qed.

Lemma response_withHeaders (m : gmap string HVal) (s : XHR) :
  response (withHeaders m s) = response s.
Proof. unfold withHeaders. by destruct (headersAliased s). Qed.

Lemma sendNetwork_async_exact (node : Node) (u : URL) (ssl : bool) (host : string)
    (data : option string) (s : XHR) :
  async (settings s) = true →
  ∃ s', sendNetwork node u ssl host data s = (s', Return tt) ∧
    log s' = log s ++ [Dispatch "readystatechange";
                       Request ssl (optionsOf u ssl host s s')
                         (bodySent (method (settings s)) data);
                       Dispatch "loadstart"] ∧
    request s' = Some (optionsOf u ssl host s s') ∧
    readyState s' = readyState s ∧ sendFlag s' = true ∧ errorFlag s' = false ∧
    status s' = status s ∧ responseText s' = responseText s ∧
    response s' = response s.
Proof.
  intros Ha. unfold sendNetwork. unfold bind at 1. rewrite prepareHeaders_exact.
  set (m := contentHeaders _ _ _).
  destruct (withHeaders_frame m s) as (F1 & F2 & F3 & F4 & F5 & _ & _ & F8).
  pose proof (response_withHeaders m s) as F9.
  unfold_m. rewrite F5, Ha. cbn.
  eexists. split; [reflexivity |]. cbn.
  rewrite F1, F2, F3, F8, F9, <- !app_assoc. cbn.
  unfold optionsOf, bodySent. cbn.
  change (if headersAliased (withHeaders m s)
          then defaultHeaders (withHeaders m s)
          else ownHeaders (withHeaders m s))
    with (headers (withHeaders m s)).
  unfold headers at 2 4. cbn.
  change (if headersAliased (withHeaders m s)
          then defaultHeaders (withHeaders m s)
          else ownHeaders (withHeaders m s))
    with (headers (withHeaders m s)).
  rewrite ?F4, ?F5.
  destruct (isMethod (method (settings s)) "GET" || isMethod (method (settings s)) "HEAD");
    cbn; repeat split; done.
Qed.

(** ** A request that the transport refuses *)

Lemma Checked_send_prelude (refuse : bool → Options → option Exn) (node : Node)
    (data : option string) (s : XHR) :
  Checked.send refuse node data s
  = if negb (readyState s =? OPENED) then
      (s, Throw (InvalidStateError
                   "INVALID_STATE_ERR: connection must be opened before send() is called"))
    else if sendFlag s then
      (s, Throw (InvalidStateError "INVALID_STATE_ERR: send has already been called"))
    else
      match url (settings s) ≫= parseURL node with
      | None => (s, Throw (TypeError "Invalid URL"))
      | Some u =>
          if String.eqb (protocol u) "https:"
          then Checked.sendNetwork refuse node u true "" data s
          else if String.eqb (protocol u) "http:"
               then Checked.sendNetwork refuse node u false (hostname u) data s
          else if String.eqb (protocol u) "file:" then sendLocal node u s
          else if String.eqb (protocol u) ""
               then Checked.sendNetwork refuse node u false "localhost" data s
          else (s, Throw (PlainError "Protocol not supported."))
      end.
Proof.
  unfold Checked.send, newURL. unfold bind at 1 2 3 4, get at 1, throw, ret.
  destruct (negb (readyState s =? OPENED)); [done |].
  destruct (sendFlag s); [done |].
  destruct (url (settings s) ≫= parseURL node) as [u |]; [| done].
  cbn beta iota.
  by repeat match goal with |- context [if ?b then _ else _] => destruct b end.
Qed.

(** The state in which a refused request leaves the object. *)
Lemma Checked_sendNetwork_cases (refuse : bool → Options → option Exn) (node : Node)
    (u : URL) (ssl : bool) (host : string) (data : option string) (s : XHR) :
  Checked.sendNetwork refuse node u ssl host data s
  = if async (settings s) then
      match refuse ssl (optionsOf u ssl host s (fst (sendNetwork node u ssl host data s)))
      with
      | None => sendNetwork node u ssl host data s
      | Some e =>
          (emit (Dispatch "readystatechange")
             (set_sendFlag true
                (set_errorFlag false (fst (prepareHeaders node u ssl host data s)))),
           Throw e)
      end
    else sendNetwork node u ssl host data s.
Proof.
  unfold optionsOf. rewrite sendNetwork_headers.
  unfold Checked.sendNetwork, Checked.doRequest, sendNetwork.
  unfold bind, get, modify, dispatchEvent, throw.
  rewrite !prepareHeaders_exact.
  set (m := contentHeaders _ _ _).
  destruct (withHeaders_frame m s) as (_ & _ & _ & F4 & F5 & _).
  pose proof (headers_withHeaders m s) as F10.
  cbn beta iota. rewrite ?F4, ?F5, ?F10. cbn [fst].
  destruct (async (settings s)); [| reflexivity].
  cbn beta iota.
  destruct (refuse ssl _); reflexivity.
Qed.

Lemma Checked_send_network (refuse : bool → Options → option Exn) (node : Node)
    (data : option string) (s : XHR) (u : URL) (ssl : bool) (host : string) :
  readyState s = OPENED → sendFlag s = false →
  url (settings s) ≫= parseURL node = Some u →
  serverOf u = Some (ssl, host) →
  Checked.send refuse node data s = Checked.sendNetwork refuse node u ssl host data s.
Proof.
  intros Hr Hs Hu Hv. rewrite Checked_send_prelude, Hr, Hs, Hu.
  change (negb (OPENED =? OPENED)) with false. cbn iota.
  unfold serverOf in Hv.
  destruct (String.eqb (protocol u) "https:"); [by injection Hv as <- <- |].
  destruct (String.eqb (protocol u) "http:"); [by injection Hv as <- <- |].
  destruct (String.eqb (protocol u) "file:"); [done |].
  destruct (String.eqb (protocol u) ""); [by injection Hv as <- <- | done].
Qed.

(** X14. In asynchronous mode [send] to an [http:] or [https:] URL, when
    the transport accepts the request, returns normally and issues exactly
    one request, between a [readystatechange] (dispatched although the
    state does not change) and [loadstart]: to the host, port and path of
    the URL, with the stored method and the object [headers] as it is when
    [send] returns. The body is dropped for GET and HEAD and written only
    when it is non-empty. The state stays OPENED, the send flag is raised,
    the error flag cleared, and status, response text and response object
    of an earlier request are left as they are. *)
Theorem send_async_request (refuse : bool → Options → option Exn) (node : Node)
    (data : option string) (s : XHR) (u : URL) (ssl : bool) (host : string) :
  readyState s = OPENED → sendFlag s = false →
  async (settings s) = true →
  url (settings s) ≫= parseURL node = Some u →
  serverOf u = Some (ssl, host) →
  refuse ssl (optionsOf u ssl host s (after (send node data) s)) = None →
  ∃ s', Checked.send refuse node data s = (s', Return tt) ∧
    log s' = log s ++ [Dispatch "readystatechange";
                       Request ssl (optionsOf u ssl host s s')
                         (bodySent (method (settings s)) data);
                       Dispatch "loadstart"] ∧
    request s' = Some (optionsOf u ssl host s s') ∧
    readyState s' = OPENED ∧ sendFlag s' = true ∧ errorFlag s' = false ∧
    status s' = status s ∧ responseText s' = responseText s ∧
    response s' = response s.
Proof.
  intros Hr Hs Ha Hu Hv Hacc. unfold after in Hacc.
  rewrite (send_network node data s u ssl host Hr Hs Hu Hv) in Hacc.
  rewrite (Checked_send_network refuse node data s u ssl host Hr Hs Hu Hv).
  rewrite Checked_sendNetwork_cases, Ha, Hacc.
  destruct (sendNetwork_async_exact node u ssl host data s Ha)
    as (s' & E & H1 & H2 & H3 & H4). exists s'. rewrite <- Hr, <- H3. done.
Qed.

Lemma send_async_request_witness :
  readyState (after (open "POST" "http://example.com:8080/a?b=1" None None None) answered)
  = OPENED ∧
  ∃ s', Checked.send (refuseHeader "X A") exampleNode (Some "a=1")
          (after (open "POST" "http://example.com:8080/a?b=1" None None None) answered)
        = (s', Return tt) ∧
    log s' = log (after (open "POST" "http://example.com:8080/a?b=1" None None None)
                    answered)
             ++ [Dispatch "readystatechange";
                 Request false
                   (optionsOf {| protocol := "http:"; hostname := "example.com";
                                 port := "8080"; pathname := "/a"; search := "?b=1" |}
                      false "example.com"
                      (after (open "POST" "http://example.com:8080/a?b=1" None None None)
                         answered) s')
                   (bodySent (Some "POST") (Some "a=1"));
                 Dispatch "loadstart"] ∧
    request s' = Some (optionsOf {| protocol := "http:"; hostname := "example.com";
                                    port := "8080"; pathname := "/a"; search := "?b=1" |}
                         false "example.com"
                         (after (open "POST" "http://example.com:8080/a?b=1"
                                   None None None) answered) s') ∧
    readyState s' = OPENED ∧ sendFlag s' = true ∧ errorFlag s' = false ∧
    status s' = Some 201 ∧ responseText s' = Some "first" ∧
    response s' = Some answer201.
Proof.
  assert (readyState (after (open "POST" "http://example.com:8080/a?b=1" None None None)
                        answered) = OPENED) as H1 by (vm_compute; reflexivity).
  assert (sendFlag (after (open "POST" "http://example.com:8080/a?b=1" None None None)
                      answered) = false) as H2 by (vm_compute; reflexivity).
  assert (async (settings (after (open "POST" "http://example.com:8080/a?b=1"
                                    None None None) answered)) = true) as H3
    by (vm_compute; reflexivity).
  assert (url (settings (after (open "POST" "http://example.com:8080/a?b=1"
                                  None None None) answered)) ≫= parseURL exampleNode
          = Some {| protocol := "http:"; hostname := "example.com";
                    port := "8080"; pathname := "/a"; search := "?b=1" |}) as H4
    by (vm_compute; reflexivity).
  assert (refuseHeader "X A" false
            (optionsOf {| protocol := "http:"; hostname := "example.com";
                          port := "8080"; pathname := "/a"; search := "?b=1" |}
               false "example.com"
               (after (open "POST" "http://example.com:8080/a?b=1" None None None)
                  answered)
               (after (send exampleNode (Some "a=1"))
                  (after (open "POST" "http://example.com:8080/a?b=1" None None None)
                     answered))) = None) as H5
    by (vm_compute; reflexivity).
  split; [exact H1 |].
  exact (send_async_request (refuseHeader "X A") exampleNode (Some "a=1") _ _
           false "example.com" H1 H2 H3 H4 eq_refl H5).
Defined.





(** An object that still has its own [headers] has the defaults it was
    created with. *)
Lemma run_defaults_intact (node : Node) (cs : list Call) (s : XHR) :
  headersAliased (run node cs s) = false →
  headersAliased s = false ∧ defaultHeaders (run node cs s) = defaultHeaders s.
Proof.
  assert (∀ k v s0, headersAliased (write_header k v s0) = false →
            headersAliased s0 = false ∧
            defaultHeaders (write_header k v s0) = defaultHeaders s0) as Hwrite.
  { intros k v s0. rewrite headersAliased_write_header. intros Ha. split; [done |].
    unfold write_header. by rewrite Ha. }
  apply (later_run_all
           (fun s s' => headersAliased s' = false →
                        headersAliased s = false ∧
                        defaultHeaders s' = defaultHeaders s));
    try (intros; cbn; tauto).
  - intros s1 s2 s3 H12 H23 H3. destruct (H23 H3) as [H2 K23].
    destruct (H12 H2) as [H1 K12]. split; [done | congruence].
  - intros s0. cbn. discriminate.
  - exact Hwrite.
  - intros s0. unfold applyDefaults.
    apply (map_fold_weak_ind
             (fun r _ => headersAliased r = false →
                         headersAliased s0 = false ∧
                         defaultHeaders r = defaultHeaders s0)); [done |].
    intros name v _ r _ IH.
    destruct (truthyO (headersCase s0 !! toLowerCase name)); [done |].
    intros Ha. destruct (Hwrite name v r Ha) as [H1 H2].
    destruct (IH H1) as [H3 H4]. split; [done | congruence].
  - intros h v s0. unfold setRequestHeader, throw, modify.
    destruct (negb (readyState s0 =? OPENED)); [done |].
    destruct (negb (isAllowedHttpHeader s0 h)); [cbn; tauto |].
    destruct (sendFlag s0) eqn:Es; [done |].
    cbn [fst]. intros Ha.
    match type of Ha with
    | context [write_header ?k ?w ?s1] =>
        destruct (Hwrite k w s1 Ha) as [H1 H2]
    end.
    split; [done |]. by rewrite H2.
Qed.

(** On an object used from its construction the loop over the defaults
    touches [User-Agent] and [Accept] only. *)
Lemma afterDefaults_reachable (node : Node) (cs : list Call) (k : string) :
  initialDefaults !! k = None →
  afterDefaults (run node cs initial) k = headers (run node cs initial) !! k.
Proof.
  intros Hk. unfold afterDefaults, headers.
  destruct (headersAliased (run node cs initial)) eqn:Ha.
  - by destruct (defaultHeaders (run node cs initial) !! k);
      [destruct (truthyO _) |].
  - destruct (run_defaults_intact node cs initial Ha) as [_ ->].
    change (defaultHeaders initial) with initialDefaults. by rewrite Hk.
Qed.

Lemma lookup_authHeaders (node : Node) (st : Settings) (m : gmap string HVal) (k : string) :
  k ≠ "Authorization" → authHeaders node st m !! k = m !! k.
Proof.
  intros Hk. unfold authHeaders. destruct (truthyO (user st)); [| done].
  by rewrite lookup_insert_ne.
Qed.

Lemma lookup_contentHeaders (meth data : option string) (m : gmap string HVal) (k : string) :
  k ≠ "Content-Length" → k ≠ "Content-Type" →
  contentHeaders meth data m !! k = m !! k.
Proof.
  intros H1 H2. unfold contentHeaders.
  destruct (isMethod meth "GET" || isMethod meth "HEAD"); [done |].
  destruct (truthyO data).
  - cbn zeta.
    match goal with |- context [if ?b then _ else _] => destruct b end;
      by rewrite ?lookup_insert_ne.
  - destruct (isMethod meth "POST"); by rewrite ?lookup_insert_ne.
Qed.

(** X15. [send] to a network URL writes Content-Length only for a method
    other than GET and HEAD: the byte length of a non-empty body, and 0 for
    POST without one. In every other case it leaves what is there, so on an
    object used from its construction a GET still carries the Content-Length
    an earlier POST has written. With a body, Content-Type becomes
    [text/plain;charset=UTF-8] unless a non-empty one is set. *)
Theorem send_content_length (node : Node) (cs : list Call) (data : option string)
    (u : URL) (ssl : bool) (host : string) :
  let s := run node cs initial in
  let meth := method (settings s) in
  readyState s = OPENED → sendFlag s = false →
  url (settings s) ≫= parseURL node = Some u →
  serverOf u = Some (ssl, host) →
  headers (after (send node data) s) !! "Content-Length"
  = (if isMethod meth "GET" || isMethod meth "HEAD" then headers s !! "Content-Length"
     else if truthyO data
          then Some (HNum (Z.of_nat (String.length (default "" data))))
     else if isMethod meth "POST" then Some (HNum 0)
     else headers s !! "Content-Length") ∧
  headers (after (send node data) s) !! "Content-Type"
  = (if negb (isMethod meth "GET" || isMethod meth "HEAD") && truthyO data
     then match headers s !! "Content-Type" with
          | Some v => if truthyH v then Some v
                      else Some (HStr "text/plain;charset=UTF-8")
          | None => Some (HStr "text/plain;charset=UTF-8")
          end
     else headers s !! "Content-Type").
Proof.
  intros s meth Hr Hs Hu Hv. unfold after.
  rewrite (send_network node data s u ssl host Hr Hs Hu Hv), sendNetwork_headers.
  fold meth. set (m := authHeaders _ _ _).
  assert (m !! "Content-Length" = headers s !! "Content-Length") as H1.
  { unfold m. rewrite lookup_authHeaders, lookup_insert_ne, applyDefaults_lookup by done.
    by apply afterDefaults_reachable. }
  assert (m !! "Content-Type" = headers s !! "Content-Type") as H2.
  { unfold m. rewrite lookup_authHeaders, lookup_insert_ne, applyDefaults_lookup by done.
    by apply afterDefaults_reachable. }
  unfold contentHeaders.
  destruct (isMethod meth "GET" || isMethod meth "HEAD"); cbn [negb andb]; [done |].
  destruct (truthyO data); cbn zeta.
  - rewrite lookup_insert_ne, H2 by done.
    destruct (headers s !! "Content-Type") as [v |]; [destruct (truthyH v) |];
      by rewrite ?lookup_insert_eq, ?lookup_insert_ne, ?lookup_insert_eq, ?H2 by done.
  - destruct (isMethod meth "POST");
      by rewrite ?lookup_insert_eq, ?lookup_insert_ne by done.
Qed.

Lemma send_content_length_witness :
  readyState
    (run exampleNode
       [DoOpen "POST" "http://example.com/" None None None; DoSend (Some "body");
        DoCallback (OnResponse false answer201); DoCallback OnEnd;
        DoOpen "GET" "http://example.com/other?page=2" None None None] initial) = OPENED ∧
  headers
    (after (send exampleNode None)
       (run exampleNode
          [DoOpen "POST" "http://example.com/" None None None; DoSend (Some "body");
           DoCallback (OnResponse false answer201); DoCallback OnEnd;
           DoOpen "GET" "http://example.com/other?page=2" None None None] initial))
    !! "Content-Length" = Some (HNum 4).
Proof.
  assert (readyState
    (run exampleNode
       [DoOpen "POST" "http://example.com/" None None None; DoSend (Some "body");
        DoCallback (OnResponse false answer201); DoCallback OnEnd;
        DoOpen "GET" "http://example.com/other?page=2" None None None] initial) = OPENED)
    as H1 by (vm_compute; reflexivity).
  split; [exact H1 |].
  exact (proj1 (send_content_length exampleNode
           [DoOpen "POST" "http://example.com/" None None None; DoSend (Some "body");
            DoCallback (OnResponse false answer201); DoCallback OnEnd;
            DoOpen "GET" "http://example.com/other?page=2" None None None]
           None
           {| protocol := "http:"; hostname := "example.com"; port := "";
              pathname := "/other"; search := "?page=2" |} false "example.com"
           H1 eq_refl eq_refl eq_refl)).
Defined.

(** X16. [send] to a network URL changes no header other than Host,
    Authorization, Content-Length and Content-Type, except that it writes
    each default ([User-Agent], [Accept]) under its own name unless a header
    of that name has been registered in some casing; then this [send] does
    not write the default, and what is stored under the default's name,
    nothing or what an earlier [send] has left, stays. *)
Theorem send_default_headers (node : Node) (data : option string) (s : XHR) (u : URL)
    (ssl : bool) (host : string) (k : string) :
  readyState s = OPENED → sendFlag s = false →
  url (settings s) ≫= parseURL node = Some u →
  serverOf u = Some (ssl, host) →
  k ∉ ["Host"; "Authorization"; "Content-Length"; "Content-Type"] →
  headers (after (send node data) s) !! k
  = match defaultHeaders s !! k with
    | Some v => if truthyO (headersCase s !! toLowerCase k) then headers s !! k else Some v
    | None => headers s !! k
    end.
Proof.
  intros Hr Hs Hu Hv Hk. unfold after.
  rewrite (send_network node data s u ssl host Hr Hs Hu Hv), sendNetwork_headers.
  rewrite !not_elem_of_cons in Hk. destruct Hk as (K1 & K2 & K3 & K4 & _).
  rewrite lookup_contentHeaders, lookup_authHeaders, lookup_insert_ne by done.
  apply applyDefaults_lookup.
Qed.

Lemma send_default_headers_witness :
  readyState (after (setRequestHeader "accept" "text/html") opened) = OPENED ∧
  headers (after (send exampleNode None)
             (after (setRequestHeader "accept" "text/html") opened)) !! "Accept" = None ∧
  headers (after (send exampleNode None)
             (after (setRequestHeader "accept" "text/html") opened)) !! "accept"
  = Some (HStr "text/html") ∧
  headers (after (send exampleNode None)
             (after (setRequestHeader "accept" "text/html") opened)) !! "User-Agent"
  = Some (HStr "node-XMLHttpRequest").
Proof.
  split; [reflexivity |].
  pose (u := {| protocol := "http:"; hostname := "example.com"; port := "";
                pathname := "/"; search := "" |}).
  pose (s := after (setRequestHeader "accept" "text/html") opened).
  assert (∀ k, k ∉ ["Host"; "Authorization"; "Content-Length"; "Content-Type"] →
            headers (after (send exampleNode None) s) !! k
            = match defaultHeaders s !! k with
              | Some v =>
                  if truthyO (headersCase s !! toLowerCase k)
                  then headers s !! k else Some v
              | None => headers s !! k
              end) as H.
  { intros k Hk.
    exact (send_default_headers exampleNode None s u false "example.com" k
             eq_refl eq_refl eq_refl eq_refl Hk). }
  fold s. split; [| split].
  - rewrite H; [reflexivity | by apply (bool_decide_unpack _)].
  - rewrite H; [reflexivity | by apply (bool_decide_unpack _)].
  - rewrite H; [reflexivity | by apply (bool_decide_unpack _)].
Defined.

(** X17. A request opened with a user name goes out with
    [Authorization: Basic] and the base64 form of [user:password]. [open]
    stores [null] for a missing or empty password, which [send] does not
    replace by the empty string, so the credentials are then [user:null]. *)
Theorem send_basic_auth (node : Node) (s : XHR) (method_ url_ : string)
    (async_ : option bool) (user_ : string) (password_ : option string)
    (data : option string) (u : URL) (ssl : bool) (host : string) :
  sendFlag s = false →
  isAllowedHttpMethod method_ = true →
  truthy user_ = true →
  parseURL node url_ = Some u →
  serverOf u = Some (ssl, host) →
  headers (after (send node data)
             (after (open method_ url_ async_ (Some user_) password_) s))
    !! "Authorization"
  = Some (HStr ("Basic " +:+
                base64 node (user_ +:+ ":" +:+
                             match password_ with
                             | Some p => if truthy p then p else "null"
                             | None => "null"
                             end))).
Proof.
  intros Hs Hm Hus Hu Hv. unfold after at 2.
  destruct (open_spec method_ url_ async_ (Some user_) password_ s Hm)
    as (s1 & E & Hr & _ & Hs1 & _ & Hurl & _).
  assert (user (settings s1) = Some user_ ∧
          password (settings s1)
          = match password_ with
            | Some p => if truthy p then Some p else None
            | None => None
            end) as [Huser Hpw].
  { assert (s1 = fst (open method_ url_ async_ (Some user_) password_ s)) as ->
      by (by rewrite E).
    unfold open. unfold_m. rewrite Hm, Hus.
    destruct (readyState s =? OPENED) eqn:Hro;
      repeat (cbn; rewrite ?Hro); [done |].
    destruct (default true async_); by repeat (cbn; rewrite ?Hro). }
  rewrite E. cbn [fst]. unfold after.
  rewrite (send_network node data s1 u ssl host); try done.
  - rewrite sendNetwork_headers, lookup_contentHeaders by done.
    unfold authHeaders. rewrite Huser, Hpw. cbn [truthyO]. rewrite Hus.
    rewrite lookup_insert_eq. cbn [default].
    by destruct password_ as [p |]; [destruct (truthy p) |].
  - congruence.
  - by rewrite Hurl.
Qed.

Lemma send_basic_auth_witness :
  sendFlag initial = false ∧
  headers (after (send markingNode None)
             (after (open "GET" "http://example.com/" None (Some "alice") None) initial))
    !! "Authorization"
  = Some (HStr "Basic base64(alice:null)").
Proof.
  split; [reflexivity |].
  exact (send_basic_auth markingNode initial "GET" "http://example.com/" None
           "alice" None None
           {| protocol := "http:"; hostname := "example.com"; port := "";
              pathname := "/"; search := "" |} false "example.com"
           eq_refl eq_refl eq_refl eq_refl eq_refl).
Defined.

(** ** The events of an asynchronous exchange *)

Lemma callback_OnData_log (node : Node) (c : string) (s : XHR) :
  sendFlag s = true → async (settings s) = true → errorFlag s = false →
  let s' := fst (callback node (OnData c) s) in
  sendFlag s' = true ∧ async (settings s') = true ∧ errorFlag s' = false ∧
  readyState s' = LOADING ∧ response s' = response s ∧
  log s' = log s ++ [SetReadyState LOADING; Dispatch "readystatechange"].
Proof.
  intros Hs Ha He. cbn [callback]. unfold_m.
  destruct (truthy c); repeat (cbn; rewrite ?Hs, ?Ha, ?He);
    rewrite <- ?app_assoc; by repeat split.
Qed.

Lemma deliver_data_log (node : Node) (chunks : list string) :
  ∀ s, sendFlag s = true → async (settings s) = true → errorFlag s = false →
    let s' := deliver node (map OnData chunks) s in
    sendFlag s' = true ∧ async (settings s') = true ∧ errorFlag s' = false ∧
    (readyState s' = LOADING ∨ readyState s' = readyState s) ∧
    response s' = response s ∧
    log s' = log s ++ flat_map (fun _ => [SetReadyState LOADING;
                                          Dispatch "readystatechange"]) chunks.
Proof.
  induction chunks as [| c chunks IH]; intros s Hs Ha He.
  - cbn. rewrite app_nil_r. by repeat split; try right.
  - cbn [map deliver fold_left].
    destruct (callback_OnData_log node c s Hs Ha He) as (Hs1 & Ha1 & He1 & Hr1 & Hp1 & Hl1).
    destruct (IH _ Hs1 Ha1 He1) as (Hs2 & Ha2 & He2 & Hr2 & Hp2 & Hl2).
    unfold deliver in *. repeat split; try done.
    + left. destruct Hr2 as [-> | ->]; done.
    + congruence.
    + rewrite Hl2, Hl1, <- app_assoc. done.
Qed.

(** X18. A complete answer that is not a redirect, delivered to a request in
    flight, produces exactly these events: HEADERS_RECEIVED with
    [readystatechange]; LOADING with [readystatechange] once per chunk, an
    empty chunk included; DONE with [readystatechange], [load] and
    [loadend]. Afterwards the response object is the answer and the send
    flag is down. *)
Theorem exchange_events (node : Node) (ssl : bool) (r : Response)
    (chunks : list string) (s : XHR) :
  isRedirect (statusCode r) = false →
  readyState s = OPENED → sendFlag s = true → errorFlag s = false →
  async (settings s) = true →
  log (deliver node (exchange ssl r chunks) s)
  = log s
    ++ [SetReadyState HEADERS_RECEIVED; Dispatch "readystatechange"]
    ++ flat_map (fun _ => [SetReadyState LOADING; Dispatch "readystatechange"]) chunks
    ++ [SetReadyState DONE; Dispatch "readystatechange";
        Dispatch "load"; Dispatch "loadend"] ∧
  response (deliver node (exchange ssl r chunks) s) = Some r ∧
  sendFlag (deliver node (exchange ssl r chunks) s) = false.
Proof.
  intros Hred Hr Hs He Ha. unfold exchange.
  change (OnResponse ssl r :: map OnData chunks ++ [OnEnd])
    with ([OnResponse ssl r] ++ map OnData chunks ++ [OnEnd]).
  rewrite !deliver_app.
  set (s1 := deliver node [OnResponse ssl r] s).
  assert (sendFlag s1 = true ∧ async (settings s1) = true ∧ errorFlag s1 = false ∧
          readyState s1 = HEADERS_RECEIVED ∧ response s1 = Some r ∧
          log s1 = log s ++ [SetReadyState HEADERS_RECEIVED; Dispatch "readystatechange"])
    as (Hs1 & Ha1 & He1 & Hr1 & Hp1 & Hl1).
  { unfold s1, deliver. cbn [fold_left callback]. unfold responseHandler.
    rewrite Hred. unfold_m. repeat (cbn; rewrite ?Hr, ?Ha, ?He).
    rewrite <- ?app_assoc. by repeat split. }
  destruct (deliver_data_log node chunks s1 Hs1 Ha1 He1)
    as (Hs2 & Ha2 & He2 & Hr2 & Hp2 & Hl2).
  set (s2 := deliver node (map OnData chunks) s1) in *.
  assert ((readyState s2 =? DONE) = false) as Hd.
  { apply Z.eqb_neq. destruct Hr2 as [-> | ->]; [done | by rewrite Hr1]. }
  unfold deliver at 1 2 3. cbn [fold_left callback]. unfold_m.
  repeat (cbn; rewrite ?Hs2, ?Hd, ?He2, ?orb_true_r).
  rewrite Hl2, Hl1, Hp2, Hp1, <- !app_assoc. done.
Qed.

Lemma exchange_events_witness :
  readyState sent = OPENED ∧
  log (deliver exampleNode (exchange false answer201 ["{"; ""; "}"]) sent)
  = log sent
    ++ [SetReadyState HEADERS_RECEIVED; Dispatch "readystatechange"]
    ++ [SetReadyState LOADING; Dispatch "readystatechange";
        SetReadyState LOADING; Dispatch "readystatechange";
        SetReadyState LOADING; Dispatch "readystatechange"]
    ++ [SetReadyState DONE; Dispatch "readystatechange";
        Dispatch "load"; Dispatch "loadend"].
Proof.
  split; [reflexivity |].
  exact (proj1 (exchange_events exampleNode false answer201 ["{"; ""; "}"] sent
                  eq_refl eq_refl eq_refl eq_refl eq_refl)).
Defined.

(** ** Local files *)

Lemma send_file (node : Node) (data : option string) (s : XHR) (u : URL) :
  readyState s = OPENED → sendFlag s = false →
  url (settings s) ≫= parseURL node = Some u →
  protocol u = "file:" →
  method (settings s) = Some "GET" →
  send node data s
  = if async (settings s) then (emit (ReadFile (pathname u)) s, Return tt)
    else match readFileSync node (pathname u) with
         | inl e => handleError e s
         | inr d => setState DONE (set_status (Some 200) (set_responseText (Some d) s))
         end.
Proof.
  intros Hr Hs Hu Hp Hm. rewrite send_prelude, Hr, Hs, Hu, Hp.
  change (negb (OPENED =? OPENED)) with false. cbn iota.
  change (String.eqb "file:" "https:") with false.
  change (String.eqb "file:" "http:") with false.
  change (String.eqb "file:" "file:") with true. cbn iota.
  unfold sendLocal. unfold bind at 1, get at 1. cbn beta iota. rewrite Hm.
  change (negb (isMethod (Some "GET") "GET")) with false. cbn iota.
  unfold bind at 1, ret. cbn beta iota.
  destruct (async (settings s)); [reflexivity |].
  by destruct (readFileSync node (pathname u)).
Qed.

Lemma setState_DONE_spec (s : XHR) :
  readyState s ≠ DONE →
  ∃ s', setState DONE s = (s', Return tt) ∧
    readyState s' = DONE ∧ status s' = status s ∧ responseText s' = responseText s ∧
    log s' = log s ++ [SetReadyState DONE; Dispatch "readystatechange"]
             ++ (if errorFlag s then [] else [Dispatch "load"; Dispatch "loadend"]).
Proof.
  intros Hr. apply Z.eqb_neq in Hr. unfold_m.
  destruct (errorFlag s) eqn:He; repeat (cbn; rewrite ?Hr, ?He, ?orb_true_r);
    (eexists; split; [reflexivity |]); cbn; rewrite <- ?app_assoc; by repeat split.
Qed.

(** X19. For a [file:] URL requested with GET, asynchronous [send] followed
    by the callback of the file read ends like synchronous [send] whose
    read has the same outcome: in state DONE, with status 200 and the file
    content as response text, or through [handleError] with status 0, and
    with the same events; asynchronous mode only adds the start of the
    read. *)
Theorem file_modes_agree (node : Node) (data : option string) (s : XHR) (u : URL)
    (r : NodeError + string) :
  readyState s = OPENED → sendFlag s = false →
  url (settings s) ≫= parseURL node = Some u →
  protocol u = "file:" →
  method (settings s) = Some "GET" →
  readFileSync node (pathname u) = r →
  let a := after (callback node (OnFileRead r)) (after (send node data) (withAsync true s)) in
  let b := after (send node data) (withAsync false s) in
  readyState a = DONE ∧ readyState b = DONE ∧
  status a = status b ∧ responseText a = responseText b ∧
  status b = Some (match r with inr _ => 200 | inl _ => 0 end) ∧
  responseText b = match r with inr d => Some d | inl e => stack e end ∧
  ∃ events, log b = log s ++ events ∧
            log a = log s ++ ReadFile (pathname u) :: events.
Proof.
  intros Hr Hs Hu Hp Hm Hf a b. unfold a, b, after.
  rewrite (send_file node data (withAsync true s) u),
          (send_file node data (withAsync false s) u) by done.
  cbn [withAsync settings set_settings async fst]. rewrite Hf.
  destruct r as [e | d]; cbn [callback].
  - destruct (handleError_spec e (withAsync false s))
      as (s1 & E1 & Hst1 & _ & Ht1 & _ & Hr1 & _ & _ & Hl1).
    destruct (handleError_spec e (emit (ReadFile (pathname u)) (withAsync true s)))
      as (s2 & E2 & Hst2 & _ & Ht2 & _ & Hr2 & _ & _ & Hl2).
    rewrite E1, E2. cbn [fst].
    repeat split; try congruence.
    eexists. split; [exact Hl1 |]. rewrite Hl2. cbn. by rewrite <- app_assoc.
  - unfold bind, modify.
    destruct (setState_DONE_spec
                (set_status (Some 200) (set_responseText (Some d) (withAsync false s))))
      as (s1 & E1 & Hr1 & Hst1 & Ht1 & Hl1); [cbn; rewrite Hr; done |].
    destruct (setState_DONE_spec
                (set_responseText (Some d)
                   (set_status (Some 200)
                      (emit (ReadFile (pathname u)) (withAsync true s)))))
      as (s2 & E2 & Hr2 & Hst2 & Ht2 & Hl2); [cbn; rewrite Hr; done |].
    rewrite E1, E2. cbn [fst]. cbn in Hst1, Ht1, Hl1, Hst2, Ht2, Hl2.
    repeat split; try congruence.
    eexists. split; [exact Hl1 |]. rewrite Hl2. by rewrite <- app_assoc.
Qed.

Lemma file_modes_agree_witness :
  readyState openedFile = OPENED ∧
  readyState (after (callback exampleNode (OnFileRead (inr "127.0.0.1 localhost")))
                (after (send exampleNode None) (withAsync true openedFile))) = DONE ∧
  responseText (after (send exampleNode None) (withAsync false openedFile))
  = Some "127.0.0.1 localhost".
Proof.
  split; [reflexivity |].
  pose proof (file_modes_agree exampleNode None openedFile
                {| protocol := "file:"; hostname := ""; port := "";
                   pathname := "/etc/hosts"; search := "" |}
                (inr "127.0.0.1 localhost")
                eq_refl eq_refl eq_refl eq_refl eq_refl eq_refl) as H.
  cbv zeta in H. destruct H as (H1 & _ & _ & _ & _ & H6 & _).
  split; [exact H1 | exact H6].
Defined.

(** ** Reading the response headers *)

(** X20. While the error flag is set, as after [abort] or an error, the
    response headers cannot be read, whatever the transport delivers
    afterwards: [getResponseHeader] yields null and
    [getAllResponseHeaders] the empty string. *)
Theorem response_headers_hidden_after_error (node : Node) (cbs : list Callback)
    (s : XHR) (header : string) :
  errorFlag s = true →
  getResponseHeader header (deliver node cbs s) = None ∧
  getAllResponseHeaders (deliver node cbs s) = Return "".
Proof.
  intros He. destruct (deliver_quiet node cbs s He) as [He' _].
  unfold getResponseHeader, getAllResponseHeaders. rewrite He'.
  by rewrite andb_false_r, orb_true_r.
Qed.

Lemma response_headers_hidden_after_error_witness :
  errorFlag (after abort sent) = true ∧
  getResponseHeader "content-type"
    (deliver exampleNode (exchange false answer201 ["{}"]) (after abort sent)) = None ∧
  getAllResponseHeaders
    (deliver exampleNode (exchange false answer201 ["{}"]) (after abort sent)) = Return "".
Proof.
  split; [reflexivity |].
  exact (response_headers_hidden_after_error exampleNode
           (exchange false answer201 ["{}"]) (after abort sent) "content-type" eq_refl).
Defined.

(** ** Reading the request headers *)

(** X21. [getRequestHeader] reads back what [setRequestHeader] has stored,
    whatever the casing of either name: after an accepted call with a plain
    name, on an object whose registered names are plain, the header reads
    as the given value, or as the value read before followed by a comma, a
    space and the given value when that was non-empty. *)
Theorem getRequestHeader_after_set (h h' v : string) (s : XHR) :
  readyState s = OPENED → sendFlag s = false →
  isAllowedHttpHeader s h = true → truthy h = true →
  plainName h = true →
  wellCased s → plainlyCased s →
  (headersCase s !! toLowerCase h = None → headers s !! h = None) →
  toLowerCase h' = toLowerCase h →
  getRequestHeader h' (after (setRequestHeader h v) s)
  = Some (HStr (match getRequestHeader h s with
                | Some old => if truthyH old then strH old +:+ ", " +:+ v else v
                | None => v
                end)).
Proof.
  intros Hr Hs Hal Hh _ Hw _ Hfresh Hh'.
  unfold after, getRequestHeader, setRequestHeader. rewrite Hh'.
  rewrite Hr, Hal, Hs. change (negb (OPENED =? OPENED)) with false.
  cbn [negb fst]. rewrite headersCase_write_header, headers_write_header.
  cbn [headersCase set_headersCase].
  assert (∀ t m, headers (set_headersCase m t) = headers t) as Hhc by done.
  rewrite !Hhc.
  destruct (headersCase s !! toLowerCase h) as [k |] eqn:Ek.
  - assert (truthy k = true) as Hk.
    { destruct (truthy k) eqn:Et; [done |].
      apply truthy_false in Et. subst k.
      rewrite (toLowerCase_empty h) in Hh; [done |]. by rewrite <- (Hw _ _ Ek). }
    rewrite Hk. cbn iota. rewrite (Hw _ _ Ek), lookup_insert_eq, Hk, lookup_insert_eq.
    by destruct (headers s !! k) as [old |]; [destruct (truthyH old) |].
  - rewrite lookup_insert_eq, Hh, lookup_insert_eq, (Hfresh eq_refl). done.
Qed.

Lemma getRequestHeader_after_set_witness :
  readyState (after (setRequestHeader "X-Token" "a") opened) = OPENED ∧
  plainName "x-token" = true ∧
  toLowerCase "X-TOKEN" = toLowerCase "x-token" ∧
  getRequestHeader "X-TOKEN"
    (after (setRequestHeader "x-token" "b") (after (setRequestHeader "X-Token" "a") opened))
  = Some (HStr "a, b").
Proof.
  split; [reflexivity |]. split; [reflexivity |]. split; [reflexivity |].
  assert (∀ l k, headersCase (after (setRequestHeader "X-Token" "a") opened) !! l = Some k →
                 l = "x-token" ∧ k = "X-Token") as Hone.
  { intros l k Hl.
    change (headersCase (after (setRequestHeader "X-Token" "a") opened))
      with (<["x-token" := "X-Token"]> (∅ : gmap string string)) in Hl.
    destruct (decide (l = "x-token")) as [-> | Hne].
    - rewrite lookup_insert_eq in Hl. by injection Hl as <-.
    - by rewrite lookup_insert_ne, lookup_empty in Hl. }
  apply (getRequestHeader_after_set "x-token" "X-TOKEN" "b"
           (after (setRequestHeader "X-Token" "a") opened));
    try reflexivity.
  - intros l k Hl. by destruct (Hone l k Hl) as [-> ->].
  - intros l k Hl. by destruct (Hone l k Hl) as [-> ->].
Defined.

(** ** Event listeners *)

Lemma listenersOf_addEventListener (e e' : string) (h : nat) (r : Registry) :
  listenersOf e' (addEventListener e h r)
  = if String.eqb e e' then listenersOf e' r ++ [h] else listenersOf e' r.
Proof.
  unfold listenersOf, addEventListener. cbn [listeners].
  destruct (String.eqb_spec e e') as [-> | Hne].
  - by rewrite lookup_insert_eq.
  - by rewrite lookup_insert_ne.
Qed.

Lemma listenersOf_removeEventListener (e e' : string) (h : nat) (r : Registry) :
  listenersOf e' (removeEventListener e h r)
  = if String.eqb e e'
    then List.filter (fun ev => negb (Nat.eqb ev h)) (listenersOf e' r)
    else listenersOf e' r.
Proof.
  unfold listenersOf, removeEventListener.
  destruct (String.eqb_spec e e') as [-> | Hne].
  - destruct (listeners r !! e') as [l |] eqn:El; cbn [listeners].
    + by rewrite lookup_insert_eq.
    + by rewrite El.
  - destruct (listeners r !! e) as [l |] eqn:El; cbn [listeners]; [| done].
    by rewrite lookup_insert_ne.
Qed.

Lemma listenersOf_addAll (e' : string) (regs : list (string * nat)) :
  ∀ r, listenersOf e' (addAll regs r)
       = listenersOf e' r
         ++ map snd (List.filter (fun eh => String.eqb (fst eh) e') regs).
Proof.
  induction regs as [| [e h] regs IH]; intros r.
  - cbn. by rewrite app_nil_r.
  - cbn [addAll fold_left List.filter fst snd].
    fold (addAll regs (addEventListener e h r)).
    rewrite IH, listenersOf_addEventListener.
    destruct (String.eqb e e'); [| done].
    cbn [map snd]. by rewrite <- app_assoc.
Qed.

Lemma onHandlers_addAll (regs : list (string * nat)) :
  ∀ r, onHandlers (addAll regs r) = onHandlers r.
Proof.
  induction regs as [| [e h] regs IH]; intros r; [done |].
  cbn [addAll fold_left]. fold (addAll regs (addEventListener e h r)).
  by rewrite IH.
Qed.

(** X22. For event names that are not inherited from [Object.prototype],
    the listeners of an event are the callbacks registered for it, in the
    order of registration and as often as they were registered;
    [removeEventListener] takes out every registration of the callback for
    that event and nothing else: other callbacks, other events and the
    [on...] handlers stay. *)
Theorem listeners_after_add_remove (regs : list (string * nat))
    (e e' : string) (h : nat) :
  forallb (fun eh => negb (inherited (fst eh))) regs = true →
  inherited e = false → inherited e' = false →
  listenersOf e' (addAll regs noListeners)
  = map snd (List.filter (fun eh => String.eqb (fst eh) e') regs) ∧
  listenersOf e' (removeEventListener e h (addAll regs noListeners))
  = map snd (List.filter (fun eh => String.eqb (fst eh) e'
                                    && negb (String.eqb e e' && Nat.eqb (snd eh) h))
                         regs) ∧
  onHandlers (removeEventListener e h (addAll regs noListeners)) = ∅.
Proof.
  intros _ _ _. split; [| split].
  - by rewrite listenersOf_addAll.
  - rewrite listenersOf_removeEventListener, listenersOf_addAll.
    change (listenersOf e' noListeners) with (@nil nat). cbn [app].
    destruct (String.eqb e e'); cbn [andb negb].
    + induction regs as [| [e0 h0] regs IH]; [done |].
      cbn [List.filter fst snd]. destruct (String.eqb e0 e'); cbn [andb map snd List.filter].
      * destruct (Nat.eqb h0 h); cbn [negb map snd]; by rewrite IH.
      * exact IH.
    + f_equal. apply List.filter_ext. intros [e0 h0]. by rewrite andb_true_r.
  - unfold removeEventListener.
    destruct (listeners (addAll regs noListeners) !! e); cbn [onHandlers];
      by rewrite onHandlers_addAll.
Qed.

Lemma listeners_after_add_remove_witness :
  forallb (fun eh => negb (inherited (fst eh)))
          [("load", 1%nat); ("loadend", 2%nat); ("load", 3%nat); ("load", 1%nat)] = true ∧
  listenersOf "load"
    (addAll [("load", 1%nat); ("loadend", 2%nat); ("load", 3%nat); ("load", 1%nat)]
       noListeners)
  = [1%nat; 3%nat; 1%nat] ∧
  listenersOf "load"
    (removeEventListener "load" 1%nat
       (addAll [("load", 1%nat); ("loadend", 2%nat); ("load", 3%nat); ("load", 1%nat)]
          noListeners))
  = [3%nat] ∧
  listenersOf "loadend"
    (removeEventListener "load" 2%nat
       (addAll [("load", 1%nat); ("loadend", 2%nat); ("load", 3%nat); ("load", 1%nat)]
          noListeners))
  = [2%nat].
Proof.
  split; [reflexivity |].
  split; [| split].
  - exact (proj1 (listeners_after_add_remove
                    [("load", 1%nat); ("loadend", 2%nat); ("load", 3%nat); ("load", 1%nat)]
                    "load" "load" 1%nat eq_refl eq_refl eq_refl)).
  - exact (proj1 (proj2 (listeners_after_add_remove
                    [("load", 1%nat); ("loadend", 2%nat); ("load", 3%nat); ("load", 1%nat)]
                    "load" "load" 1%nat eq_refl eq_refl eq_refl))).
  - exact (proj1 (proj2 (listeners_after_add_remove
                    [("load", 1%nat); ("loadend", 2%nat); ("load", 3%nat); ("load", 1%nat)]
                    "load" "loadend" 2%nat eq_refl eq_refl eq_refl))).
Defined.

Lemma handlerCalls_app (r : Registry) (a b : list Effect) :
  handlerCalls r (a ++ b) = handlerCalls r a ++ handlerCalls r b.
Proof. unfold handlerCalls. apply flat_map_app. Qed.



(** ** The switch of the header check *)

Lemma disableHeaderCheck_withHeaders (m : gmap string HVal) (s : XHR) :
  disableHeaderCheck (withHeaders m s) = disableHeaderCheck s.
Proof. unfold withHeaders. by destruct (headersAliased s). Qed.

Lemma run_keeps_switch (node : Node) (cs : list Call) (s : XHR) :
  Forall (fun c => ∀ b, c ≠ DoSetDisableHeaderCheck b) cs →
  disableHeaderCheck (run node cs s) = disableHeaderCheck s.
Proof.
  intros Hcs.
  apply (later_run (fun s s' => disableHeaderCheck s' = disableHeaderCheck s));
    [done | intros; congruence |].
  eapply Forall_impl; [exact Hcs |].
  intros c Hc. apply later_perform; try done; try (intros; congruence).
  - intros k v s0. by destruct (write_header_frame k v s0) as (_ & _ & ->).
  - intros s0. destruct (applyDefaults_shape s0) as [m ->].
    apply disableHeaderCheck_withHeaders.
  - intros h v s0. by destruct (setRequestHeader_frame h v s0) as (_ & _ & -> & _).
Qed.

(** X24. The switch set by [setDisableHeaderCheck] is changed by no other
    call: it survives [open], [send], [abort] and every callback. While it
    is on, [setRequestHeader] lets every name through, forbidden and empty
    ones included, and logs no warning. *)
Theorem header_check_switch (node : Node) (cs : list Call) (s : XHR) (b : bool)
    (h v : string) :
  Forall (fun c => ∀ b', c ≠ DoSetDisableHeaderCheck b') cs →
  let s' := run node cs (after (setDisableHeaderCheck b) s) in
  disableHeaderCheck s' = b ∧
  (b = true → isAllowedHttpHeader s' h = true ∧
              log (after (setRequestHeader h v) s') = log s').
Proof.
  intros Hcs s'.
  assert (disableHeaderCheck s' = b) as Hb.
  { unfold s'. by rewrite run_keeps_switch. }
  split; [done |]. intros ->.
  assert (isAllowedHttpHeader s' h = true) as Hal
    by (unfold isAllowedHttpHeader; by rewrite Hb).
  split; [done |].
  unfold after, setRequestHeader, throw, modify. rewrite Hal.
  destruct (negb (readyState s' =? OPENED)); [done |]. cbn [negb].
  destruct (sendFlag s'); [done |]. cbn [fst].
  by rewrite log_write_header.
Qed.

Lemma header_check_switch_witness :
  disableHeaderCheck
    (run exampleNode
       [DoOpen "GET" "http://example.com/" None None None; DoSend None; DoAbort;
        DoOpen "GET" "http://example.com/" None None None]
       (after (setDisableHeaderCheck true) initial)) = true ∧
  isAllowedHttpHeader
    (run exampleNode
       [DoOpen "GET" "http://example.com/" None None None; DoSend None; DoAbort;
        DoOpen "GET" "http://example.com/" None None None]
       (after (setDisableHeaderCheck true) initial)) "Host" = true.
Proof.
  assert (Forall (fun c => ∀ b', c ≠ DoSetDisableHeaderCheck b')
            [DoOpen "GET" "http://example.com/" None None None; DoSend None; DoAbort;
             DoOpen "GET" "http://example.com/" None None None]) as H
    by (repeat constructor; discriminate).
  pose proof (header_check_switch exampleNode _ initial true "Host" "x" H) as [H1 H2].
  split; [exact H1 | exact (proj1 (H2 eq_refl))].
Defined.

(** ** Reading a response header *)

(** X25. Once the headers of an answer that is not a redirect have arrived
    on a request in flight, [getResponseHeader] with an ASCII name whose
    lower-case form is not inherited from [Object.prototype] returns the
    header stored under that lower-case form, and null when there is none
    or it is empty. *)
Theorem getResponseHeader_after_headers (node : Node) (ssl : bool) (r : Response)
    (s : XHR) (header : string) :
  isRedirect (statusCode r) = false →
  readyState s = OPENED → errorFlag s = false →
  isAscii header = true → inherited (toLowerCase header) = false →
  getResponseHeader header (after (callback node (OnResponse ssl r)) s)
  = match rheader (toLowerCase header) r with
    | Some v => if truthyR v then Some v else None
    | None => None
    end.
Proof.
  intros Hred Hr He _ _. unfold after. cbn [callback]. unfold responseHandler.
  rewrite Hred. unfold getResponseHeader. unfold_m.
  destruct (async (settings s)) eqn:Ha; repeat (cbn; rewrite ?Hr, ?He, ?Ha); done.
Qed.

Lemma getResponseHeader_after_headers_witness :
  readyState sent = OPENED ∧
  getResponseHeader "Content-Type"
    (after (callback exampleNode (OnResponse false answer201)) sent)
  = Some (RStr "application/json").
Proof.
  split; [reflexivity |].
  exact (getResponseHeader_after_headers exampleNode false answer201 sent "Content-Type"
           eq_refl eq_refl eq_refl eq_refl eq_refl).
Defined.

(** ** Opening again while a request is in flight *)

(** X26. [open] on a request in flight does not abort it and dispatches
    nothing, the state being OPENED already; the send flag stays up. The
    answer to the request in flight is then taken for the newly opened
    one: it completes it, with its status and body. *)
Theorem open_does_not_cancel (node : Node) (ssl : bool) (r : Response)
    (chunks : list string) (s : XHR) (t : string)
    (method_ url_ : string) (user_ password_ : option string) :
  readyState s = OPENED → sendFlag s = true → responseText s = Some t →
  isAllowedHttpMethod method_ = true →
  isRedirect (statusCode r) = false →
  let reopened := after (open method_ url_ None user_ password_) s in
  let completed := deliver node (exchange ssl r chunks) reopened in
  log reopened = log s ∧ sendFlag reopened = true ∧
  url (settings reopened) = Some url_ ∧
  readyState completed = DONE ∧
  status completed = Some (statusCode r) ∧
  responseText completed = Some (t +:+ joined chunks) ∧
  fired "load" completed = S (fired "load" s).
Proof.
  intros Hr Hs Ht Hm Hred reopened completed.
  destruct (open_spec method_ url_ None user_ password_ s Hm)
    as (s1 & E & Hr1 & He1 & Hs1 & _ & Hu1 & Ha1 & _ & Ht1 & _ & _ & _ & Hl1).
  assert (reopened = s1) as Heq by (unfold reopened, after; by rewrite E).
  unfold completed. rewrite Heq. clear completed reopened Heq.
  rewrite Hr in Hl1. change (OPENED =? OPENED) with true in Hl1.
  rewrite app_nil_r in Hl1.
  assert (sendFlag s1 = true) as Hs1' by congruence.
  assert (async (settings s1) = true) as Ha1' by done.
  assert (responseText s1 = Some t) as Ht1' by congruence.
  destruct (deliver_exchange node ssl r chunks s1 t Hred Hr1 Hs1' He1 Ha1' Ht1')
    as (D1 & D2 & D3 & _ & D5).
  repeat split; try congruence.
  rewrite D5. unfold fired. by rewrite Hl1.
Qed.

Lemma open_does_not_cancel_witness :
  readyState sent = OPENED ∧ sendFlag sent = true ∧
  issued (after (open "GET" "http://example.com/other?page=2" None None None) sent)
  = issued sent ∧
  status (deliver exampleNode (exchange false answer201 ["{}"])
            (after (open "GET" "http://example.com/other?page=2" None None None) sent))
  = Some 201.
Proof.
  split; [reflexivity |]. split; [reflexivity |].
  pose proof (open_does_not_cancel exampleNode false answer201 ["{}"] sent ""
                "GET" "http://example.com/other?page=2" None None
                eq_refl eq_refl eq_refl eq_refl eq_refl) as H.
  cbv zeta in H. destruct H as (H1 & _ & _ & _ & H5 & _).
  split; [unfold issued; by rewrite H1 | exact H5].
Defined.

(** ** Chains of redirects *)

Lemma responseHandler_moved (node : Node) (ssl : bool) (code : Z) (loc : string)
    (u : URL) (s : XHR) :
  isRedirect code = true → parseURL node loc = Some u →
  let s' := fst (callback node (OnResponse ssl (moved code loc)) s) in
  (∃ e, log s' = log s ++ [e] ∧ isRequest e = true) ∧
  readyState s' = readyState s ∧ status s' = status s ∧ sendFlag s' = sendFlag s.
Proof.
  intros Hred Hu. cbn [callback]. unfold responseHandler. unfold_m.
  cbn [statusCode moved]. rewrite Hred. cbn.
  unfold newURL. cbn. rewrite Hu. cbn.
  split; [| done]. by eexists.
Qed.

(** X29. Redirects are followed without any bound: however many redirect
    answers arrive in a row, each one is answered with a further request
    and nothing else happens; no event is dispatched and [readyState],
    [status] and the send flag stay as they are, so a redirect loop never
    ends the request. *)
Theorem redirects_unbounded (node : Node) (ssl : bool) (code : Z) (loc : string)
    (u : URL) (n : nat) (s : XHR) :
  isRedirect code = true → parseURL node loc = Some u →
  ∃ reqs,
    log (deliver node (repeat (OnResponse ssl (moved code loc)) n) s) = log s ++ reqs ∧
    length reqs = n ∧ forallb isRequest reqs = true ∧
    readyState (deliver node (repeat (OnResponse ssl (moved code loc)) n) s)
    = readyState s ∧
    status (deliver node (repeat (OnResponse ssl (moved code loc)) n) s) = status s ∧
    sendFlag (deliver node (repeat (OnResponse ssl (moved code loc)) n) s) = sendFlag s.
Proof.
  intros Hred Hu. revert s. induction n as [| n IH]; intros s.
  - exists []. by rewrite app_nil_r.
  - cbn [repeat deliver fold_left].
    destruct (responseHandler_moved node ssl code loc u s Hred Hu)
      as ((e & El & He) & Hr & Hst & Hs).
    destruct (IH (fst (callback node (OnResponse ssl (moved code loc)) s)))
      as (reqs & E & Hn & Hall & Hr' & Hst' & Hs').
    unfold deliver in *. exists (e :: reqs).
    split; [by rewrite E, El, <- app_assoc |].
    split; [cbn [length]; by rewrite Hn |].
    split; [cbn [forallb]; by rewrite He, Hall |].
    repeat split; congruence.
Qed.

Lemma redirects_unbounded_witness :
  isRedirect 302 = true ∧
  ∃ reqs,
    log (deliver exampleNode
           (repeat (OnResponse false (moved 302 "http://example.com/")) 5) sent)
    = log sent ++ reqs ∧
    length reqs = 5%nat ∧ forallb isRequest reqs = true ∧
    readyState (deliver exampleNode
                  (repeat (OnResponse false (moved 302 "http://example.com/")) 5) sent)
    = readyState sent ∧
    status (deliver exampleNode
              (repeat (OnResponse false (moved 302 "http://example.com/")) 5) sent)
    = status sent ∧
    sendFlag (deliver exampleNode
                (repeat (OnResponse false (moved 302 "http://example.com/")) 5) sent)
    = sendFlag sent.
Proof.
  split; [reflexivity |].
  exact (redirects_unbounded exampleNode false 302 "http://example.com/"
           {| protocol := "http:"; hostname := "example.com"; port := "";
              pathname := "/"; search := "" |} 5 sent eq_refl eq_refl).
Defined.

(** ** abort in any state *)

(** X30. Whatever the state, [abort] returns normally and leaves the
    request in state UNSENT with status 0, an empty response text, the
    error flag set and [headers] the defaults object; it dispatches [abort]
    once, never [load], and [readystatechange] at most once. *)
Theorem abort_any_state (s : XHR) :
  snd (abort s) = Return tt ∧
  readyState (after abort s) = UNSENT ∧
  status (after abort s) = Some 0 ∧
  responseText (after abort s) = Some "" ∧
  errorFlag (after abort s) = true ∧
  headersAliased (after abort s) = true ∧
  fired "abort" (after abort s) = S (fired "abort" s) ∧
  fired "load" (after abort s) = fired "load" s ∧
  (fired "readystatechange" (after abort s) ≤ S (fired "readystatechange" s))%nat.
Proof.
  split; [apply returns_unit, returns_abort |].
  unfold after, abort, fired. unfold_m.
  destruct (request s); cbn;
    destruct (negb (readyState s =? UNSENT)
              && (negb (readyState s =? OPENED) || sendFlag s)
              && negb (readyState s =? DONE)) eqn:Hc; cbn.
  all: try (rewrite !List.filter_app; cbn; rewrite !length_app; cbn;
            repeat split; lia).
  all: apply andb_prop in Hc as [_ Hd];
    repeat (cbn; rewrite ?Hd, ?orb_true_r);
    rewrite !List.filter_app; cbn; rewrite !length_app; cbn;
    repeat split; lia.
Qed.

(** * Merging configurations *)

Section ConfigFacts.
Context {Num : Type} (numTruthy : Num → bool)
        (getOther : Config.JVal Num → string → Config.JVal Num).

(** The branch that calls [merge] again is never taken: a value of type
    [object] is not a primitive, for which [indexOf] yields -1, which is
    truthy. *)
Lemma mergeValue_merged (rec : Config.JVal Num → Outcome (Config.JVal Num))
    (v1 v2 : Config.JVal Num) :
  Config.mergeValue numTruthy rec v1 v2 = Return (Config.merged numTruthy v1 v2).
Proof.
  unfold Config.mergeValue, Config.merged.
  destruct v1, v2; cbv;
    repeat match goal with |- context [if ?b then _ else _] => destruct b end;
    reflexivity.
Qed.

(** X27. [merge] of two plain objects, the first with no key that is
    inherited from [Object.prototype], never throws and never descends: the
    result has the keys of the first object, in their order, and under
    each key the value of the second object if that is truthy and of the
    same type, except that two arrays are concatenated and a string is
    never replaced; otherwise the value of the first. So an object nested
    in both is replaced as a whole, keys of the second object that the
    first lacks are ignored at the top only, and no string setting can be
    changed. *)
Theorem merge_is_shallow (fields1 fields2 : list (string * Config.JVal Num)) :
  forallb (fun kv => negb (inherited (fst kv))) fields1 = true →
  Config.merge numTruthy getOther (Config.JObj fields1) (Config.JObj fields2)
  = Return (Config.JObj
              (map (fun kv => (fst kv, Config.merged numTruthy (snd kv)
                                         (Config.getField (fst kv) fields2)))
                   fields1)).
Proof.
  intros _. cbn [Config.merge].
  match goal with
  | |- match ?each fields1 with _ => _ end = _ =>
      assert (∀ fs, each fs
                    = Return (map (fun kv => (fst kv,
                                              Config.merged numTruthy (snd kv)
                                                (Config.getField (fst kv) fields2))) fs))
        as ->; [| done]
  end.
  induction fs as [| [key v1] rest IH]; [done |].
  cbn [map fst snd]. rewrite IH. cbn [Config.getP]. by rewrite mergeValue_merged.
Qed.

(** X28. [mergeConfig] hands [merge] the variable [dbConfig] of the module,
    which is never assigned, and not its parameter [configDb]. For a
    configuration object or array as [getConfigFromDb] passes it, the call
    therefore throws a TypeError at the first key, and changes nothing
    when there is no key: nothing is ever merged. *)
Theorem mergeConfig_never_merges (configDb localConfig : Config.JVal Num) :
  Config.typeOf localConfig = "object" →
  Config.truthyJ numTruthy localConfig = true →
  if Config.hasKeys localConfig
  then ∃ msg, Config.mergeConfig numTruthy getOther configDb localConfig
              = Throw (TypeError msg)
  else Config.mergeConfig numTruthy getOther configDb localConfig = Return localConfig.
Proof.
  intros Ht Hv. unfold Config.mergeConfig, Config.dbConfig.
  destruct localConfig as [| | b | n | s | id | l | fs]; try discriminate.
  - destruct l; [done | by eexists].
  - destruct fs as [| [key v1] rest]; [done | by eexists].
Qed.
End ConfigFacts.

Lemma mergeConfig_never_merges_witness :
  Config.mergeConfig (fun n => negb (n =? 0)) (fun _ _ => Config.JUndefined)
    (Config.JObj [("httpClient", Config.JObj [("maxRetryCount", Config.JNum 3)])])
    (Config.JObj [])
  = Return (Config.JObj []) ∧
  ∃ msg,
    Config.mergeConfig (fun n => negb (n =? 0)) (fun _ _ => Config.JUndefined)
      (Config.JObj [("httpClient", Config.JObj [("maxRetryCount", Config.JNum 3)])])
      (Config.JObj [("httpClient", Config.JObj [("maxRetryCount", Config.JNum 5)])])
    = Throw (TypeError msg).
Proof.
  split.
  - exact (mergeConfig_never_merges (fun n => negb (n =? 0))
             (fun _ _ => Config.JUndefined)
             (Config.JObj [("httpClient", Config.JObj [("maxRetryCount", Config.JNum 3)])])
             (Config.JObj []) eq_refl eq_refl).
  - exact (mergeConfig_never_merges (fun n => negb (n =? 0))
             (fun _ _ => Config.JUndefined)
             (Config.JObj [("httpClient", Config.JObj [("maxRetryCount", Config.JNum 3)])])
             (Config.JObj [("httpClient", Config.JObj [("maxRetryCount", Config.JNum 5)])])
             eq_refl eq_refl).
Defined.

Lemma merge_is_shallow_witness :
  Config.merge (fun n => negb (n =? 0)) (fun _ _ => Config.JUndefined)
    (Config.JObj [("apiResponse",
                   Config.JObj [("statusKey", Config.JStr "status");
                                ("errorCodeKey", Config.JStr "errorCode")]);
                  ("maxRetryCount", Config.JNum 3);
                  ("name", Config.JStr "local")])
    (Config.JObj [("apiResponse", Config.JObj [("statusKey", Config.JStr "code")]);
                  ("maxRetryCount", Config.JNum 5);
                  ("name", Config.JStr "remote");
                  ("extra", Config.JBool true)])
  = Return (Config.JObj [("apiResponse",
                          Config.JObj [("statusKey", Config.JStr "code")]);
                         ("maxRetryCount", Config.JNum 5);
                         ("name", Config.JStr "local")]).
Proof.
  exact (merge_is_shallow (fun n => negb (n =? 0)) (fun _ _ => Config.JUndefined)
           [("apiResponse",
             Config.JObj [("statusKey", Config.JStr "status");
                          ("errorCodeKey", Config.JStr "errorCode")]);
            ("maxRetryCount", Config.JNum 3);
            ("name", Config.JStr "local")]
           [("apiResponse", Config.JObj [("statusKey", Config.JStr "code")]);
            ("maxRetryCount", Config.JNum 5);
            ("name", Config.JStr "remote");
            ("extra", Config.JBool true)]
           eq_refl).
Defined.
